(** * discordMAN: the washing-machine support bot ([disman.py])

    A shallow embedding of the triage and ticket life cycle of the bot:
    the Gemini classifier adapter ([WashingMachineAnalyzer]), the Mantis
    ticket adapter ([MantisHubIntegration]), the local ticket table
    ([TicketDatabase]) and the handlers of [DiscordWashingMachineBot].

    Conventions of the model.
    - A Python [str] is a Rocq [string] holding the UTF-8 bytes of its
      code points, a lone surrogate in the three-byte form.  [strip]
      removes the white space of Unicode.  The case mappings of Unicode
      are not modelled: [title] is computed on ASCII text and is a
      parameter of the model, [unicode_title], on any other text;
      [lower] is used only to recognise the ASCII words hi, hello and
      help, see [is_greeting].  [int] is computed on ASCII text; its
      result on other text and the limit of the interpreter on the
      digits are parameters, see [py_int].
    - The values [json.loads] produces are the inductive [pyval]; the
      decoder itself is modelled in [Json].
    - A Python exception is a constructor of [exn]; code that may raise
      returns in [res], handlers that also mutate the bot run in [M],
      where a raise keeps the mutations made before it.
    - The outside world is a set of oracles, [env]: the answer of the
      Gemini endpoint to a request, what the exchange with Mantis makes
      [create_ticket] return, the identifier Discord gives to a reply,
      the clock, and the limits of the interpreter that runs
      [json.loads] (the digits of an [int] literal, the depth of the
      recursion).  The model quantifies over every answer.
    - Sending a Discord message and adding a reaction succeed.  The
      INSERT succeeds once its parameters are bound; binding raises on
      a text with a lone surrogate, on an [int] beyond 64 bits and on
      a [list] or a [dict].
    - The handlers append to a trace, [log], what they do in order:
      calls to the collaborators and updates of the registry of offers.
    - A handler of [M] runs to its end.  The interleaving of
      escalations at their [await]s is modelled apart, see
      [escalation_step].
    - Outside the model: exceptions that are not [Exception]s (task
      cancellation). *)

From Stdlib Require Import ZArith NArith Ascii String List Lia Bool.
From Stdlib Require Import DecimalString.
From stdpp Require Import base option gmap strings list sorting.

Local Open Scope Z_scope.
Set Warnings "-register-all".

(** ** Exceptions and results *)

Inductive exn :=
| TimeoutError        (* asyncio.TimeoutError *)
| ClientError         (* aiohttp.ClientError: connection failures *)
| ContentTypeError    (* response.json() on a body that is not JSON *)
| JSONDecodeError
| KeyError
| IndexError
| TypeError
| AttributeError
| OverflowError
| ValueError          (* also stands for RecursionError in [json.loads] *)
| UnicodeEncodeError
| SqliteError.        (* sqlite3.Error: a parameter that cannot be bound *)

Inductive res (A : Type) :=
| Ok (a : A)
| Raise (e : exn).
Arguments Ok {A} a.
Arguments Raise {A} e.

Definition res_bind {A B} (r : res A) (k : A -> res B) : res B :=
  match r with
  | Ok a => k a
  | Raise e => Raise e
  end.

Declare Scope res_scope.
Delimit Scope res_scope with res.
Notation "x <- r ;; k" := (res_bind r (fun x => k))
  (at level 100, r at next level, right associativity) : res_scope.
Notation "'ret' a" := (Ok a) (at level 10) : res_scope.

(** ** Strings *)

Module Str.

Definition code (c : ascii) : N := N_of_ascii c.

Definition is_upper (c : ascii) : bool := (65 <=? code c)%N && (code c <=? 90)%N.
Definition is_lower (c : ascii) : bool := (97 <=? code c)%N && (code c <=? 122)%N.
Definition is_cased (c : ascii) : bool := is_upper c || is_lower c.
Definition to_upper (c : ascii) : ascii :=
  if is_lower c then ascii_of_N (code c - 32) else c.
Definition to_lower (c : ascii) : ascii :=
  if is_upper c then ascii_of_N (code c + 32) else c.

(** [str.isspace] on ASCII: TAB, LF, VT, FF, CR, FS, GS, RS, US, SPACE. *)
Definition is_space (c : ascii) : bool :=
  ((9 <=? code c)%N && (code c <=? 13)%N)
  || ((28 <=? code c)%N && (code c <=? 32)%N).

(** A text of ASCII characters only. *)
Fixpoint is_ascii (s : string) : bool :=
  match s with
  | EmptyString => true
  | String c r => (code c <? 128)%N && is_ascii r
  end.

(** [chr(n)] in UTF-8 (a lone surrogate in the three-byte form). *)
Definition utf8 (n : N) : string :=
  let b (x : N) := ascii_of_N x in
  (if n <? 128 then String (b n) EmptyString
   else if n <? 2048 then
     String (b (192 + n / 64)) (String (b (128 + n mod 64)) EmptyString)
   else if n <? 65536 then
     String (b (224 + n / 4096))
       (String (b (128 + (n / 64) mod 64)) (String (b (128 + n mod 64)) EmptyString))
   else
     String (b (240 + n / 262144))
       (String (b (128 + (n / 4096) mod 64))
          (String (b (128 + (n / 64) mod 64))
             (String (b (128 + n mod 64)) EmptyString))))%N.

(** A text that UTF-8 can encode: it holds no surrogate.  In the
    three-byte form a surrogate, U+D800 to U+DFFF, is the byte 237
    followed by a byte from 160 on. *)
Fixpoint encodable (s : string) : bool :=
  match s with
  | EmptyString => true
  | String c r =>
      negb ((code c =? 237)%N
            && match r with
               | String d _ => (160 <=? code d)%N
               | EmptyString => false
               end)
      && encodable r
  end.

(** [s.title()] on ASCII text: a cased character is upper-cased when
    the previous character is not cased and lower-cased when it is. *)
Fixpoint title_from (previous_is_cased : bool) (s : string) : string :=
  match s with
  | EmptyString => EmptyString
  | String c r =>
      String (if previous_is_cased then to_lower c else to_upper c)
             (title_from (is_cased c) r)
  end.
Definition title_ascii (s : string) : string := title_from false s.

(** [s.title()]: on a text with other characters the result depends on
    the case mappings of Unicode, which [unicode_title] stands for. *)
Definition title (unicode_title : string -> string) (s : string) : string :=
  if is_ascii s then title_ascii s else unicode_title s.

(** [s.lower()] on the ASCII letters; another character is left as it
    is.  The bot compares the result with the words hi, hello and help
    only, and lower-casing turns no character outside ASCII into one of
    their letters (the only ASCII letter so obtained is k, from the
    Kelvin sign), so the comparison is the one of [str.lower]. *)
Fixpoint lower (s : string) : string :=
  match s with
  | EmptyString => EmptyString
  | String c r => String (to_lower c) (lower r)
  end.

(** The white space of Unicode outside ASCII, the other characters of
    [str.isspace]: U+0085, U+00A0, U+1680, U+2000 to U+200A, U+2028,
    U+2029, U+202F, U+205F and U+3000. *)
Definition wide_spaces : list N :=
  [133; 160; 5760; 8192; 8193; 8194; 8195; 8196; 8197; 8198; 8199; 8200; 8201;
   8202; 8232; 8233; 8239; 8287; 12288]%N.

(** [drop_prefix p s] is [Some r] when [s = p ++ r]. *)
Fixpoint drop_prefix (p s : string) : option string :=
  match p, s with
  | EmptyString, _ => Some s
  | String a p', String b s' => if Ascii.eqb a b then drop_prefix p' s' else None
  | String _ _, EmptyString => None
  end.

(** [s] without the white-space character it starts with, if any. *)
Definition drop_space (s : string) : option string :=
  match s with
  | EmptyString => None
  | String c r =>
      if is_space c then Some r
      else
        fold_right
          (fun n found =>
             match drop_prefix (utf8 n) s with
             | Some r' => Some r'
             | None => found
             end)
          None wide_spaces
  end.

Fixpoint lstrip_go (fuel : nat) (s : string) : string :=
  match fuel with
  | O => s
  | S fuel' =>
      match drop_space s with
      | Some r => lstrip_go fuel' r
      | None => s
      end
  end.

(** [s.lstrip()]; a white-space character takes at least one byte, so
    the length of [s] is fuel enough. *)
Definition lstrip (s : string) : string := lstrip_go (String.length s) s.

(** [s.rstrip()]: the text is cut where what follows is white space
    only. *)
Fixpoint rstrip (s : string) : string :=
  match s with
  | EmptyString => EmptyString
  | String c r =>
      match lstrip s with
      | EmptyString => EmptyString
      | String _ _ => String c (rstrip r)
      end
  end.

Definition strip (s : string) : string := rstrip (lstrip s).

(** [s.replace(old, new)] for a non-empty [old]: non-overlapping
    occurrences, from the left. *)
Fixpoint replace_go (fuel : nat) (old new s : string) : string :=
  match fuel with
  | O => s
  | S fuel' =>
      match drop_prefix old s with
      | Some r => new +:+ replace_go fuel' old new r
      | None =>
          match s with
          | EmptyString => EmptyString
          | String c r => String c (replace_go fuel' old new r)
          end
      end
  end.
Definition replace (old new s : string) : string :=
  replace_go (S (String.length s)) old new s.

(** [str(n)] for an [int]. *)
Definition of_Z (n : Z) : string := NilZero.string_of_int (Z.to_int n).

(** Back-quotes stand for double quotes in the literals of this
    file: [bq "{`a`: 1}"] is the text [{"a": 1}]. *)
Fixpoint bq (s : string) : string :=
  match s with
  | EmptyString => EmptyString
  | String c r => String (if Ascii.eqb c "`"%char then "034"%char else c) (bq r)
  end.

End Str.

(** ** Python values *)

(** A [float] obtained from a JSON literal: the decimal
    [(-1)^neg * digits * 10^exp], or one of the constants [NaN],
    [Infinity], [-Infinity] that [json.loads] accepts. *)
Inductive pyfloat :=
| FDec (neg : bool) (digits : N) (exp : Z)
| FNaN
| FInf (neg : bool).

Inductive pyval :=
| PyNone
| PyBool (b : bool)
| PyInt (n : Z)
| PyFloat (f : pyfloat)
| PyStr (s : string)
| PyList (l : list pyval)
| PyDict (d : list (string * pyval)).

(** A [dict] with string keys, in insertion order, keys distinct. *)
Abbreviation pydict := (list (string * pyval)).

Fixpoint dict_get (d : pydict) (k : string) : option pyval :=
  match d with
  | [] => None
  | (k', v) :: d' => if String.eqb k' k then Some v else dict_get d' k
  end.

(** [d[k] = v]: an existing key keeps its position. *)
Fixpoint dict_set (d : pydict) (k : string) (v : pyval) : pydict :=
  match d with
  | [] => [(k, v)]
  | (k', v') :: d' =>
      if String.eqb k' k then (k', v) :: d' else (k', v') :: dict_set d' k v
  end.

(** [dict(pairs)] *)
Definition dict_of_pairs (pairs : list (string * pyval)) : pydict :=
  fold_left (fun d kv => dict_set d (fst kv) (snd kv)) pairs [].

(** The double closest to a decimal is [0.0] exactly when the decimal
    is at most [2^-1075] in absolute value (half of the least
    subnormal; the tie rounds to even). *)
Definition float_is_zero (f : pyfloat) : bool :=
  match f with
  | FDec _ digits exp =>
      (digits =? 0)%N
      || ((exp <? 0) && (Z.of_N digits * 2 ^ 1075 <=? 10 ^ (- exp)))
  | FNaN | FInf _ => false
  end.

(** Number of code points of a UTF-8 string: the bytes that are not
    continuation bytes [10xxxxxx]. *)
Fixpoint str_len (s : string) : nat :=
  match s with
  | EmptyString => O
  | String c r =>
      if ((128 <=? Str.code c)%N && (Str.code c <? 192)%N)%bool
      then str_len r else S (str_len r)
  end.

(** The first code point of a UTF-8 string, and the rest. *)
Fixpoint take_continuation (s : string) : string :=
  match s with
  | String c r =>
      if ((128 <=? Str.code c)%N && (Str.code c <? 192)%N)%bool
      then String c (take_continuation r) else EmptyString
  | EmptyString => EmptyString
  end.

(** [bool(v)] *)
Definition py_truthy (v : pyval) : bool :=
  match v with
  | PyNone => false
  | PyBool b => b
  | PyInt n => negb (n =? 0)
  | PyFloat f => negb (float_is_zero f)
  | PyStr s => negb (String.eqb s "")
  | PyList l => match l with [] => false | _ => true end
  | PyDict d => match d with [] => false | _ => true end
  end.

(** [len(v)] *)
Definition py_len (v : pyval) : res nat :=
  match v with
  | PyStr s => Ok (str_len s)
  | PyList l => Ok (length l)
  | PyDict d => Ok (length d)
  | PyNone | PyBool _ | PyInt _ | PyFloat _ => Raise TypeError
  end.

(** [v.get(k)]: only a [dict] has the method. *)
Definition py_get (v : pyval) (k : string) : res pyval :=
  match v with
  | PyDict d => Ok (default PyNone (dict_get d k))
  | _ => Raise AttributeError
  end.

(** [v.get(k, dflt)] *)
Definition py_get_default (v : pyval) (k : string) (dflt : pyval) : res pyval :=
  match v with
  | PyDict d => Ok (default dflt (dict_get d k))
  | _ => Raise AttributeError
  end.

(** [v[k]] for a string key. *)
Definition py_getitem (v : pyval) (k : string) : res pyval :=
  match v with
  | PyDict d =>
      match dict_get d k with
      | Some x => Ok x
      | None => Raise KeyError
      end
  | _ => Raise TypeError
  end.

(** [v[0]].  The keys of a [dict] read from JSON are strings, so the
    integer key [0] is never found. *)
Definition py_getitem0 (v : pyval) : res pyval :=
  match v with
  | PyList l =>
      match l with
      | x :: _ => Ok x
      | [] => Raise IndexError
      end
  | PyStr s =>
      match s with
      | String c r => Ok (PyStr (String c (take_continuation r)))
      | EmptyString => Raise IndexError
      end
  | PyDict _ => Raise KeyError
  | PyNone | PyBool _ | PyInt _ | PyFloat _ => Raise TypeError
  end.

(** [v.title()]: only a [str] has the method. *)
Definition py_title (unicode_title : string -> string) (v : pyval) : res string :=
  match v with
  | PyStr s => Ok (Str.title unicode_title s)
  | _ => Raise AttributeError
  end.

(** [v == s] for a string literal [s]. *)
Definition py_eq_str (v : pyval) (s : string) : bool :=
  match v with
  | PyStr s' => String.eqb s' s
  | _ => false
  end.

(** Hashing a value, as a [dict] lookup does: a [list] or a [dict] is
    unhashable. *)
Definition py_hashable (v : pyval) : bool :=
  match v with
  | PyList _ | PyDict _ => false
  | _ => true
  end.

(** ** [json.loads]

    The decoder of Python's [json] module in its default (strict)
    configuration, on a [str]. *)

Module Json.

Inductive parse (A : Type) :=
| Parsed (a : A) (rest : string)
| Invalid        (* the decoder raises JSONDecodeError *)
| OutOfFuel.     (* never returned by [loads], see [loads_fuel] *)
Arguments Parsed {A} a rest.
Arguments Invalid {A}.
Arguments OutOfFuel {A}.

Definition dquote : ascii := "034"%char.
Definition backslash : ascii := "092"%char.

Definition is_ws (c : ascii) : bool :=
  Ascii.eqb c " " || Ascii.eqb c "009" || Ascii.eqb c "010" || Ascii.eqb c "013".

Fixpoint skip_ws (s : string) : string :=
  match s with
  | String c r => if is_ws c then skip_ws r else s
  | EmptyString => EmptyString
  end.

Definition is_digit (c : ascii) : bool :=
  (48 <=? Str.code c)%N && (Str.code c <=? 57)%N.
Definition digit_val (c : ascii) : N := (Str.code c - 48)%N.

Definition hex_val (c : ascii) : option N :=
  let n := Str.code c in
  if is_digit c then Some (n - 48)%N
  else if (65 <=? n)%N && (n <=? 70)%N then Some (n - 55)%N
  else if (97 <=? n)%N && (n <=? 102)%N then Some (n - 87)%N
  else None.

Definition hex4 (a b c d : ascii) : option N :=
  match hex_val a, hex_val b, hex_val c, hex_val d with
  | Some x, Some y, Some z, Some w => Some (((x * 16 + y) * 16 + z) * 16 + w)%N
  | _, _, _, _ => None
  end.

(** [[0-9]*], accumulating the value read and the number of digits. *)
Fixpoint scan_digits (s : string) (acc : N) (cnt : nat) : N * nat * string :=
  match s with
  | String c r =>
      if is_digit c then scan_digits r (acc * 10 + digit_val c)%N (S cnt)
      else (acc, cnt, s)
  | EmptyString => (acc, cnt, s)
  end.

(** The optional [(\.[0-9]+)] after an integer part [n]. *)
Definition scan_frac (n : N) (s : string) : option (N * nat) * string :=
  match s with
  | String c (String d _ as r) =>
      if Ascii.eqb c "." && is_digit d
      then let '(m, cnt, r') := scan_digits r n O in (Some (m, cnt), r')
      else (None, s)
  | _ => (None, s)
  end.

(** The optional [([eE][-+]?[0-9]+)]. *)
Definition scan_exp (s : string) : option Z * string :=
  match s with
  | String c r =>
      if Ascii.eqb c "e" || Ascii.eqb c "E" then
        let '(eneg, r1) :=
          match r with
          | String sg r' =>
              if Ascii.eqb sg "-" then (true, r')
              else if Ascii.eqb sg "+" then (false, r')
              else (false, r)
          | EmptyString => (false, r)
          end in
        match r1 with
        | String d _ =>
            if is_digit d
            then let '(x, _, r2) := scan_digits r1 0%N O in
                 (Some (if eneg then - Z.of_N x else Z.of_N x), r2)
            else (None, s)
        | EmptyString => (None, s)
        end
      else (None, s)
  | EmptyString => (None, s)
  end.

Definition finish_number (neg : bool) (n : N) (s : string) : pyval * string :=
  let '(frac, s1) := scan_frac n s in
  let '(ex, s2) := scan_exp s1 in
  match frac, ex with
  | None, None => (PyInt (if neg then - Z.of_N n else Z.of_N n), s2)
  | Some (m, cnt), _ => (PyFloat (FDec neg m (default 0 ex - Z.of_nat cnt)), s2)
  | None, Some x => (PyFloat (FDec neg n x), s2)
  end.

(** [NUMBER_RE.match]: an optional minus sign, then [0] or a digit
    from 1 to 9 followed by digits, then the optional fraction and
    the optional exponent; a literal with a fraction or an exponent
    is a [float], another an [int]. *)
Definition match_number (s : string) : option (pyval * string) :=
  let '(neg, s1) :=
    match s with
    | String c r => if Ascii.eqb c "-" then (true, r) else (false, s)
    | EmptyString => (false, s)
    end in
  match s1 with
  | String c r =>
      if Ascii.eqb c "0" then Some (finish_number neg 0%N r)
      else if is_digit c then
        let '(n, _, r') := scan_digits r (digit_val c) 1%nat in
        Some (finish_number neg n r')
      else None
  | EmptyString => None
  end.

Definition utf8 (n : N) : string := Str.utf8 n.

Definition is_high_surrogate (n : N) : bool := (55296 <=? n)%N && (n <=? 56319)%N.
Definition is_low_surrogate (n : N) : bool := (56320 <=? n)%N && (n <=? 57343)%N.
Definition join_surrogates (hi lo : N) : N :=
  (65536 + ((hi - 55296) * 1024 + (lo - 56320)))%N.

Definition simple_escape (c : ascii) : option ascii :=
  if Ascii.eqb c dquote then Some dquote
  else if Ascii.eqb c backslash then Some backslash
  else if Ascii.eqb c "/" then Some "/"%char
  else if Ascii.eqb c "b" then Some "008"%char
  else if Ascii.eqb c "f" then Some "012"%char
  else if Ascii.eqb c "n" then Some "010"%char
  else if Ascii.eqb c "r" then Some "013"%char
  else if Ascii.eqb c "t" then Some "009"%char
  else None.

Definition starts_escape_u (s : string) : bool :=
  match s with
  | String a (String b _) => Ascii.eqb a backslash && Ascii.eqb b "u"
  | _ => false
  end.

Definition prepend (chunk : string) (k : option (string * string)) : option (string * string) :=
  match k with
  | Some (str, rest) => Some (chunk +:+ str, rest)
  | None => None
  end.

(** [py_scanstring], from the character after the opening quote: the
    decoded string and what follows the closing quote.  [pending] is
    a high surrogate just read from an escape that is followed by
    another [\u] escape. *)
Fixpoint scanstring (pending : option N) (s : string) : option (string * string) :=
  let flush := prepend (from_option utf8 EmptyString pending) in
  match s with
  | EmptyString => None
  | String c r =>
      if Ascii.eqb c dquote then flush (Some (EmptyString, r))
      else if Ascii.eqb c backslash then
        match r with
        | EmptyString => None
        | String e r' =>
            if Ascii.eqb e "u" then
              match r' with
              | String h1 (String h2 (String h3 (String h4 r''))) =>
                  match hex4 h1 h2 h3 h4 with
                  | None => None
                  | Some uni =>
                      let fresh :=
                        if is_high_surrogate uni && starts_escape_u r''
                        then scanstring (Some uni) r''
                        else prepend (utf8 uni) (scanstring None r'') in
                      match pending with
                      | Some hi =>
                          if is_low_surrogate uni
                          then prepend (utf8 (join_surrogates hi uni)) (scanstring None r'')
                          else prepend (utf8 hi) fresh
                      | None => fresh
                      end
                  end
              | _ => None
              end
            else
              match simple_escape e with
              | Some ch => flush (prepend (String ch EmptyString) (scanstring None r'))
              | None => None
              end
        end
      else if (Str.code c <? 32)%N then None
      else flush (prepend (String c EmptyString) (scanstring None r))
  end.

Definition literal (lit : string) (v : pyval) (s : string) : option (pyval * string) :=
  match Str.drop_prefix lit s with
  | Some r => Some (v, r)
  | None => None
  end.

(** The scalar cases of [scan_once], in the order the scanner tries
    them. *)
Definition scan_scalar (s : string) : option (pyval * string) :=
  match literal "null" PyNone s with Some x => Some x | None =>
  match literal "true" (PyBool true) s with Some x => Some x | None =>
  match literal "false" (PyBool false) s with Some x => Some x | None =>
  match match_number s with Some x => Some x | None =>
  match literal "NaN" (PyFloat FNaN) s with Some x => Some x | None =>
  match literal "Infinity" (PyFloat (FInf false)) s with Some x => Some x | None =>
  literal "-Infinity" (PyFloat (FInf true)) s
  end end end end end end.

Fixpoint scan_once (fuel : nat) (s : string) : parse pyval :=
  match fuel with
  | O => OutOfFuel
  | S fuel' =>
      match s with
      | EmptyString => Invalid
      | String c r =>
          if Ascii.eqb c dquote then
            match scanstring None r with
            | Some (str, r') => Parsed (PyStr str) r'
            | None => Invalid
            end
          else if Ascii.eqb c "{" then
            match skip_ws r with
            | String c1 r1 =>
                if Ascii.eqb c1 "}" then Parsed (PyDict []) r1
                else if Ascii.eqb c1 dquote then JSONObject fuel' r1 []
                else Invalid
            | EmptyString => Invalid
            end
          else if Ascii.eqb c "[" then
            match skip_ws r with
            | String c1 r1 =>
                if Ascii.eqb c1 "]" then Parsed (PyList []) r1
                else JSONArray fuel' (String c1 r1) []
            | EmptyString => Invalid
            end
          else
            match scan_scalar s with
            | Some (v, r') => Parsed v r'
            | None => Invalid
            end
      end
  end

(** The loop of [JSONObject]: [s] follows the opening quote of a
    key, [pairs] are the members read so far, last first. *)
with JSONObject (fuel : nat) (s : string) (pairs : list (string * pyval)) : parse pyval :=
  match fuel with
  | O => OutOfFuel
  | S fuel' =>
      match scanstring None s with
      | None => Invalid
      | Some (key, r) =>
          match skip_ws r with
          | String c r1 =>
              if Ascii.eqb c ":" then
                match scan_once fuel' (skip_ws r1) with
                | Parsed v r2 =>
                    match skip_ws r2 with
                    | String c2 r3 =>
                        if Ascii.eqb c2 "}"
                        then Parsed (PyDict (dict_of_pairs (rev ((key, v) :: pairs)))) r3
                        else if Ascii.eqb c2 "," then
                          match skip_ws r3 with
                          | String c3 r4 =>
                              if Ascii.eqb c3 dquote
                              then JSONObject fuel' r4 ((key, v) :: pairs)
                              else Invalid
                          | EmptyString => Invalid
                          end
                        else Invalid
                    | EmptyString => Invalid
                    end
                | Invalid => Invalid
                | OutOfFuel => OutOfFuel
                end
              else Invalid
          | EmptyString => Invalid
          end
      end
  end

(** The loop of [JSONArray]: [s] starts an element, [items] are the
    elements read so far, last first. *)
with JSONArray (fuel : nat) (s : string) (items : list pyval) : parse pyval :=
  match fuel with
  | O => OutOfFuel
  | S fuel' =>
      match scan_once fuel' s with
      | Parsed v r =>
          match skip_ws r with
          | String c r1 =>
              if Ascii.eqb c "]" then Parsed (PyList (rev (v :: items))) r1
              else if Ascii.eqb c "," then JSONArray fuel' (skip_ws r1) (v :: items)
              else Invalid
          | EmptyString => Invalid
          end
      | Invalid => Invalid
      | OutOfFuel => OutOfFuel
      end
  end.

(** [JSONDecoder.decode]: one value between optional white space,
    nothing after it. *)
Definition decode (s : string) : parse pyval :=
  match scan_once (2 * String.length s + 2) (skip_ws s) with
  | Parsed v r =>
      match skip_ws r with
      | EmptyString => Parsed v EmptyString
      | String _ _ => Invalid
      end
  | Invalid => Invalid
  | OutOfFuel => OutOfFuel
  end.

(** [json.loads(s)] by the grammar alone: [None] stands for
    [JSONDecodeError]. *)
Definition loads (s : string) : option pyval :=
  match decode s with
  | Parsed v _ => Some v
  | _ => None
  end.

(** [json.loads(s)] in an interpreter.  Besides the grammar the
    interpreter has limits: [int] refuses a literal of more digits than
    [sys.get_int_max_str_digits()] with a [ValueError], and decoding a
    nesting deeper than the recursion limit allows raises
    [RecursionError].  Neither is a [JSONDecodeError].  The limits
    depend on the interpreter and on the stack at the call, not on the
    source: [exceeds s] says that decoding [s] hits one. *)
Inductive outcome :=
| Decoded (v : pyval)
| DecodeError
| LimitError.

Definition loads_within (exceeds : string -> bool) (s : string) : outcome :=
  if exceeds s then LimitError
  else
    match loads s with
    | Some v => Decoded v
    | None => DecodeError
    end.

End Json.

(** ** The classifier adapter ([WashingMachineAnalyzer]) *)

Definition nl : string := String "010"%char EmptyString.

(** The instruction block of [analyze_issue], with back-quotes for its
    double quotes. *)
Definition system_prompt : string := Str.bq "
        You are an expert washing machine support assistant. Analyze user queries about washing machine problems.
        
        Categorize issues as either:
        1. SIMPLE - Can be resolved with basic troubleshooting (detergent issues, minor clogs, settings problems)
        2. COMPLEX - Requires professional support (electrical, major mechanical, warranty, repairs)
        
        Common washing machine issues and their categories:
        SIMPLE:
        - Detergent not dispensing properly
        - Clothes not getting clean
        - Water not draining completely
        - Door won't open/close properly
        - Strange noises during wash
        - Clothes coming out wrinkled
        - Spin cycle issues
        
        COMPLEX:
        - Electrical problems (won't turn on, power issues)
        - Water leaking extensively
        - Major mechanical failures
        - Error codes that persist
        - Warranty claims
        - Installation problems
        - Repeated failures after troubleshooting
        
        Respond in JSON format:
        {
            `action`: `provide_solution` or `create_ticket`,
            `response`: `Your helpful response with specific troubleshooting steps or explanation`,
            `severity`: `low`, `medium`, or `high`,
            `category`: `detergent`, `mechanical`, `electrical`, `door`, `cleaning`, `drainage`, `other`,
            `urgency`: `normal` or `high`
        }
        
        For simple issues: Provide clear, step-by-step troubleshooting instructions.
        For complex issues: Explain why professional help is needed and what to expect.
        ".

(** [re.search(r'\{.*\}', text, re.DOTALL)].  The greedy [.*\}] on
    [s]: the longest prefix of [s] that ends in a closing brace. *)
Fixpoint match_dotstar_close (s : string) : option string :=
  match s with
  | EmptyString => None
  | String c r =>
      match match_dotstar_close r with
      | Some m => Some (String c m)
      | None => if Ascii.eqb c "}" then Some (String c EmptyString) else None
      end
  end.

(** The search tries the start positions from the left and returns the
    first match, [json_match.group()]. *)
Fixpoint re_search_braces (text : string) : option string :=
  match text with
  | EmptyString => None
  | String c r =>
      if Ascii.eqb c "{" then
        match match_dotstar_close r with
        | Some m => Some (String c m)
        | None => re_search_braces r
        end
      else re_search_braces r
  end.

(** What the Gemini endpoint does with a request: [session.post]
    raises, or a response arrives with a status and a body that
    [response.json()] decodes or rejects. *)
Inductive http_reply :=
| HttpRaise (e : exn)
| HttpResponse (status : Z) (json : res pyval).

Definition fallback_fields : pydict :=
  [("action", PyStr "create_ticket");
   ("response", PyStr "I'm having trouble analyzing your issue right now. Let me create a support ticket so our team can help you directly.");
   ("severity", PyStr "medium");
   ("category", PyStr "other");
   ("urgency", PyStr "normal")].

Definition _fallback_response : pyval := PyDict fallback_fields.

Definition full_prompt (user_message : string) : string :=
  system_prompt +:+ nl +:+ nl +:+ "User issue: " +:+ user_message.

(** [{"contents": chat_history}] *)
Definition payload (user_message : string) : pyval :=
  PyDict
    [("contents",
      PyList [PyDict [("role", PyStr "user");
                      ("parts", PyList [PyDict [("text", PyStr (full_prompt user_message))]])]])].

Local Open Scope res_scope.

(** The condition of lines 109-112 and the subscript of line 114:
    [Ok (Some text)] when the reply carries a generated text, [Ok None]
    on the [else] branch. *)
Definition generated_text (result : pyval) : res (option pyval) :=
  c <- py_get result "candidates";;
  if negb (py_truthy c) then ret None else
  cands <- py_getitem result "candidates";;
  n <- py_len cands;;
  if negb (0 <? n)%nat then ret None else
  first <- py_getitem0 cands;;
  content <- py_get first "content";;
  if negb (py_truthy content) then ret None else
  content' <- py_getitem first "content";;
  parts <- py_get content' "parts";;
  if negb (py_truthy parts) then ret None else
  parts' <- py_getitem content' "parts";;
  m <- py_len parts';;
  if negb (0 <? m)%nat then ret None else
  part <- py_getitem0 parts';;
  text <- py_getitem part "text";;
  ret (Some text).

(** Lines 116-127: the strict parse, then the parse of the text the
    regular expression matches.  [except json.JSONDecodeError] catches
    the decode error of the first parse only: a limit hit by the first
    parse, and any error of the second, leave the [try]. *)
Definition parse_reply (exceeds : string -> bool) (text : pyval) : res pyval :=
  match text with
  | PyStr s =>
      match Json.loads_within exceeds s with
      | Json.Decoded v => ret v
      | Json.LimitError => Raise ValueError
      | Json.DecodeError =>
          match re_search_braces s with
          | Some json_match =>
              match Json.loads_within exceeds json_match with
              | Json.Decoded v => ret v
              | Json.DecodeError => Raise JSONDecodeError
              | Json.LimitError => Raise ValueError
              end
          | None => ret _fallback_response
          end
      end
  | _ => Raise TypeError
  end.

(** The body of the [try] of [analyze_issue]. *)
Definition analyze_issue_try (exceeds : string -> bool) (gemini : pyval -> http_reply)
    (user_message : string) : res pyval :=
  match gemini (payload user_message) with
  | HttpRaise e => Raise e
  | HttpResponse status json =>
      if negb (status =? 200) then ret _fallback_response
      else
        result <- json;;
        text <- generated_text result;;
        match text with
        | Some t => parse_reply exceeds t
        | None => ret _fallback_response
        end
  end.

Definition analyze_issue (exceeds : string -> bool) (gemini : pyval -> http_reply)
    (user_message : string) : res pyval :=
  match analyze_issue_try exceeds gemini user_message with
  | Ok v => ret v
  | Raise TimeoutError => ret _fallback_response
  | Raise _ => ret _fallback_response
  end.

(** A well-formed Gemini response body carrying [text]. *)
Definition gemini_result (text : string) : pyval :=
  PyDict
    [("candidates",
      PyList [PyDict [("content",
                       PyDict [("parts", PyList [PyDict [("text", PyStr text)]])])]])].

Definition gemini_says (text : string) : pyval -> http_reply :=
  fun _ => HttpResponse 200 (Ok (gemini_result text)).

(** ** The chat platform, as the handlers see it *)

Record User := {
  user_id : Z;
  user_bot : bool;
  user_mention : string;
  user_display_name : string }.

(** [channel_mention] is [None] for a channel without the attribute
    [mention] (a direct-message channel). *)
Record Channel := { channel_mention : option string }.

(** [mentions_bot] is [self.user.mentioned_in(message)]. *)
Record Message := {
  author : User;
  content : string;
  channel : Channel;
  mentions_bot : bool }.

Record Reaction := {
  reaction_emoji : string;
  reaction_message_id : Z;
  reaction_message_channel : Channel }.

(** The literal of lines 423 and 499 as the file holds it, the four
    code points U+00F0, U+0178, U+017D and U+00AB (the bytes c3 b0 c5
    b8 c5 bd c2 ab): the ticket emoji U+1F3AB, its UTF-8 bytes read as
    Windows-1252 and encoded again. *)
Definition ticket_emoji : string :=
  Str.utf8 240 +:+ Str.utf8 376 +:+ Str.utf8 381 +:+ Str.utf8 171.

(** ** The ticket store adapter and the local table *)

(** The holes of the description template of [create_support_ticket];
    the rendering of the template to text is not modelled. *)
Record Description := {
  d_user_mention : string;
  d_display_name : string;
  d_issue : string;
  d_severity : pyval;
  d_category : string;
  d_urgency : pyval;
  d_channel : string;
  d_ai_analysis : pyval }.

(** The arguments of [MantisHubIntegration.create_ticket]. *)
Record CreateTicketArgs := {
  arg_title : string;
  arg_description : Description;
  arg_severity : pyval;
  arg_category : string;
  arg_user_id : string }.

(** The body of the POST to [/issues]. *)
Record TicketData := {
  td_summary : string;
  td_description : Description;
  td_category : string;
  td_project : Z;
  td_priority : string;
  td_severity : string;
  td_reproducibility : string;
  td_additional_information : string }.

Record MantisHubIntegration := {
  base_url : option string;
  api_token : option string;
  project_id : Z }.

(** A row of the table [tickets], keyed by [ticket_id]. *)
Record TicketRow := {
  row_user_id : string;
  row_username : string;
  row_issue_description : string;
  row_status : string;
  row_severity : pyval;
  row_category : string;
  row_created_at : string;
  row_updated_at : string }.

(** An entry of [pending_tickets]. *)
Record Offer := {
  offer_user_id : Z;
  offer_issue : string;
  offer_analysis : pyval }.

Inductive Embed :=
| HelpEmbed
| TroubleshootingEmbed (description : pyval) (severity category : string)
| TicketCreatedEmbed (ticket_id : string) (severity : string) (next_steps : pyval)
| TicketCreationFailedEmbed.

Inductive Reply :=
| ReplyEmbed (e : Embed)
| ReplyError.    (* the apology sent by the handler of [handle_support_request] *)

(** What a handler does, in order: the calls to the collaborators and
    the updates of the registry of offers. *)
Inductive event :=
| EvReply (r : Reply)
| EvAddReaction (msg_id : Z)
| EvCreateTicket (args : CreateTicketArgs)
| EvMantisPost (data : TicketData)
| EvSaveTicket (ticket_id : string)
| EvRegisterOffer (msg_id : Z)
| EvRemoveOffer (msg_id : Z).

Record Bot := {
  self_user_id : Z;
  mantis : MantisHubIntegration;
  database : gmap string TicketRow;
  user_tickets : gmap Z string;
  pending_tickets : gmap Z Offer;
  log : list event }.

(** The answers of the outside world during one handler: the Gemini
    endpoint, what the exchange with Mantis makes [create_ticket]
    return ([Some] of the [str] of the issue identifier on status 201,
    [None] on any other status, a timeout or an exception), the
    identifier Discord gives to the reply sent, and the clock, which
    [isoformat] renders in ASCII.  With them the two parameters of the
    model: the limits of [json.loads] ([Json.loads_within]) and the
    title-casing of text outside ASCII ([Str.title]). *)
Record env := {
  gemini : pyval -> http_reply;
  mantis_post : TicketData -> option string;
  reply_id : Z;
  now : string;
  json_limit : string -> bool;
  unicode_title : string -> string }.

(** ** Handlers: state and exceptions *)

Definition M (A : Type) : Type := Bot -> res A * Bot.

Definition retM {A} (a : A) : M A := fun st => (Ok a, st).
Definition raiseM {A} (e : exn) : M A := fun st => (Raise e, st).
Definition liftM {A} (r : res A) : M A := fun st => (r, st).
Definition bindM {A B} (m : M A) (k : A -> M B) : M B :=
  fun st =>
    match m st with
    | (Ok a, st') => k a st'
    | (Raise e, st') => (Raise e, st')
    end.
(** [try: m  except Exception: h] *)
Definition try_except {A} (m : M A) (h : exn -> M A) : M A :=
  fun st =>
    match m st with
    | (Ok a, st') => (Ok a, st')
    | (Raise e, st') => h e st'
    end.

Declare Scope bot_scope.
Delimit Scope bot_scope with bot.
Notation "x <- m ;; k" := (bindM m (fun x => k))
  (at level 100, m at next level, right associativity) : bot_scope.
Notation "m ;;; k" := (bindM m (fun _ => k))
  (at level 100, right associativity) : bot_scope.

Definition set_log (l : list event) (st : Bot) : Bot :=
  {| self_user_id := self_user_id st; mantis := mantis st;
     database := database st; user_tickets := user_tickets st;
     pending_tickets := pending_tickets st; log := l |}.

Definition set_database (db : gmap string TicketRow) (st : Bot) : Bot :=
  {| self_user_id := self_user_id st; mantis := mantis st;
     database := db; user_tickets := user_tickets st;
     pending_tickets := pending_tickets st; log := log st |}.

Definition set_user_tickets (ut : gmap Z string) (st : Bot) : Bot :=
  {| self_user_id := self_user_id st; mantis := mantis st;
     database := database st; user_tickets := ut;
     pending_tickets := pending_tickets st; log := log st |}.

Definition set_pending_tickets (pt : gmap Z Offer) (st : Bot) : Bot :=
  {| self_user_id := self_user_id st; mantis := mantis st;
     database := database st; user_tickets := user_tickets st;
     pending_tickets := pt; log := log st |}.

Definition modify (f : Bot -> Bot) : M unit := fun st => (Ok tt, f st).

(** Appending an event to the trace. *)
Definition emit (ev : event) : M unit :=
  modify (fun st => set_log (log st ++ [ev]) st).

(** [await message.reply(embed=...)] *)
Definition reply (r : Reply) : M unit := emit (EvReply r).

(** A configuration value is usable when it is set and not empty. *)
Definition configured (v : option string) : bool :=
  match v with
  | Some s => negb (String.eqb s "")
  | None => false
  end.

(** [severity_map.get(severity, 'minor')] *)
Definition severity_map (severity : pyval) : string :=
  if py_eq_str severity "low" then "trivial"
  else if py_eq_str severity "medium" then "minor"
  else if py_eq_str severity "high" then "major"
  else "minor".

Local Open Scope bot_scope.

(** The dictionary [ticket_data] of [create_ticket]. *)
Definition ticket_data_of (m : MantisHubIntegration) (args : CreateTicketArgs) : TicketData :=
  {| td_summary := arg_title args;
     td_description := arg_description args;
     td_category := "Washing Machine Support";
     td_project := project_id m;
     td_priority := "normal";
     td_severity := severity_map (arg_severity args);
     td_reproducibility := "always";
     td_additional_information :=
       if String.eqb (arg_user_id args) "" then ""
       else "Discord User ID: " +:+ arg_user_id args |}.

Definition mantis_configured (m : MantisHubIntegration) : bool :=
  configured (base_url m) && configured (api_token m).

(** [MantisHubIntegration.create_ticket] *)
Definition create_ticket (e : env) (args : CreateTicketArgs) : M (option string) :=
  emit (EvCreateTicket args);;;
  (fun st =>
     if negb (mantis_configured (mantis st)) then retM None st
     else if negb (py_hashable (arg_severity args)) then raiseM TypeError st
     else
       let ticket_data := ticket_data_of (mantis st) args in
       (emit (EvMantisPost ticket_data);;; retM (mantis_post e ticket_data)) st).

(** Binding a [str] to a parameter of the INSERT encodes it in UTF-8,
    which a lone surrogate makes fail. *)
Definition sqlite_bind_text (s : string) : res unit :=
  if Str.encodable s then Ok tt else Raise UnicodeEncodeError.

(** Binding a parameter of the INSERT: SQLite takes [None], text and
    numbers; an [int] must fit 64 bits. *)
Definition sqlite_bind (v : pyval) : res unit :=
  match v with
  | PyInt n => if (- 2 ^ 63 <=? n) && (n <? 2 ^ 63) then Ok tt else Raise OverflowError
  | PyStr s => sqlite_bind_text s
  | PyList _ | PyDict _ => Raise SqliteError
  | PyNone | PyBool _ | PyFloat _ => Ok tt
  end.

(** The parameters of the INSERT of [save_ticket], bound in their
    order; the two dates that follow are ASCII text. *)
Definition bind_parameters (ticket_id user_id username issue_description : string)
    (severity : pyval) (category : string) : res unit :=
  (_ <- sqlite_bind_text ticket_id;;
   _ <- sqlite_bind_text user_id;;
   _ <- sqlite_bind_text username;;
   _ <- sqlite_bind_text issue_description;;
   _ <- sqlite_bind severity;;
   sqlite_bind_text category)%res.

(** [TicketDatabase.save_ticket]: INSERT OR REPLACE, the status takes
    its default. *)
Definition save_ticket (e : env) (ticket_id user_id username issue_description : string)
    (severity : pyval) (category : string) : M unit :=
  liftM (bind_parameters ticket_id user_id username issue_description severity category);;;
  emit (EvSaveTicket ticket_id);;;
  modify (fun st =>
    set_database
      (<[ticket_id :=
           {| row_user_id := user_id; row_username := username;
              row_issue_description := issue_description;
              row_status := "Open";
              row_severity := severity; row_category := category;
              row_created_at := now e; row_updated_at := now e |}]>
         (database st)) st).

(** ** The bot ([DiscordWashingMachineBot]) *)

(** [self.pending_tickets[msg_id] = offer] *)
Definition register_offer (msg_id : Z) (o : Offer) : M unit :=
  emit (EvRegisterOffer msg_id);;;
  modify (fun st => set_pending_tickets (<[msg_id := o]> (pending_tickets st)) st).

(** [del pending_tickets[msg_id]]: a [KeyError] when the registry has
    no such offer. *)
Definition remove_offer (msg_id : Z) : M unit :=
  fun st =>
    match pending_tickets st !! msg_id with
    | Some _ =>
        (emit (EvRemoveOffer msg_id);;;
         modify (fun st' =>
           set_pending_tickets (delete msg_id (pending_tickets st')) st')) st
    | None => raiseM KeyError st
    end.

(** [v.title()] after [v = analysis[k]] *)
Definition title_of (unicode_title : string -> string) (analysis : pyval) (k : string)
  : res string :=
  (v <- py_getitem analysis k;; py_title unicode_title v)%res.

Definition send_solution_response (e : env) (message : Message) (analysis : pyval)
  : M unit :=
  description <- liftM (py_getitem analysis "response");;
  severity <- liftM (title_of (unicode_title e) analysis "severity");;
  category <- liftM (title_of (unicode_title e) analysis "category");;
  reply (ReplyEmbed (TroubleshootingEmbed description severity category));;;
  emit (EvAddReaction (reply_id e));;;
  register_offer (reply_id e)
    {| offer_user_id := user_id (author message);
       offer_issue := content message;
       offer_analysis := analysis |}.

(** The [str] a value must be for [.title()] to exist. *)
Definition as_str (v : pyval) : res string :=
  match v with
  | PyStr s => Ok s
  | _ => Raise AttributeError
  end.

Definition ticket_title (e : env) (category : string) : string :=
  "Washing Machine Issue - " +:+ Str.title (unicode_title e) category.

(** The arguments [create_support_ticket] passes to the adapter. *)
Definition ticket_args (e : env) (message : Message) (issue_description category : string)
    (severity urgency response : pyval) : CreateTicketArgs :=
  {| arg_title := ticket_title e category;
     arg_description :=
       {| d_user_mention := user_mention (author message);
          d_display_name := user_display_name (author message);
          d_issue := issue_description;
          d_severity := severity;
          d_category := category;
          d_urgency := urgency;
          d_channel := default "DM" (channel_mention (channel message));
          d_ai_analysis := response |};
     arg_severity := severity;
     arg_category := category;
     arg_user_id := Str.of_Z (user_id (author message)) |}.

Definition create_support_ticket (e : env) (message : Message)
    (issue_description : string) (analysis : pyval) : M unit :=
  category_v <- liftM (py_get_default analysis "category" (PyStr "general"));;
  category <- liftM (as_str category_v);;
  severity <- liftM (py_get_default analysis "severity" (PyStr "medium"));;
  urgency <- liftM (py_get_default analysis "urgency" (PyStr "normal"));;
  response <- liftM (py_get_default analysis "response"
                       (PyStr "No additional analysis available"));;
  ticket_id <- create_ticket e
    (ticket_args e message issue_description category severity urgency response);;
  match ticket_id with
  | Some tid =>
      if negb (String.eqb tid "") then
        save_ticket e tid (Str.of_Z (user_id (author message)))
          (user_display_name (author message)) issue_description severity category;;;
        modify (fun st =>
          set_user_tickets (<[user_id (author message) := tid]> (user_tickets st)) st);;;
        severity_title <- liftM (py_title (unicode_title e) severity);;
        next_steps <- liftM (py_get_default analysis "response"
          (PyStr "Our support team will review your issue and get back to you soon."));;
        reply (ReplyEmbed (TicketCreatedEmbed tid severity_title next_steps))
      else reply (ReplyEmbed TicketCreationFailedEmbed)
  | None => reply (ReplyEmbed TicketCreationFailedEmbed)
  end.

(** The content after the mention of the bot is removed. *)
Definition clean_content (self_id : Z) (message : Message) : string :=
  if mentions_bot message
  then Str.strip (Str.replace ("<@" +:+ Str.of_Z self_id +:+ ">") "" (content message))
  else content message.

(** [not content or content.lower() in ['hi', 'hello', 'help']]; the
    comparison with the three ASCII words is the one of [str.lower],
    see [Str.lower]. *)
Definition is_greeting (content : string) : bool :=
  String.eqb content ""
  || String.eqb (Str.lower content) "hi"
  || String.eqb (Str.lower content) "hello"
  || String.eqb (Str.lower content) "help".

Definition handle_support_request (e : env) (message : Message) : M unit :=
  fun st =>
    let content := clean_content (self_user_id st) message in
    if is_greeting content then reply (ReplyEmbed HelpEmbed) st
    else
      try_except
        (analysis <- liftM (analyze_issue (json_limit e) (gemini e) content);;
         action <- liftM (py_getitem analysis "action");;
         if py_eq_str action "provide_solution"
         then send_solution_response e message analysis
         else create_support_ticket e message content analysis)
        (fun _ => reply ReplyError) st.

Definition on_reaction_add (e : env) (reaction : Reaction) (user : User) : M unit :=
  fun st =>
    if user_bot user || negb (String.eqb (reaction_emoji reaction) ticket_emoji)
    then retM tt st
    else
      match pending_tickets st !! reaction_message_id reaction with
      | Some ticket_info =>
          if offer_user_id ticket_info =? user_id user then
            (create_support_ticket e
               {| author := user; content := offer_issue ticket_info;
                  channel := reaction_message_channel reaction;
                  mentions_bot := false |}
               (offer_issue ticket_info) (offer_analysis ticket_info);;;
             remove_offer (reaction_message_id reaction)) st
          else retM tt st
      | None => retM tt st
      end.

(** ** Escalations interleaved

    [on_reaction_add] is a coroutine: at an [await] that waits for the
    network the event loop runs other handlers.  An escalation waits
    twice: in [create_ticket] for the answer of Mantis to the POST, and
    in [message.reply] for Discord to take the reply; the [del] of the
    offer comes after both. *)

(** What is left of [create_support_ticket] once [create_ticket] has
    returned [ticket_id]. *)
Definition ticket_outcome (e : env) (message : Message) (issue_description : string)
    (analysis severity : pyval) (category : string) (ticket_id : option string) : M unit :=
  match ticket_id with
  | Some tid =>
      if negb (String.eqb tid "") then
        save_ticket e tid (Str.of_Z (user_id (author message)))
          (user_display_name (author message)) issue_description severity category;;;
        modify (fun st =>
          set_user_tickets (<[user_id (author message) := tid]> (user_tickets st)) st);;;
        severity_title <- liftM (py_title (unicode_title e) severity);;
        next_steps <- liftM (py_get_default analysis "response"
          (PyStr "Our support team will review your issue and get back to you soon."));;
        reply (ReplyEmbed (TicketCreatedEmbed tid severity_title next_steps))
      else reply (ReplyEmbed TicketCreationFailedEmbed)
  | None => reply (ReplyEmbed TicketCreationFailedEmbed)
  end.

(** An escalation between two turns of the event loop: finished,
    waiting for the answer of Mantis to the issue posted, or waiting
    for its reply to be taken, the offer [msg_id] still to delete. *)
Inductive escalation :=
| Finished (r : res unit)
| AwaitingMantis (e : env) (message : Message) (issue_description : string)
    (analysis severity : pyval) (category : string) (ticket_data : TicketData)
    (msg_id : Z)
| AwaitingReply (msg_id : Z).

(** The ticket path has sent its reply, or has raised. *)
Definition await_reply (msg_id : Z) (run : res unit * Bot) : escalation * Bot :=
  match run with
  | (Ok _, st) => (AwaitingReply msg_id, st)
  | (Raise ex, st) => (Finished (Raise ex), st)
  end.

(** [create_support_ticket] up to the POST of [create_ticket]; an
    adapter that is not configured returns without waiting. *)
Definition ticket_start (e : env) (message : Message) (issue_description : string)
    (analysis : pyval) (msg_id : Z) (st : Bot) : escalation * Bot :=
  match
    (category_v <- py_get_default analysis "category" (PyStr "general");;
     category <- as_str category_v;;
     severity <- py_get_default analysis "severity" (PyStr "medium");;
     urgency <- py_get_default analysis "urgency" (PyStr "normal");;
     response <- py_get_default analysis "response"
                   (PyStr "No additional analysis available");;
     ret (category, severity, urgency, response))%res
  with
  | Raise ex => (Finished (Raise ex), st)
  | Ok (category, severity, urgency, response) =>
      let args :=
        ticket_args e message issue_description category severity urgency response in
      let st1 := snd (emit (EvCreateTicket args) st) in
      if negb (mantis_configured (mantis st1)) then
        await_reply msg_id
          (ticket_outcome e message issue_description analysis severity category None st1)
      else if negb (py_hashable (arg_severity args)) then (Finished (Raise TypeError), st1)
      else
        let ticket_data := ticket_data_of (mantis st1) args in
        (AwaitingMantis e message issue_description analysis severity category
           ticket_data msg_id,
         snd (emit (EvMantisPost ticket_data) st1))
  end.

(** [on_reaction_add] up to its first wait. *)
Definition escalation_start (e : env) (reaction : Reaction) (user : User) (st : Bot)
  : escalation * Bot :=
  if user_bot user || negb (String.eqb (reaction_emoji reaction) ticket_emoji)
  then (Finished (Ok tt), st)
  else
    match pending_tickets st !! reaction_message_id reaction with
    | Some ticket_info =>
        if offer_user_id ticket_info =? user_id user then
          ticket_start e
            {| author := user; content := offer_issue ticket_info;
               channel := reaction_message_channel reaction;
               mentions_bot := false |}
            (offer_issue ticket_info) (offer_analysis ticket_info)
            (reaction_message_id reaction) st
        else (Finished (Ok tt), st)
    | None => (Finished (Ok tt), st)
    end.

(** An escalation taken up again, up to its next wait or to its end. *)
Definition escalation_resume (t : escalation) (st : Bot) : escalation * Bot :=
  match t with
  | Finished r => (Finished r, st)
  | AwaitingMantis e message issue_description analysis severity category ticket_data
      msg_id =>
      await_reply msg_id
        (ticket_outcome e message issue_description analysis severity category
           (mantis_post e ticket_data) st)
  | AwaitingReply msg_id =>
      let (r, st') := remove_offer msg_id st in (Finished r, st')
  end.

(** An escalation that no other handler interrupts. *)
Definition escalation_alone (e : env) (reaction : Reaction) (user : User) (st : Bot)
  : escalation * Bot :=
  let (t1, st1) := escalation_start e reaction user st in
  let (t2, st2) := escalation_resume t1 st1 in
  escalation_resume t2 st2.

(** One turn of the event loop: a support request handled (its own
    waits are not interleaved), a reaction whose handler starts, or
    the escalation at place [i] of the pool taken up again. *)
Inductive turn :=
| TurnMessage (e : env) (message : Message)
| TurnReaction (e : env) (reaction : Reaction) (user : User)
| TurnResume (i : nat).

Definition escalation_step (t : turn) (run : list escalation * Bot)
  : list escalation * Bot :=
  let (pool, st) := run in
  match t with
  | TurnMessage e message => (pool, snd (handle_support_request e message st))
  | TurnReaction e reaction user =>
      let (t', st') := escalation_start e reaction user st in (pool ++ [t'], st')
  | TurnResume i =>
      match pool !! i with
      | Some t' =>
          let (t'', st') := escalation_resume t' st in (<[i := t'']> pool, st')
      | None => (pool, st)
      end
  end.

(** The turns of a schedule, one after the other. *)
Definition escalation_run (turns : list turn) (run : list escalation * Bot)
  : list escalation * Bot :=
  fold_left (fun run t => escalation_step t run) turns run.

(** The bot as [__init__] leaves it, over the table [db] found on
    disk. *)
Definition init_bot (self_id : Z) (m : MantisHubIntegration)
    (db : gmap string TicketRow) : Bot :=
  {| self_user_id := self_id; mantis := m; database := db;
     user_tickets := ∅; pending_tickets := ∅; log := [] |}.

(** * Statements: the predicates the theorems use *)

(** The failures of one classification call: the request raises (a
    connection error, a timeout), the status is not 200, the body is
    not JSON, the reply has no generated text or is malformed, the
    text is not a string, decoding the text hits a limit of the
    interpreter, or neither parse of the text succeeds. *)
Inductive classification_failure (exceeds : string -> bool) : http_reply -> Prop :=
| cf_raise e :
    classification_failure exceeds (HttpRaise e)
| cf_status status json :
    status <> 200 -> classification_failure exceeds (HttpResponse status json)
| cf_body e :
    classification_failure exceeds (HttpResponse 200 (Raise e))
| cf_no_candidates d :
    dict_get d "candidates" = None ->
    classification_failure exceeds (HttpResponse 200 (Ok (PyDict d)))
| cf_no_text result :
    generated_text result = Ok None ->
    classification_failure exceeds (HttpResponse 200 (Ok result))
| cf_malformed result e :
    generated_text result = Raise e ->
    classification_failure exceeds (HttpResponse 200 (Ok result))
| cf_not_str result t :
    generated_text result = Ok (Some t) ->
    (forall s, t <> PyStr s) ->
    classification_failure exceeds (HttpResponse 200 (Ok result))
| cf_limit result s :
    generated_text result = Ok (Some (PyStr s)) ->
    exceeds s = true ->
    classification_failure exceeds (HttpResponse 200 (Ok result))
| cf_unparseable result s :
    generated_text result = Ok (Some (PyStr s)) ->
    exceeds s = false ->
    Json.loads s = None ->
    (forall m, re_search_braces s = Some m -> exceeds m = true \/ Json.loads m = None) ->
    classification_failure exceeds (HttpResponse 200 (Ok result)).


(** The enumerated values of a classification: the literals the prompt
    asks for. *)
Definition one_of (v : pyval) (literals : list string) : bool :=
  existsb (py_eq_str v) literals.

Definition field_one_of (v : pyval) (k : string) (literals : list string) : bool :=
  match v with
  | PyDict d =>
      match dict_get d k with
      | Some x => one_of x literals
      | None => false
      end
  | _ => false
  end.

Definition classification_enumerated (v : pyval) : bool :=
  field_one_of v "action" ["provide_solution"; "create_ticket"]
  && field_one_of v "severity" ["low"; "medium"; "high"]
  && field_one_of v "urgency" ["normal"; "high"]
  && field_one_of v "category"
       ["detergent"; "mechanical"; "electrical"; "door"; "cleaning"; "drainage"; "other"].

(** A reply that is valid JSON with values outside the enumerations. *)
Definition out_of_range_reply : string :=
  Str.bq "{`action`: `explode`, `response`: `run`, `severity`: `catastrophic`, `category`: `plumbing`, `urgency`: `whenever`}".

Definition out_of_range_payload : pyval :=
  PyDict
    [("action", PyStr "explode"); ("response", PyStr "run");
     ("severity", PyStr "catastrophic"); ("category", PyStr "plumbing");
     ("urgency", PyStr "whenever")].

(** [occurs c s]: the character [c] occurs in [s]. *)
Fixpoint occurs (c : ascii) (s : string) : bool :=
  match s with
  | EmptyString => false
  | String c' r => Ascii.eqb c' c || occurs c r
  end.

(** The span the regular expression matches, stated on the text: it
    runs from the first opening brace of the text to its last closing
    brace. *)
Definition brace_span (text span : string) : Prop :=
  exists pre mid post,
    text = pre +:+ String "{" mid +:+ String "}" post
    /\ span = String "{" mid +:+ String "}" EmptyString
    /\ occurs "{" pre = false
    /\ occurs "}" post = false.

(** The second tier as the specification words it: the first balanced
    span of braces.  [balanced_from depth s] reads [s] after an opening
    brace, [depth] braces being open besides it, up to the brace that
    closes it. *)
Fixpoint balanced_from (depth : nat) (s : string) : option string :=
  match s with
  | EmptyString => None
  | String c r =>
      if Ascii.eqb c "{" then
        option_map (String c) (balanced_from (S depth) r)
      else if Ascii.eqb c "}" then
        match depth with
        | O => Some (String c EmptyString)
        | S depth' => option_map (String c) (balanced_from depth' r)
        end
      else option_map (String c) (balanced_from depth r)
  end.

Fixpoint spec_first_balanced_span (text : string) : option string :=
  match text with
  | EmptyString => None
  | String c r =>
      if Ascii.eqb c "{" then
        match balanced_from O r with
        | Some m => Some (String c m)
        | None => spec_first_balanced_span r
        end
      else spec_first_balanced_span r
  end.

(** The two-tier parse as the specification words it. *)
Definition spec_two_tier_parse (text : string) : pyval :=
  match Json.loads text with
  | Some v => v
  | None =>
      match spec_first_balanced_span text with
      | Some span => default _fallback_response (Json.loads span)
      | None => _fallback_response
      end
  end.

(** A reply with two objects. *)
Definition two_objects_reply : string :=
  Str.bq "Either {`action`: `provide_solution`, `response`: `clean the filter`, `severity`: `low`, `category`: `drainage`, `urgency`: `normal`} or {`action`: `create_ticket`}".

Definition resolve_payload : pydict :=
  [("action", PyStr "provide_solution"); ("response", PyStr "clean the filter");
   ("severity", PyStr "low"); ("category", PyStr "drainage");
   ("urgency", PyStr "normal")].

Definition first_object_payload : pyval := PyDict resolve_payload.

(** A reply with one object inside free text, and that object. *)
Definition chatty_span : string :=
  Str.bq "{`action`: `provide_solution`, `response`: `clean the filter`, `severity`: `low`, `category`: `drainage`, `urgency`: `normal`}".

Definition chatty_reply : string :=
  "Sure, here is my analysis: " +:+ chatty_span +:+ " Hope this helps!".

(** Projections of the trace. *)
Definition event_reply (ev : event) : option Reply :=
  match ev with EvReply r => Some r | _ => None end.
Definition event_create (ev : event) : option CreateTicketArgs :=
  match ev with EvCreateTicket args => Some args | _ => None end.
Definition event_save (ev : event) : option string :=
  match ev with EvSaveTicket tid => Some tid | _ => None end.

Definition replies (l : list event) : list Reply := omap event_reply l.
Definition create_calls (l : list event) : list CreateTicketArgs := omap event_create l.
Definition saved_tickets (l : list event) : list string := omap event_save l.

Definition is_create (ev : event) : bool :=
  match ev with EvCreateTicket _ => true | _ => false end.
Definition is_remove (msg_id : Z) (ev : event) : bool :=
  match ev with EvRemoveOffer m => m =? msg_id | _ => false end.

(** [occurs_before p q l]: an event satisfying [p] occurs in [l]
    before an event satisfying [q]. *)
Fixpoint occurs_before (p q : event -> bool) (l : list event) : bool :=
  match l with
  | [] => false
  | ev :: r => (p ev && existsb q r) || occurs_before p q r
  end.

(** What [create_ticket] returns and does for a hashable severity. *)
Definition adapter_answer (e : env) (m : MantisHubIntegration) (args : CreateTicketArgs)
  : option string :=
  if mantis_configured m then mantis_post e (ticket_data_of m args) else None.

Definition adapter_events (m : MantisHubIntegration) (args : CreateTicketArgs)
  : list event :=
  EvCreateTicket args
  :: (if mantis_configured m then [EvMantisPost (ticket_data_of m args)] else []).

(** The texts the INSERT of [create_support_ticket] binds, the decimal
    identifier of the user apart, can all be encoded. *)
Definition storable (ticket_id username issue severity category : string) : bool :=
  Str.encodable ticket_id && Str.encodable username && Str.encodable issue
  && Str.encodable severity && Str.encodable category.

(** The INSERT that follows the answer of the adapter binds its
    parameters: there is no INSERT (no identifier, or an empty one), or
    its texts can be encoded. *)
Definition insert_binds (answer : option string) (username issue severity category : string)
  : bool :=
  match answer with
  | Some tid => String.eqb tid "" || storable tid username issue severity category
  | None => true
  end.

(** The offers [send_solution_response] registers: the analysis is a
    dictionary with a response and with strings for severity and
    category, since both were title-cased for the embed. *)
Definition offer_wf (o : Offer) : Prop :=
  exists d response severity category,
    offer_analysis o = PyDict d
    /\ dict_get d "response" = Some response
    /\ dict_get d "severity" = Some (PyStr severity)
    /\ dict_get d "category" = Some (PyStr category).

Definition pending_wf (st : Bot) : Prop :=
  map_Forall (fun _ o => offer_wf o) (pending_tickets st).

(** What an escalation kept between two turns is expected to be: its
    result, once finished, is a return, the [UnicodeEncodeError] of the
    INSERT or the [KeyError] of the [del]; while it waits for Mantis
    its analysis is a dictionary and its severity a string. *)
Definition escalation_wf (t : escalation) : Prop :=
  match t with
  | Finished r => r = Ok tt \/ r = Raise UnicodeEncodeError \/ r = Raise KeyError
  | AwaitingMantis _ _ _ analysis severity _ _ _ =>
      exists d s, analysis = PyDict d /\ severity = PyStr s
  | AwaitingReply _ => True
  end.

(** The synthetic message [on_reaction_add] builds for the ticket. *)
Definition reaction_message (reaction : Reaction) (user : User) (o : Offer) : Message :=
  {| author := user; content := offer_issue o;
     channel := reaction_message_channel reaction; mentions_bot := false |}.

(** The arguments of the adapter for the fallback classification. *)
Definition fallback_args (e : env) (message : Message) (content : string)
  : CreateTicketArgs :=
  ticket_args e message content "other" (PyStr "medium") (PyStr "normal")
    (PyStr "I'm having trouble analyzing your issue right now. Let me create a support ticket so our team can help you directly.").

(** The reply to a request whose classification is the fallback, by
    the answer of the adapter: no identifier, an identifier the INSERT
    takes, or one whose INSERT cannot encode a text. *)
Definition fallback_reply (answer : option string) (username content : string) : Reply :=
  match answer with
  | Some tid =>
      if String.eqb tid "" then ReplyEmbed TicketCreationFailedEmbed
      else if storable tid username content "medium" "other"
      then ReplyEmbed (TicketCreatedEmbed tid "Medium"
             (PyStr "I'm having trouble analyzing your issue right now. Let me create a support ticket so our team can help you directly."))
      else ReplyError
  | None => ReplyEmbed TicketCreationFailedEmbed
  end.

(** The three results of the specification, among the replies. *)
Definition is_orchestrator_result (r : Reply) : bool :=
  match r with
  | ReplyEmbed (TroubleshootingEmbed _ _ _)
  | ReplyEmbed (TicketCreatedEmbed _ _ _)
  | ReplyEmbed TicketCreationFailedEmbed => true
  | ReplyEmbed HelpEmbed | ReplyError => false
  end.

(** The summary as the specification words it. *)
Definition spec_summary (unicode_title : string -> string) (category : string) : string :=
  Str.title unicode_title category +:+ " issue".

(** ** A scenario *)

Definition alice : User :=
  {| user_id := 7; user_bot := false; user_mention := "<@7>";
     user_display_name := "alice" |}.
Definition bob : User :=
  {| user_id := 8; user_bot := false; user_mention := "<@8>";
     user_display_name := "bob" |}.
Definition help_channel : Channel := {| channel_mention := Some "<#55>" |}.

Definition mantis_hub : MantisHubIntegration :=
  {| base_url := Some "https://mantis.example/api/rest";
     api_token := Some "token"; project_id := 1 |}.

Definition bot0 : Bot := init_bot 99 mantis_hub ∅.

Definition leak_message : Message :=
  {| author := alice; content := "<@99> water leaking everywhere";
     channel := help_channel; mentions_bot := true |}.

Definition escalate_reply : string :=
  Str.bq "{`action`: `create_ticket`, `response`: `A technician will call you.`, `severity`: `high`, `category`: `mechanical`, `urgency`: `high`}".

Definition escalate_payload : pydict :=
  [("action", PyStr "create_ticket"); ("response", PyStr "A technician will call you.");
   ("severity", PyStr "high"); ("category", PyStr "mechanical");
   ("urgency", PyStr "high")].

(** The interpreter of the scenario: no text of the scenario is near
    a limit of [json.loads], none has a character outside ASCII to
    title-case. *)
Definition no_limit : string -> bool := fun _ => false.
Definition no_title : string -> string := fun s => s.

Definition make_env (reply_text : string) (ticket_id : option string) : env :=
  {| gemini := gemini_says reply_text; mantis_post := fun _ => ticket_id;
     reply_id := 1000; now := "2024-05-01T10:00:00";
     json_limit := no_limit; unicode_title := no_title |}.

(** The classifier escalates, Mantis answers [T-42]. *)
Definition leak_env : env := make_env escalate_reply (Some "T-42").
(** The classifier resolves inline. *)
Definition drain_env : env := make_env chatty_reply (Some "T-43").
(** The classifier answers an object without [response]. *)
Definition bare_env : env := make_env (Str.bq "{`action`: `provide_solution`}") (Some "T-44").
(** The classifier times out. *)
Definition timeout_env : env :=
  {| gemini := fun _ => HttpRaise TimeoutError; mantis_post := fun _ => Some "T-45";
     reply_id := 1000; now := "2024-05-01T10:00:00";
     json_limit := no_limit; unicode_title := no_title |}.


(** The bot after it answered [leak_message] with guidance: the offer
    is registered under the identifier of the reply. *)
Definition bot_offered : Bot := snd (handle_support_request drain_env leak_message bot0).

Definition ticket_reaction : Reaction :=
  {| reaction_emoji := ticket_emoji; reaction_message_id := 1000;
     reaction_message_channel := help_channel |}.

(** The offer of [bot_offered] escalated twice by its owner, the two
    handlers taken up in turn: both find the offer, both post an issue,
    the first deletes the offer and the second finds it gone. *)
Definition racing_turns : list turn :=
  [TurnMessage drain_env leak_message;
   TurnReaction leak_env ticket_reaction alice;
   TurnReaction drain_env ticket_reaction alice;
   TurnResume 0; TurnResume 1; TurnResume 0; TurnResume 1].

(** The offer registered in [bot_offered]. *)
Definition alice_offer : Offer :=
  {| offer_user_id := 7; offer_issue := "<@99> water leaking everywhere";
     offer_analysis := first_object_payload |}.

(** A result of the decoder on [s] that did not exhaust its fuel and
    left no more than [s] to read. *)
Definition fuel_ok (r : Json.parse pyval) (s : string) : Prop :=
  r <> Json.OutOfFuel
  /\ forall v rest, r = Json.Parsed v rest -> (String.length rest <= String.length s)%nat.

(** * The rest of the bot: listing, status and start-up *)

(** ** Reading the local table ([TicketDatabase.get_user_tickets]) *)

(** What a column of TEXT affinity gives back for a bound value: NULL
    for [None], the text itself for a [str], the decimal text of an
    integer ([True] and [False] are bound as 1 and 0).  For a [float]
    SQLite stores a text of its own making, [SqlFloatText] stands for
    it; a NaN is stored as NULL. *)
Inductive sql_text :=
| SqlNull
| SqlText (s : string)
| SqlFloatText (f : pyfloat).

(** The stored form of a value [sqlite_bind] accepts. *)
Definition text_affinity (v : pyval) : sql_text :=
  match v with
  | PyNone => SqlNull
  | PyBool b => SqlText (if b then "1" else "0")
  | PyInt n => SqlText (Str.of_Z n)
  | PyFloat FNaN => SqlNull
  | PyFloat f => SqlFloatText f
  | PyStr s => SqlText s
  | PyList _ | PyDict _ => SqlNull
  end.

(** A row of the SELECT: ticket_id, issue_description, severity,
    created_at. *)
Record ListedTicket := {
  lt_ticket_id : string;
  lt_issue_description : string;
  lt_severity : sql_text;
  lt_created_at : string }.

Definition listed (entry : string * TicketRow) : ListedTicket :=
  {| lt_ticket_id := entry.1;
     lt_issue_description := row_issue_description entry.2;
     lt_severity := text_affinity (row_severity entry.2);
     lt_created_at := row_created_at entry.2 |}.

(** ORDER BY created_at DESC: texts compare byte by byte.  The order
    of rows with equal [created_at] is left open by SQLite; the model
    takes the one the sort of [map_to_list] gives. *)
Definition newer_first (x y : string * TicketRow) : Prop :=
  String.leb (row_created_at y.2) (row_created_at x.2) = true.

#[global] Instance newer_first_dec (x y : string * TicketRow) : Decision (newer_first x y).
Proof. unfold newer_first. apply _. Defined.

Definition owned_by (user_id : string) (entry : string * TicketRow) : Prop :=
  row_user_id entry.2 = user_id.

#[global] Instance owned_by_dec (user_id : string) (entry : string * TicketRow) :
  Decision (owned_by user_id entry).
Proof. unfold owned_by. apply _. Defined.

(** The rows of the SELECT before the projection of the columns.  SQL
    leaves the order of rows with equal dates to the engine; here it
    is the one of the sort. *)
Definition user_rows (user_id : string) (db : gmap string TicketRow)
  : list (string * TicketRow) :=
  merge_sort newer_first (filter (owned_by user_id) (map_to_list db)).

Definition get_user_tickets (user_id : string) (db : gmap string TicketRow)
  : list ListedTicket :=
  listed <$> user_rows user_id db.

(** ** The command [tickets] ([list_tickets]) *)

Definition is_continuation (c : ascii) : bool :=
  (128 <=? Str.code c)%N && (Str.code c <? 192)%N.

(** [s[:n]]: the first [n] code points of a UTF-8 string. *)
Fixpoint str_take (n : nat) (s : string) : string :=
  match s with
  | EmptyString => EmptyString
  | String c r =>
      if is_continuation c then String c (str_take n r)
      else
        match n with
        | O => EmptyString
        | S n' => String c (str_take n' r)
        end
  end.

(** [description[:50]] followed by the dots when the description is
    longer than 50. *)
Definition preview (description : string) : string :=
  str_take 50 description
  +:+ (if (50 <? str_len description)%nat then "..." else "").

(** A field of the embed of [list_tickets]; [tf_created] is the date
    rendered by [strftime]. *)
Record TicketField := {
  tf_ticket_id : string;
  tf_issue : string;
  tf_severity : sql_text;
  tf_created : string }.

(** What a command answers with [ctx.reply]. *)
Inductive CommandReply :=
| NoTicketsReply
| TicketListEmbed (found : nat) (fields : list TicketField) (footer_total : option nat)
| NoRecentTicketReply
| TicketStatusEmbed (ticket_id : string) (summary status priority severity : pyval)
| TicketNotFoundReply (ticket_id : string).

(** The body of the loop of [list_tickets]; [format_created] is
    [datetime.fromisoformat(created_at).strftime("%Y-%m-%d %H:%M")],
    which raises on a text that is not an ISO date. *)
Definition ticket_field (format_created : string -> res string) (t : ListedTicket)
  : res TicketField :=
  (created_date <- format_created (lt_created_at t);;
   ret {| tf_ticket_id := lt_ticket_id t;
          tf_issue := preview (lt_issue_description t);
          tf_severity := lt_severity t;
          tf_created := created_date |})%res.

Fixpoint ticket_fields (format_created : string -> res string) (ts : list ListedTicket)
  : res (list TicketField) :=
  match ts with
  | [] => Ok []
  | t :: ts' =>
      (f <- ticket_field format_created t;;
       fs <- ticket_fields format_created ts';;
       ret (f :: fs))%res
  end.

(** [list_tickets]: the command reads the bot and sends one reply. *)
Definition list_tickets (format_created : string -> res string) (author : User) (st : Bot)
  : res CommandReply :=
  let tickets := get_user_tickets (Str.of_Z (user_id author)) (database st) in
  match tickets with
  | [] => Ok NoTicketsReply
  | _ =>
      (fields <- ticket_fields format_created (take 5 tickets);;
       ret (TicketListEmbed (length tickets) fields
              (if (5 <? length tickets)%nat then Some (length tickets) else None)))%res
  end.

(** ** Ticket status ([get_ticket_status], [check_status]) *)

(** The URL of the GET: the issue under the base URL. *)
Definition issue_url (m : MantisHubIntegration) (ticket_id : string) : string :=
  default "" (base_url m) +:+ "/issues/" +:+ ticket_id.

(** The body of the [try] of [get_ticket_status]; [mantis_get] is what
    the Mantis endpoint does with the GET of a URL. *)
Definition get_ticket_status_try (mantis_get : string -> http_reply)
    (m : MantisHubIntegration) (ticket_id : string) : res (option pyval) :=
  match mantis_get (issue_url m ticket_id) with
  | HttpRaise e => Raise e
  | HttpResponse status json =>
      if status =? 200 then
        (data <- json;;
         issues <- py_get_default data "issues" (PyList []);;
         if py_truthy issues
         then (first <- py_getitem0 issues;; ret (Some first))
         else ret None)%res
      else Ok None
  end.

(** [MantisHubIntegration.get_ticket_status] *)
Definition get_ticket_status (mantis_get : string -> http_reply)
    (m : MantisHubIntegration) (ticket_id : string) : option pyval :=
  if negb (mantis_configured m) then None
  else
    match get_ticket_status_try mantis_get m ticket_id with
    | Ok info => info
    | Raise _ => None
    end.

(** [ticket_info.get(k, {}).get('name', 'Unknown')] *)
Definition name_of (ticket_info : pyval) (k : string) : res pyval :=
  (v <- py_get_default ticket_info k (PyDict []);;
   py_get_default v "name" (PyStr "Unknown"))%res.

(** [if not ticket_id] *)
Definition no_ticket_id (ticket_id : option string) : bool :=
  match ticket_id with
  | Some tid => String.eqb tid ""
  | None => true
  end.

(** The identifier [check_status] asks about: the argument, or the
    latest ticket of the author when there is none. *)
Definition requested_ticket_id (author : User) (ticket_id : option string) (st : Bot)
  : option string :=
  if no_ticket_id ticket_id then user_tickets st !! user_id author else ticket_id.

(** The embed of [check_status] for the issue Mantis returned. *)
Definition status_embed (tid : string) (ticket_info : pyval) : res CommandReply :=
  (summary <- py_get_default ticket_info "summary" (PyStr "N/A");;
   status <- name_of ticket_info "status";;
   priority <- name_of ticket_info "priority";;
   severity <- name_of ticket_info "severity";;
   ret (TicketStatusEmbed tid summary status priority severity))%res.

(** [check_status]: the command reads the bot, asks Mantis and sends
    one reply, or raises. *)
Definition check_status (mantis_get : string -> http_reply) (author : User)
    (ticket_id : option string) (st : Bot) : res CommandReply :=
  let ticket_id := requested_ticket_id author ticket_id st in
  if no_ticket_id ticket_id then Ok NoRecentTicketReply
  else
    let tid := default "" ticket_id in
    match get_ticket_status mantis_get (mantis st) tid with
    | Some ticket_info =>
        if py_truthy ticket_info then status_embed tid ticket_info
        else Ok (TicketNotFoundReply tid)
    | None => Ok (TicketNotFoundReply tid)
    end.

(** The answers of Mantis to the GET that leave [get_ticket_status]
    without an issue: the adapter is not configured, the request
    raises, the status is not 200, the body is not JSON or not a
    dictionary, its [issues] are missing, empty or cannot be
    indexed. *)
Inductive status_unavailable (m : MantisHubIntegration) : http_reply -> Prop :=
| su_unconfigured reply :
    mantis_configured m = false -> status_unavailable m reply
| su_raise e :
    status_unavailable m (HttpRaise e)
| su_status status json :
    status <> 200 -> status_unavailable m (HttpResponse status json)
| su_body e :
    status_unavailable m (HttpResponse 200 (Raise e))
| su_not_dict data e :
    py_get_default data "issues" (PyList []) = Raise e ->
    status_unavailable m (HttpResponse 200 (Ok data))
| su_no_issues data issues :
    py_get_default data "issues" (PyList []) = Ok issues ->
    py_truthy issues = false ->
    status_unavailable m (HttpResponse 200 (Ok data))
| su_bad_issues data issues e :
    py_get_default data "issues" (PyList []) = Ok issues ->
    py_getitem0 issues = Raise e ->
    status_unavailable m (HttpResponse 200 (Ok data)).

(** An issue whose fields [check_status] can read: a dictionary whose
    status, priority and severity, when present, are dictionaries. *)
Definition readable_issue (info : pyval) : Prop :=
  exists d,
    info = PyDict d
    /\ forall k v,
         k ∈ ["status"; "priority"; "severity"] ->
         dict_get d k = Some v -> exists d', v = PyDict d'.

(** ** Start-up ([main], [__init__]) *)

(** The white space [int] skips around an ASCII text, the one of C:
    TAB, LF, VT, FF, CR and SPACE. *)
Definition is_c_space (c : ascii) : bool :=
  ((9 <=? Str.code c)%N && (Str.code c <=? 13)%N) || (Str.code c =? 32)%N.

Fixpoint c_lstrip (s : string) : string :=
  match s with
  | String c r => if is_c_space c then c_lstrip r else s
  | EmptyString => EmptyString
  end.

Fixpoint c_rstrip (s : string) : string :=
  match s with
  | EmptyString => EmptyString
  | String c r =>
      match c_rstrip r with
      | EmptyString => if is_c_space c then EmptyString else String c EmptyString
      | r' => String c r'
      end
  end.

(** The digits of [int(s)] in base 10, with single underscores between
    them; [None] stands for [ValueError]. *)
Fixpoint int_digits (acc : Z) (after_digit : bool) (s : string) : option Z :=
  match s with
  | EmptyString => if after_digit then Some acc else None
  | String c r =>
      if Json.is_digit c then int_digits (acc * 10 + Z.of_N (Json.digit_val c)) true r
      else if Ascii.eqb c "_" then
        if after_digit then int_digits acc false r else None
      else None
  end.

(** [int(s)] on ASCII text: white space around, a sign, the digits. *)
Definition int_ascii (s : string) : option Z :=
  match c_rstrip (c_lstrip s) with
  | String c r =>
      if Ascii.eqb c "-" then Z.opp <$> int_digits 0 false r
      else if Ascii.eqb c "+" then int_digits 0 false r
      else int_digits 0 false (String c r)
  | EmptyString => None
  end.

(** [int(s)].  The interpreter refuses a text whose digits exceed its
    limit ([sys.set_int_max_str_digits]), which is checked above 640
    digits only; [int_limit] stands for that refusal.  On a text with
    characters outside ASCII [int] first maps the white space and the
    decimal digits of Unicode to ASCII; the tables are not modelled,
    [unicode_int] stands for the result. *)
Definition py_int (int_limit : string -> bool) (unicode_int : string -> option Z)
    (s : string) : option Z :=
  if (640 <? String.length s)%nat && int_limit s then None
  else if Str.is_ascii s then int_ascii s else unicode_int s.

(** [os.getenv(k)] is [environ !! k]; a value is missing for [main]
    when it is unset or empty. *)
Definition env_missing (v : option string) : bool :=
  match v with
  | Some s => String.eqb s ""
  | None => true
  end.

(** The dictionary [required_vars] of [main], in its order. *)
Definition required_vars (environ : gmap string string) : list (string * option string) :=
  [("DISCORD_BOT_TOKEN", environ !! "DISCORD_BOT_TOKEN");
   ("GEMINI_API_KEY", environ !! "GEMINI_API_KEY");
   ("MANTIS_BASE_URL", environ !! "MANTIS_BASE_URL");
   ("MANTIS_API_TOKEN", environ !! "MANTIS_API_TOKEN");
   ("MANTIS_PROJECT_ID", Some (default "1" (environ !! "MANTIS_PROJECT_ID")))].

Definition missing_vars (environ : gmap string string) : list string :=
  fst <$> filter (fun kv => env_missing kv.2 = true) (required_vars environ).

(** [MantisHubIntegration.__init__]; [None] when [int] raises. *)
Definition mantis_init (int_limit : string -> bool) (unicode_int : string -> option Z)
    (environ : gmap string string) : option MantisHubIntegration :=
  match py_int int_limit unicode_int (default "1" (environ !! "MANTIS_PROJECT_ID")) with
  | Some project =>
      Some {| base_url := environ !! "MANTIS_BASE_URL";
              api_token := environ !! "MANTIS_API_TOKEN";
              project_id := project |}
  | None => None
  end.

Inductive main_outcome :=
| MissingVariables (names : list string)   (* logged, [main] returns *)
| InitValueError                           (* [int] raises in [__init__] *)
| Started (bot : Bot) (token : string).    (* [bot.start(token)] is awaited *)

(** [main], up to the call of [bot.start]; [self_id] is the identity
    Discord gives the bot and [db] the table found on disk. *)
Definition main (int_limit : string -> bool) (unicode_int : string -> option Z)
    (environ : gmap string string) (self_id : Z) (db : gmap string TicketRow)
  : main_outcome :=
  match missing_vars environ with
  | [] =>
      match mantis_init int_limit unicode_int environ with
      | Some m => Started (init_bot self_id m db)
                    (default "" (environ !! "DISCORD_BOT_TOKEN"))
      | None => InitValueError
      end
  | names => MissingVariables names
  end.

(** A variable [main] requires is unset or empty; the project
    identifier has a default and is missing only when set to the empty
    text. *)
Definition variable_missing (environ : gmap string string) : Prop :=
  (exists k,
     k ∈ ["DISCORD_BOT_TOKEN"; "GEMINI_API_KEY"; "MANTIS_BASE_URL"; "MANTIS_API_TOKEN"]
     /\ env_missing (environ !! k) = true)
  \/ environ !! "MANTIS_PROJECT_ID" = Some "".

(** [names] are the missing variables, in the order of
    [required_vars]. *)
Definition reported_names (environ : gmap string string) (names : list string) : Prop :=
  names <> []
  /\ names `sublist_of` ["DISCORD_BOT_TOKEN"; "GEMINI_API_KEY"; "MANTIS_BASE_URL";
                         "MANTIS_API_TOKEN"; "MANTIS_PROJECT_ID"]
  /\ (forall k,
        k ∈ ["DISCORD_BOT_TOKEN"; "GEMINI_API_KEY"; "MANTIS_BASE_URL"; "MANTIS_API_TOKEN"] ->
        (k ∈ names <-> env_missing (environ !! k) = true))
  /\ ("MANTIS_PROJECT_ID" ∈ names <-> environ !! "MANTIS_PROJECT_ID" = Some "").

(** ** Runs of the bot *)

(** One event handled: a support request or a reaction. *)
Inductive bot_step : Bot -> Bot -> Prop :=
| step_request (e : env) (message : Message) (st : Bot) :
    bot_step st (snd (handle_support_request e message st))
| step_reaction (e : env) (reaction : Reaction) (user : User) (st : Bot) :
    bot_step st (snd (on_reaction_add e reaction user st)).

(** The latest ticket of a user is a non-empty identifier found in
    the local table. *)
Definition latest_indexed (st : Bot) : Prop :=
  forall (uid : Z) (tid : string),
    user_tickets st !! uid = Some tid ->
    tid <> "" /\ is_Some (database st !! tid).

(** The order of a listing: no entry is older than one after it. *)
Definition listed_newer_first (a b : ListedTicket) : Prop :=
  String.leb (lt_created_at b) (lt_created_at a) = true.

(** ** More of the scenario *)

(** The bot after [leak_message] was answered with the ticket [T-42]. *)
Definition bot_ticketed : Bot := snd (handle_support_request leak_env leak_message bot0).

(** A rendering of the dates of the scenario: the first sixteen
    characters with a space for the [T]; a text shorter than that is
    no date. *)
Definition minutes_of (created_at : string) : res string :=
  if (String.length created_at <? 16)%nat then Raise TypeError
  else Ok (String.substring 0 10 created_at +:+ " " +:+ String.substring 11 5 created_at).

Definition scenario_row (uid created issue : string) : TicketRow :=
  {| row_user_id := uid; row_username := "user"; row_issue_description := issue;
     row_status := "Open"; row_severity := PyStr "low"; row_category := "other";
     row_created_at := created; row_updated_at := created |}.

(** A table with seven tickets of alice, the oldest with a text that is
    no date, and one of bob. *)
Definition bot_busy : Bot :=
  init_bot 99 mantis_hub
    (list_to_map
       [("T-1", scenario_row "7" "2024-01-01T09:00:00" "door stuck");
        ("T-2", scenario_row "7" "2024-02-01T09:00:00" "no spin");
        ("T-3", scenario_row "7" "2024-03-01T09:00:00" "smell");
        ("T-4", scenario_row "7" "2024-04-01T09:00:00" "noise");
        ("T-5", scenario_row "8" "2024-04-15T09:00:00" "leak");
        ("T-6", scenario_row "7" "2024-05-01T09:00:00"
           "the drum does not turn any more and the display shows an error code");
        ("T-7", scenario_row "7" "2024-06-01T09:00:00" "drain");
        ("T-8", scenario_row "7" "1999" "old import")]).

(** The fields [list_tickets] shows for alice in [bot_busy]. *)
Definition busy_fields : list TicketField :=
  Eval vm_compute in
    match list_tickets minutes_of alice bot_busy with
    | Ok (TicketListEmbed _ fields _) => fields
    | _ => []
    end.

(** The classifier escalates with a list for severity. *)
Definition list_severity_env : env :=
  make_env (Str.bq "{`action`: `create_ticket`, `category`: `door`, `severity`: [`high`]}")
    (Some "T-50").
(** The classifier escalates with a number for severity. *)
Definition number_severity_env : env :=
  make_env (Str.bq "{`action`: `create_ticket`, `category`: `door`, `severity`: 3}")
    (Some "T-51").
(** The classifier escalates with a number beyond 64 bits. *)
Definition huge_severity_env : env :=
  make_env (Str.bq "{`action`: `create_ticket`, `category`: `door`, `severity`: 99999999999999999999}")
    (Some "T-52").


(** The environment of a start with only the Discord token set, and an
    empty project identifier. *)
Definition partial_environ : gmap string string :=
  list_to_map [("DISCORD_BOT_TOKEN", "discord-token"); ("MANTIS_PROJECT_ID", "")].


(** The issues posted to Mantis, in the order of the trace. *)
Definition event_post (ev : event) : option TicketData :=
  match ev with EvMantisPost data => Some data | _ => None end.
Definition posts (l : list event) : list TicketData := omap event_post l.

(** What [create_ticket] fixes in every issue it posts for the
    adapter [m]. *)
Definition post_ok (m : MantisHubIntegration) (data : TicketData) : Prop :=
  td_project data = project_id m
  /\ td_category data = "Washing Machine Support"
  /\ td_priority data = "normal"
  /\ td_reproducibility data = "always"
  /\ td_severity data ∈ ["trivial"; "minor"; "major"].

(** What is known of the identifier of a row saved after the issue
    [data] was posted: it is the answer of Mantis in the world [e], or
    nothing is known. *)
Definition answer_of (e : env) (data : TicketData) (ticket_id : string) : Prop :=
  mantis_post e data = Some ticket_id.

Definition any_answer (data : TicketData) (ticket_id : string) : Prop := True.

(** The place of an event after the event before it, [previous]: an
    issue is posted right after the call of [create_ticket] whose
    arguments it renders, and a row is saved right after an issue was
    posted, under the identifier answered to that issue, which is not
    empty. *)
Definition follows (m : MantisHubIntegration) (answered : TicketData -> string -> Prop)
    (previous : option event) (ev : event) : Prop :=
  match ev with
  | EvMantisPost data =>
      exists args, previous = Some (EvCreateTicket args) /\ data = ticket_data_of m args
  | EvSaveTicket ticket_id =>
      ticket_id <> ""
      /\ exists data, previous = Some (EvMantisPost data) /\ answered data ticket_id
  | _ => True
  end.

Fixpoint trace_ordered (m : MantisHubIntegration) (answered : TicketData -> string -> Prop)
    (previous : option event) (evs : list event) : Prop :=
  match evs with
  | [] => True
  | ev :: evs' => follows m answered previous ev /\ trace_ordered m answered (Some ev) evs'
  end.

(** The events one handler adds to the trace in the world [e]: they
    are in order, at most one issue is posted, only by a configured
    adapter, and at most one row is saved. *)
Definition step_trace_ok (e : env) (m : MantisHubIntegration) (evs : list event) : Prop :=
  trace_ordered m (answer_of e) None evs
  /\ (length (saved_tickets evs) <= length (posts evs) <= 1)%nat
  /\ (length (posts evs) <= length (create_calls evs) <= 1)%nat
  /\ Forall (post_ok m) (posts evs)
  /\ (posts evs <> [] -> mantis_configured m = true).

(** The same over the events of a whole run, each handler in a world
    of its own. *)
Definition run_trace_ok (m : MantisHubIntegration) (evs : list event) : Prop :=
  trace_ordered m any_answer None evs
  /\ Forall (post_ok m) (posts evs)
  /\ (length (saved_tickets evs) <= length (posts evs) <= length (create_calls evs))%nat
  /\ (mantis_configured m = false -> posts evs = []).

(** * Properties of the string and JSON models *)

Example title_mechanical : Str.title no_title "mechanical" = "Mechanical".
Proof. reflexivity. Qed.
Example title_words :
  Str.title no_title "o'neil's WASHING machine2go" = "O'Neil'S Washing Machine2Go".
Proof. reflexivity. Qed.
Example replace_mention :
  Str.strip (Str.replace ("<@" +:+ Str.of_Z 42 +:+ ">") "" "<@42> it leaks  ") = "it leaks".
Proof. reflexivity. Qed.


(** ** The decoder never runs out of fuel *)

Module JsonFacts.
Import Json.

Lemma skip_ws_le (s : string) : (String.length (skip_ws s) <= String.length s)%nat.
Proof.
  induction s as [|c r IH]; simpl; [lia|].
  destruct (is_ws c); simpl; lia.
Qed.

Lemma drop_prefix_le (p s r : string) :
  Str.drop_prefix p s = Some r -> (String.length r <= String.length s)%nat.
Proof.
  revert s. induction p as [|a p IH]; intros [|b s]; simpl; try discriminate.
  - intros [= <-]. simpl. lia.
  - intros [= <-]. simpl. lia.
  - destruct (Ascii.eqb a b); [|discriminate]. intros H. apply IH in H. lia.
Qed.

Lemma literal_le (lit : string) (x v : pyval) (s r : string) :
  literal lit x s = Some (v, r) -> (String.length r <= String.length s)%nat.
Proof.
  unfold literal. destruct (Str.drop_prefix lit s) as [r'|] eqn:E; [|discriminate].
  intros [= _ <-]. eapply drop_prefix_le, E.
Qed.

Lemma scan_digits_le (s : string) (acc : N) (cnt : nat) :
  (String.length (snd (scan_digits s acc cnt)) <= String.length s)%nat.
Proof.
  revert acc cnt. induction s as [|c r IH]; intros acc cnt; simpl; [lia|].
  destruct (is_digit c); simpl; [|lia].
  specialize (IH (acc * 10 + digit_val c)%N (S cnt)). lia.
Qed.

Lemma scan_frac_le (n : N) (s : string) :
  (String.length (snd (scan_frac n s)) <= String.length s)%nat.
Proof.
  unfold scan_frac. destruct s as [|c [|d r]]; [simpl; lia..|].
  destruct (Ascii.eqb c "." && is_digit d); [|simpl; lia].
  pose proof (scan_digits_le (String d r) n O) as H.
  destruct (scan_digits (String d r) n O) as [[m cnt] r'].
  cbn [snd] in *. change (String.length (String c (String d r)))
    with (S (String.length (String d r))). lia.
Qed.

Lemma scan_exp_le (s : string) :
  (String.length (snd (scan_exp s)) <= String.length s)%nat.
Proof.
  unfold scan_exp. destruct s as [|c r]; simpl; [lia|].
  destruct (Ascii.eqb c "e" || Ascii.eqb c "E"); simpl; [|lia].
  assert (forall r1 : string, (String.length r1 <= String.length r)%nat ->
            forall eneg : bool,
            (String.length
               (snd match r1 with
                    | String d _ =>
                        if is_digit d
                        then let '(x, _, r2) := scan_digits r1 0%N O in
                             (Some (if eneg then - Z.of_N x else Z.of_N x), r2)
                        else (None, String c r)
                    | EmptyString => (None, String c r)
                    end) <= S (String.length r))%nat) as Hgo.
  { intros r1 Hr1 eneg. destruct r1 as [|d r1']; [simpl; lia|].
    destruct (is_digit d); [|simpl; lia].
    pose proof (scan_digits_le (String d r1') 0%N O) as H.
    destruct (scan_digits (String d r1') 0%N O) as [[x cnt] r2].
    cbn [snd] in *. lia. }
  destruct r as [|sg r']; [simpl; lia|].
  destruct (Ascii.eqb sg "-"); [apply (Hgo r' ltac:(simpl; lia) true)|].
  destruct (Ascii.eqb sg "+");
    [apply (Hgo r' ltac:(simpl; lia) false)
    |apply (Hgo (String sg r') ltac:(simpl; lia) false)].
Qed.

Lemma finish_number_le (neg : bool) (n : N) (s : string) :
  (String.length (snd (finish_number neg n s)) <= String.length s)%nat.
Proof.
  unfold finish_number.
  pose proof (scan_frac_le n s) as Hf.
  destruct (scan_frac n s) as [frac s1]. simpl in Hf.
  pose proof (scan_exp_le s1) as He.
  destruct (scan_exp s1) as [ex s2]. simpl in He.
  destruct frac as [[m cnt]|], ex; simpl; lia.
Qed.

Lemma match_number_le (s : string) (v : pyval) (r : string) :
  match_number s = Some (v, r) -> (String.length r <= String.length s)%nat.
Proof.
  unfold match_number.
  assert (forall (neg : bool) (s1 : string),
            (String.length s1 <= String.length s)%nat ->
            match s1 with
            | String c r0 =>
                if Ascii.eqb c "0" then Some (finish_number neg 0%N r0)
                else if is_digit c then
                  let '(n, _, r') := scan_digits r0 (digit_val c) 1%nat in
                  Some (finish_number neg n r')
                else None
            | EmptyString => None
            end = Some (v, r) -> (String.length r <= String.length s)%nat) as Hgo.
  { intros neg [|c r0] Hs1; simpl in *; [discriminate|].
    destruct (Ascii.eqb c "0").
    - intros [= H]. pose proof (finish_number_le neg 0%N r0) as Hle.
      rewrite H in Hle. simpl in Hle. lia.
    - destruct (is_digit c); [|discriminate].
      pose proof (scan_digits_le r0 (digit_val c) 1%nat) as Hd.
      destruct (scan_digits r0 (digit_val c) 1%nat) as [[n cnt] r']. simpl in Hd.
      intros [= H]. pose proof (finish_number_le neg n r') as Hle.
      rewrite H in Hle. simpl in Hle. lia. }
  destruct s as [|c r0]; [discriminate|].
  destruct (Ascii.eqb c "-");
    [apply (Hgo true r0 ltac:(simpl; lia))
    |apply (Hgo false (String c r0) ltac:(simpl; lia))].
Qed.

Lemma scan_scalar_le (s : string) (v : pyval) (r : string) :
  scan_scalar s = Some (v, r) -> (String.length r <= String.length s)%nat.
Proof.
  unfold scan_scalar.
  repeat match goal with
  | |- context [literal ?l ?x s] =>
      let E := fresh "E" in
      destruct (literal l x s) as [[? ?]|] eqn:E;
      [intros [= <- <-]; eapply literal_le, E|clear E]
  | |- context [match_number s] =>
      let E := fresh "E" in
      destruct (match_number s) as [[? ?]|] eqn:E;
      [intros [= <- <-]; eapply match_number_le, E|clear E]
  end.
  discriminate.
Qed.

Lemma prepend_some (chunk : string) (k : option (string * string)) (str r : string) :
  prepend chunk k = Some (str, r) -> exists str', k = Some (str', r).
Proof. destruct k as [[str' r']|]; simpl; [|discriminate]. intros [= _ <-]. eauto. Qed.

Lemma scanstring_le (n : nat) :
  forall (s : string) (pending : option N) (str r : string),
    (String.length s <= n)%nat ->
    scanstring pending s = Some (str, r) -> (String.length r < String.length s)%nat.
Proof.
  induction n as [|n IH]; intros s pending str r Hn.
  - destruct s; simpl in *; [discriminate|lia].
  - destruct s as [|c s1]; simpl; [discriminate|].
    simpl in Hn.
    assert (forall (s' : string) p str' r',
              (String.length s' <= String.length s1)%nat ->
              scanstring p s' = Some (str', r') ->
              (String.length r' < S (String.length s1))%nat) as Hrec.
    { intros s' p str' r' Hs' H. apply IH in H; lia. }
    destruct (Ascii.eqb c dquote).
    { intros [= _ <-]. lia. }
    destruct (Ascii.eqb c backslash).
    + destruct s1 as [|e0 s2]; [discriminate|].
      destruct (Ascii.eqb e0 "u").
      * destruct s2 as [|h1 [|h2 [|h3 [|h4 s6]]]]; try discriminate.
        destruct (hex4 h1 h2 h3 h4) as [uni|]; [|discriminate].
        assert (forall str' r',
                  (if is_high_surrogate uni && starts_escape_u s6
                   then scanstring (Some uni) s6
                   else prepend (utf8 uni) (scanstring None s6)) = Some (str', r') ->
                  (String.length r' < S (String.length (String e0 (String h1 (String h2 (String h3 (String h4 s6)))))))%nat)
          as Hfresh.
        { intros str' r'. destruct (is_high_surrogate uni && starts_escape_u s6).
          - intros H. eapply Hrec in H; [exact H|simpl; lia].
          - intros H. apply prepend_some in H as [str'' H].
            eapply Hrec in H; [exact H|simpl; lia]. }
        destruct pending as [hi|].
        -- destruct (is_low_surrogate uni).
           ++ intros H. apply prepend_some in H as [str' H].
              eapply Hrec in H; [exact H|simpl; lia].
           ++ intros H. apply prepend_some in H as [str' H].
              eapply Hfresh, H.
        -- apply Hfresh.
      * destruct (simple_escape e0); [|discriminate].
        intros H. apply prepend_some in H as [str' H].
        apply prepend_some in H as [str'' H].
        eapply Hrec in H; [exact H|simpl; lia].
    + destruct (Str.code c <? 32)%N; [discriminate|].
      intros H. apply prepend_some in H as [str' H].
      apply prepend_some in H as [str'' H].
      eapply Hrec in H; [exact H|simpl; lia].
Qed.

Lemma scanstring_shorter (s : string) (pending : option N) (str r : string) :
  scanstring pending s = Some (str, r) -> (String.length r < String.length s)%nat.
Proof. apply (scanstring_le (String.length s)). lia. Qed.

Lemma fuel_ok_invalid (s : string) : fuel_ok Invalid s.
Proof. split; [discriminate|]. intros v rest [=]. Qed.

Lemma fuel_ok_parsed (v : pyval) (rest s : string) :
  (String.length rest <= String.length s)%nat -> fuel_ok (Parsed v rest) s.
Proof. intros H. split; [discriminate|]. intros v' rest' [= _ <-]. exact H. Qed.

Lemma fuel_ok_weaken (r : parse pyval) (s s' : string) :
  fuel_ok r s -> (String.length s <= String.length s')%nat -> fuel_ok r s'.
Proof.
  intros [Hne Hle] Hs. split; [exact Hne|].
  intros v rest Hr. specialize (Hle v rest Hr). lia.
Qed.

Lemma skip_ws_cons (s : string) (c : ascii) (r : string) :
  skip_ws s = String c r -> (S (String.length r) <= String.length s)%nat.
Proof. intros H. pose proof (skip_ws_le s) as Hle. rewrite H in Hle. exact Hle. Qed.

(** With more fuel than twice the characters left, the three loops of
    the decoder end with a value or an error. *)
Lemma scan_fuel (fuel : nat) :
  (forall s, (2 * String.length s < fuel)%nat -> fuel_ok (scan_once fuel s) s)
  /\ (forall s pairs, (2 * String.length s < fuel)%nat ->
      fuel_ok (JSONObject fuel s pairs) s)
  /\ (forall s items, (2 * String.length s + 1 < fuel)%nat ->
      fuel_ok (JSONArray fuel s items) s).
Proof.
  induction fuel as [|fuel (IHs & IHo & IHa)]; [repeat split; intros; lia|].
  split; [|split].
  - intros [|c r] Hs; [apply fuel_ok_invalid|]. simpl in Hs. cbn [scan_once].
    destruct (Ascii.eqb c dquote).
    { destruct (scanstring None r) as [[str r']|] eqn:E; [|apply fuel_ok_invalid].
      apply scanstring_shorter in E. apply fuel_ok_parsed. simpl. lia. }
    destruct (Ascii.eqb c "{").
    { destruct (skip_ws r) as [|c1 r1] eqn:E; [apply fuel_ok_invalid|].
      apply skip_ws_cons in E.
      destruct (Ascii.eqb c1 "}"); [apply fuel_ok_parsed; simpl; lia|].
      destruct (Ascii.eqb c1 dquote); [|apply fuel_ok_invalid].
      apply (fuel_ok_weaken _ r1); [apply IHo; lia|simpl; lia]. }
    destruct (Ascii.eqb c "[").
    { destruct (skip_ws r) as [|c1 r1] eqn:E; [apply fuel_ok_invalid|].
      apply skip_ws_cons in E.
      destruct (Ascii.eqb c1 "]"); [apply fuel_ok_parsed; simpl; lia|].
      apply (fuel_ok_weaken _ (String c1 r1)); [apply IHa; simpl; lia|simpl; lia]. }
    destruct (scan_scalar (String c r)) as [[v r']|] eqn:E; [|apply fuel_ok_invalid].
    apply scan_scalar_le in E. apply fuel_ok_parsed. exact E.
  - intros s pairs Hs. cbn [JSONObject].
    destruct (scanstring None s) as [[key r]|] eqn:E; [|apply fuel_ok_invalid].
    apply scanstring_shorter in E.
    destruct (skip_ws r) as [|c r1] eqn:E1; [apply fuel_ok_invalid|].
    apply skip_ws_cons in E1.
    destruct (Ascii.eqb c ":"); [|apply fuel_ok_invalid].
    pose proof (skip_ws_le r1) as Hw.
    destruct (IHs (skip_ws r1) ltac:(lia)) as [Hne Hle].
    destruct (scan_once fuel (skip_ws r1)) as [v r2| |];
      [|apply fuel_ok_invalid|contradiction].
    specialize (Hle v r2 eq_refl).
    destruct (skip_ws r2) as [|c2 r3] eqn:E2; [apply fuel_ok_invalid|].
    apply skip_ws_cons in E2.
    destruct (Ascii.eqb c2 "}"); [apply fuel_ok_parsed; lia|].
    destruct (Ascii.eqb c2 ","); [|apply fuel_ok_invalid].
    destruct (skip_ws r3) as [|c3 r4] eqn:E3; [apply fuel_ok_invalid|].
    apply skip_ws_cons in E3.
    destruct (Ascii.eqb c3 dquote); [|apply fuel_ok_invalid].
    apply (fuel_ok_weaken _ r4); [apply IHo; lia|lia].
  - intros s items Hs. cbn [JSONArray].
    destruct (IHs s ltac:(lia)) as [Hne Hle].
    destruct (scan_once fuel s) as [v r| |]; [|apply fuel_ok_invalid|contradiction].
    specialize (Hle v r eq_refl).
    destruct (skip_ws r) as [|c r1] eqn:E; [apply fuel_ok_invalid|].
    apply skip_ws_cons in E.
    destruct (Ascii.eqb c "]"); [apply fuel_ok_parsed; lia|].
    destruct (Ascii.eqb c ","); [|apply fuel_ok_invalid].
    pose proof (skip_ws_le r1) as Hw.
    apply (fuel_ok_weaken _ (skip_ws r1)); [apply IHa; lia|lia].
Qed.

(** [json.loads] returns a value or raises [JSONDecodeError]: the
    fuel of the model is never exhausted. *)
Lemma decode_fuel (s : string) : decode s <> OutOfFuel.
Proof.
  unfold decode. pose proof (skip_ws_le s) as Hw.
  destruct (proj1 (scan_fuel (2 * String.length s + 2)) (skip_ws s) ltac:(lia))
    as [Hne _].
  destruct (scan_once _ (skip_ws s)) as [v r| |]; [|discriminate|contradiction].
  destruct (skip_ws r); discriminate.
Qed.

Lemma loads_none (s : string) : loads s = None <-> decode s = Invalid.
Proof.
  unfold loads. pose proof (decode_fuel s) as H.
  destruct (decode s); split; intros; congruence.
Qed.

End JsonFacts.

Example loads_object :
  Json.loads (Str.bq " {`a`: [1, -2.50e3, true, null], `b`: `x\u00e9\n`, `a`: {}} ")
  = Some (PyDict [("a", PyDict []);
                  ("b", PyStr (String "x" (Json.utf8 233 +:+ nl)))]).
Proof. vm_compute. reflexivity. Qed.

Example loads_list :
  Json.loads "[1, -2.50e3, 0, 1e5]"
  = Some (PyList [PyInt 1; PyFloat (FDec true 250 1); PyInt 0; PyFloat (FDec false 1 5)]).
Proof. vm_compute. reflexivity. Qed.

Example loads_rejects :
  map Json.loads ["{} x"; "[1,]"; Str.bq "{`a`:1,}"; "01"; "1."; "-"; Str.bq "`abc"; "{'a': 1}"; ""]
  = [None; None; None; None; None; None; None; None; None].
Proof. vm_compute. reflexivity. Qed.

Example float_truthiness :
  map py_truthy [PyFloat (FDec false 0 0); PyFloat (FDec false 1 (-400));
                 PyFloat (FDec false 5 (-324)); PyFloat FNaN; PyInt 0; PyStr ""]
  = [false; false; true; true; false; false].
Proof. vm_compute. reflexivity. Qed.

Example re_search_greedy :
  re_search_braces "ab{c}d}e{f" = Some "{c}d}"
  /\ re_search_braces "}ab{c" = None.
Proof. split; reflexivity. Qed.

(** * Properties of the classifier adapter *)

Section Classifier.

Variable exceeds : string -> bool.
Variable gemini : pyval -> http_reply.
Variable user_message : string.

Lemma analyze_issue_catch :
  analyze_issue exceeds gemini user_message =
  Ok (match analyze_issue_try exceeds gemini user_message with
      | Ok v => v
      | Raise _ => _fallback_response
      end).
Proof.
  unfold analyze_issue.
  destruct (analyze_issue_try exceeds gemini user_message) as [v|[]]; reflexivity.
Qed.

Lemma analyze_issue_total : exists v, analyze_issue exceeds gemini user_message = Ok v.
Proof. rewrite analyze_issue_catch. eauto. Qed.

End Classifier.

Lemma generated_text_no_candidates (d : pydict) :
  dict_get d "candidates" = None -> generated_text (PyDict d) = Ok None.
Proof. intros H. unfold generated_text. simpl. rewrite H. reflexivity. Qed.

Lemma generated_text_gemini_result (text : string) :
  generated_text (gemini_result text) = Ok (Some (PyStr text)).
Proof. reflexivity. Qed.

Lemma loads_within_decoded (exceeds : string -> bool) (s : string) (v : pyval) :
  Json.loads_within exceeds s = Json.Decoded v
  <-> exceeds s = false /\ Json.loads s = Some v.
Proof.
  unfold Json.loads_within.
  destruct (exceeds s); [split; [discriminate|intros [[=] _]]|].
  destruct (Json.loads s) as [w|].
  - split; [intros [= ->]; auto|intros [_ [= ->]]; reflexivity].
  - split; [discriminate|intros [_ [=]]].
Qed.

Lemma analyze_issue_on_failure (exceeds : string -> bool) (gemini : pyval -> http_reply)
    (user_message : string) :
  classification_failure exceeds (gemini (payload user_message)) ->
  analyze_issue exceeds gemini user_message = Ok _fallback_response.
Proof.
  intros Hf. rewrite analyze_issue_catch. f_equal.
  unfold analyze_issue_try.
  inversion Hf as [e He|status json Hs He|e He|d Hd He|result Hr He
                  |result e Hr He|result t Hr Ht He|result s Hr Hx He
                  |result s Hr Hx Hl Hm He];
    clear Hf.
  - reflexivity.
  - destruct (Z.eqb_spec status 200); [contradiction|reflexivity].
  - reflexivity.
  - simpl. rewrite (generated_text_no_candidates _ Hd). reflexivity.
  - simpl. rewrite Hr. reflexivity.
  - simpl. rewrite Hr. reflexivity.
  - simpl. rewrite Hr. simpl.
    destruct t; try reflexivity. exfalso. eapply Ht. reflexivity.
  - simpl. rewrite Hr. simpl. unfold Json.loads_within. rewrite Hx. reflexivity.
  - simpl. rewrite Hr. simpl. unfold Json.loads_within. rewrite Hx, Hl.
    destruct (re_search_braces s) as [m|] eqn:Em; [|reflexivity].
    destruct (Hm m eq_refl) as [Hxm|Hlm]; [rewrite Hxm; reflexivity|].
    rewrite Hlm. destruct (exceeds m); reflexivity.
Qed.

(** C2. Whatever the transport does, [analyze_issue] returns a value
    and raises nothing; on a connection error, a timeout, a status
    other than 200, a reply without candidates and a payload that
    cannot be parsed, the value is the fixed fallback, whose fields are
    create_ticket, medium, other, normal and the apology. *)
Theorem analyze_issue_never_raises (exceeds : string -> bool) (gemini : pyval -> http_reply)
    (user_message : string) :
  (exists v, analyze_issue exceeds gemini user_message = Ok v)
  /\ (classification_failure exceeds (gemini (payload user_message)) ->
      analyze_issue exceeds gemini user_message = Ok _fallback_response)
  /\ py_getitem _fallback_response "action" = Ok (PyStr "create_ticket")
  /\ py_getitem _fallback_response "severity" = Ok (PyStr "medium")
  /\ py_getitem _fallback_response "category" = Ok (PyStr "other")
  /\ py_getitem _fallback_response "urgency" = Ok (PyStr "normal")
  /\ py_getitem _fallback_response "response" =
     Ok (PyStr "I'm having trouble analyzing your issue right now. Let me create a support ticket so our team can help you directly.").
Proof.
  split; [apply analyze_issue_total|].
  split; [apply analyze_issue_on_failure|repeat split].
Qed.

Lemma analyze_issue_never_raises_witness :
  analyze_issue no_limit (fun _ => HttpRaise TimeoutError) "my machine hums" = Ok _fallback_response.
Proof.
  apply (analyze_issue_never_raises no_limit (fun _ => HttpRaise TimeoutError)
           "my machine hums").
  apply cf_raise.
Defined.

(** C1 (as the code has it). The value [analyze_issue] returns is the
    fixed fallback, whose four fields take enumerated values, or the
    value decoded from the reply text (the whole text, or the text
    between its braces), as decoded: no field is checked. *)
Theorem analyze_issue_fallback_or_decoded (exceeds : string -> bool)
    (gemini : pyval -> http_reply) (user_message : string) :
  classification_enumerated _fallback_response = true
  /\ exists v,
      analyze_issue exceeds gemini user_message = Ok v
      /\ (v = _fallback_response
          \/ exists result text,
               gemini (payload user_message) = HttpResponse 200 (Ok result)
               /\ generated_text result = Ok (Some (PyStr text))
               /\ exceeds text = false
               /\ (Json.loads text = Some v
                   \/ (Json.loads text = None
                       /\ exists span, re_search_braces text = Some span
                                       /\ exceeds span = false
                                       /\ Json.loads span = Some v))).
Proof.
  split; [reflexivity|].
  rewrite analyze_issue_catch. eexists; split; [reflexivity|].
  unfold analyze_issue_try.
  destruct (gemini (payload user_message)) as [e|status [result|e]] eqn:Eg;
    [left; reflexivity| |destruct (status =? 200); left; reflexivity].
  destruct (Z.eqb_spec status 200) as [->|]; [|left; reflexivity].
  simpl.
  destruct (generated_text result) as [[t|]|e] eqn:Et; simpl;
    [|left; reflexivity..].
  destruct t as [| | | |text| |]; simpl; try (left; reflexivity).
  unfold Json.loads_within.
  destruct (exceeds text) eqn:Ex; [left; reflexivity|].
  destruct (Json.loads text) as [v|] eqn:El.
  - right. exists result, text. auto.
  - destruct (re_search_braces text) as [span|] eqn:Es; [|left; reflexivity].
    destruct (exceeds span) eqn:Exs; [left; reflexivity|].
    destruct (Json.loads span) as [v|] eqn:El'; [|left; reflexivity].
    right. exists result, text. repeat split; auto.
    right. split; [assumption|]. exists span. auto.
Qed.

(** C1 fails as stated: a reply that parses and carries values outside
    the enumerations is returned as it is. *)
Lemma analyze_issue_out_of_range_verbatim :
  analyze_issue no_limit (gemini_says out_of_range_reply) "my machine hums" = Ok out_of_range_payload
  /\ classification_enumerated out_of_range_payload = false.
Proof. split; vm_compute; reflexivity. Qed.

(** ** The span of the regular expression *)

Lemma match_dotstar_close_none (s : string) :
  occurs "}" s = false -> match_dotstar_close s = None.
Proof.
  induction s as [|c r IH]; simpl; [reflexivity|].
  intros H. apply orb_false_iff in H as [Hc Hr].
  rewrite (IH Hr), Hc. reflexivity.
Qed.

Lemma match_dotstar_close_some (s m : string) :
  match_dotstar_close s = Some m ->
  exists mid post,
    s = mid +:+ String "}" post /\ m = mid +:+ String "}" EmptyString
    /\ occurs "}" post = false.
Proof.
  revert m. induction s as [|c r IH]; simpl; intros m H; [discriminate|].
  destruct (match_dotstar_close r) as [m'|] eqn:Er.
  - injection H as <-. destruct (IH m' eq_refl) as (mid & post & -> & -> & Hp).
    exists (String c mid), post. auto.
  - destruct (Ascii.eqb_spec c "}") as [->|]; [|discriminate].
    injection H as <-. exists EmptyString, r. repeat split.
    clear IH. induction r as [|c' r' IH']; simpl in *; [reflexivity|].
    destruct (match_dotstar_close r'); [discriminate|].
    destruct (Ascii.eqb c' "}"); [discriminate|]. simpl. auto.
Qed.

Lemma match_dotstar_close_complete (mid post : string) :
  occurs "}" post = false ->
  match_dotstar_close (mid +:+ String "}" post) = Some (mid +:+ String "}" EmptyString).
Proof.
  intros Hp. induction mid as [|c mid IH]; simpl.
  - rewrite (match_dotstar_close_none _ Hp). reflexivity.
  - rewrite IH. reflexivity.
Qed.

Lemma occurs_app (c : ascii) (s t : string) :
  occurs c (s +:+ t) = occurs c s || occurs c t.
Proof.
  induction s as [|c' s IH]; simpl; [reflexivity|].
  rewrite IH. apply orb_assoc.
Qed.

Lemma re_search_braces_none (s : string) :
  occurs "}" s = false -> re_search_braces s = None.
Proof.
  induction s as [|c r IH]; simpl; [reflexivity|].
  intros H. apply orb_false_iff in H as [Hc Hr].
  rewrite (IH Hr), (match_dotstar_close_none _ Hr).
  destruct (Ascii.eqb c "{"); reflexivity.
Qed.

Lemma re_search_braces_complete (text span : string) :
  brace_span text span -> re_search_braces text = Some span.
Proof.
  intros (pre & mid & post & -> & -> & Hpre & Hpost).
  induction pre as [|c pre IH]; simpl.
  - rewrite (match_dotstar_close_complete mid post Hpost). reflexivity.
  - simpl in Hpre. apply orb_false_iff in Hpre as [Hc Hpre].
    rewrite Hc. apply IH, Hpre.
Qed.

Lemma re_search_braces_span (text span : string) :
  re_search_braces text = Some span -> brace_span text span.
Proof.
  induction text as [|c r IH]; simpl; [discriminate|].
  destruct (Ascii.eqb_spec c "{") as [->|Hc].
  - destruct (match_dotstar_close r) as [m|] eqn:Er.
    + intros [= <-].
      destruct (match_dotstar_close_some _ _ Er) as (mid & post & -> & -> & Hp).
      exists EmptyString, mid, post. auto.
    + intros H. exfalso.
      assert (occurs "}" r = false) as Hr.
      { destruct (occurs "}" r) eqn:Eo; [|reflexivity]. exfalso.
        clear -Er Eo. induction r as [|c' r' IH']; simpl in *; [discriminate|].
        destruct (match_dotstar_close r'); [discriminate|].
        destruct (Ascii.eqb c' "}"); [discriminate|]. auto. }
      rewrite (re_search_braces_none _ Hr) in H. discriminate.
  - intros H. destruct (IH H) as (pre & mid & post & -> & -> & Hpre & Hpost).
    exists (String c pre), mid, post. repeat split; auto.
    simpl. rewrite Hpre.
    destruct (Ascii.eqb_spec c "{"); [contradiction|reflexivity].
Qed.

(** C6 (as the code has it). The text of a reply is first parsed whole.
    When the interpreter refuses the text for a limit (the digits of an
    [int], the depth of the nesting), the fallback is returned and the
    second tier is not tried.  When the text is not JSON, the span from
    the first opening brace of the text to its last closing brace is
    parsed; the fallback is returned when the text has no such span or
    the span does not parse. *)
Theorem parse_is_two_tier (exceeds : string -> bool) (gemini : pyval -> http_reply)
    (user_message : string) (result : pyval) (text : string) :
  gemini (payload user_message) = HttpResponse 200 (Ok result) ->
  generated_text result = Ok (Some (PyStr text)) ->
  (exceeds text = true ->
   analyze_issue exceeds gemini user_message = Ok _fallback_response)
  /\ (exceeds text = false ->
      forall v, Json.loads text = Some v ->
        analyze_issue exceeds gemini user_message = Ok v)
  /\ (exceeds text = false -> Json.loads text = None ->
      forall span, brace_span text span ->
        analyze_issue exceeds gemini user_message
        = Ok (if exceeds span then _fallback_response
              else default _fallback_response (Json.loads span)))
  /\ (exceeds text = false -> Json.loads text = None ->
      (forall span, ~ brace_span text span) ->
      analyze_issue exceeds gemini user_message = Ok _fallback_response).
Proof.
  intros Hg Ht.
  assert (analyze_issue exceeds gemini user_message
          = Ok (match parse_reply exceeds (PyStr text) with
                | Ok v => v | Raise _ => _fallback_response end)) as Ha.
  { rewrite analyze_issue_catch. unfold analyze_issue_try.
    rewrite Hg. simpl. rewrite Ht. reflexivity. }
  rewrite Ha. simpl. unfold Json.loads_within. split; [|split; [|split]].
  - intros ->. reflexivity.
  - intros -> v ->. reflexivity.
  - intros -> -> span Hs. rewrite (re_search_braces_complete _ _ Hs).
    destruct (exceeds span); [reflexivity|].
    destruct (Json.loads span); reflexivity.
  - intros -> -> Hs. destruct (re_search_braces text) as [span|] eqn:Es; [|reflexivity].
    destruct (Hs span (re_search_braces_span _ _ Es)).
Qed.

Lemma parse_is_two_tier_witness :
  analyze_issue no_limit (gemini_says chatty_reply) "my machine hums" = Ok first_object_payload.
Proof.
  destruct (parse_is_two_tier no_limit (gemini_says chatty_reply) "my machine hums"
              (gemini_result chatty_reply) chatty_reply eq_refl eq_refl)
    as (_ & _ & H & _).
  apply (H eq_refl eq_refl chatty_span).
  apply re_search_braces_span. vm_compute. reflexivity.
Defined.

(** C6 fails as stated: on a reply with two objects the first balanced
    span parses, yet the fallback is returned. *)
Lemma two_objects_not_first_balanced :
  analyze_issue no_limit (gemini_says two_objects_reply) "my machine hums" = Ok _fallback_response
  /\ spec_two_tier_parse two_objects_reply = first_object_payload
  /\ first_object_payload <> _fallback_response.
Proof. repeat split; [vm_compute; reflexivity..|discriminate]. Qed.

(** * Properties of the handlers *)

(** The severity translation is total: low, medium and high map to
    trivial, minor and major, anything else to minor. *)
Lemma severity_map_total (severity : pyval) :
  severity_map severity = "trivial" /\ severity = PyStr "low"
  \/ severity_map severity = "major" /\ severity = PyStr "high"
  \/ severity_map severity = "minor" /\ severity <> PyStr "low" /\ severity <> PyStr "high".
Proof.
  unfold severity_map.
  destruct severity as [|b|n|f|s|l|d]; simpl;
    try (right; right; split; [reflexivity|split; discriminate]).
  destruct (String.eqb_spec s "low") as [->|Hl]; [left; auto|].
  destruct (String.eqb_spec s "medium") as [->|Hm];
    [right; right; split; [reflexivity|split; discriminate]|].
  destruct (String.eqb_spec s "high") as [->|Hh]; [right; left; auto|].
  right; right. repeat split; congruence.
Qed.


Lemma create_ticket_run (e : env) (args : CreateTicketArgs) (st : Bot) :
  py_hashable (arg_severity args) = true ->
  create_ticket e args st
  = (Ok (adapter_answer e (mantis st) args),
     set_log (log st ++ adapter_events (mantis st) args) st).
Proof.
  intros Hh. unfold create_ticket, adapter_answer, adapter_events, bindM, emit, modify, retM.
  simpl. rewrite Hh. destruct (mantis_configured (mantis st)); simpl.
  - unfold set_log; simpl. rewrite <- app_assoc. reflexivity.
  - reflexivity.
Qed.

(** ** Binding the parameters of the INSERT *)

Lemma encodable_digits (d : Decimal.uint) :
  Str.encodable (NilEmpty.string_of_uint d) = true.
Proof. induction d; simpl; auto. Qed.

Lemma encodable_zero_digits (d : Decimal.uint) :
  Str.encodable (NilZero.string_of_uint d) = true.
Proof.
  unfold NilZero.string_of_uint.
  destruct d; first [reflexivity|apply encodable_digits].
Qed.

(** The decimal text of an integer is ASCII, so it can be bound. *)
Lemma encodable_of_Z (n : Z) : Str.encodable (Str.of_Z n) = true.
Proof.
  unfold Str.of_Z, NilZero.string_of_int.
  destruct (Z.to_int n) as [d|d]; [apply encodable_zero_digits|].
  pose proof (encodable_zero_digits d) as H.
  destruct (NilZero.string_of_uint d) as [|c r] eqn:E; [reflexivity|].
  change (negb ((Str.code "-" =? 237)%N && (160 <=? Str.code c)%N)
          && Str.encodable (String c r) = true).
  rewrite H. reflexivity.
Qed.

(** The texts the INSERT of [create_support_ticket] binds besides the
    identifier of the user: all can be encoded, or the INSERT raises
    [UnicodeEncodeError]. *)
Lemma bind_parameters_text (tid : string) (uid : Z) (uname issue severity category : string) :
  bind_parameters tid (Str.of_Z uid) uname issue (PyStr severity) category
  = if storable tid uname issue severity category
    then Ok tt else Raise UnicodeEncodeError.
Proof.
  unfold bind_parameters, storable, sqlite_bind, sqlite_bind_text.
  rewrite encodable_of_Z.
  destruct (Str.encodable tid), (Str.encodable uname), (Str.encodable issue),
    (Str.encodable severity), (Str.encodable category); reflexivity.
Qed.

(** The run of [create_support_ticket] on an analysis whose category
    and severity are strings: the adapter is called; on an identifier
    the INSERT binds its parameters and the ticket is saved and
    announced, or the binding raises and nothing is written. *)
Lemma create_support_ticket_typed (e : env) (message : Message) (issue : string)
    (d : pydict) (category severity : string) (st : Bot) :
  py_get_default (PyDict d) "category" (PyStr "general") = Ok (PyStr category) ->
  py_get_default (PyDict d) "severity" (PyStr "medium") = Ok (PyStr severity) ->
  let args :=
    ticket_args e message issue category (PyStr severity)
      (default (PyStr "normal") (dict_get d "urgency"))
      (default (PyStr "No additional analysis available") (dict_get d "response")) in
  create_support_ticket e message issue (PyDict d) st
  = match adapter_answer e (mantis st) args with
    | Some tid =>
        if negb (String.eqb tid "") then
          if storable tid (user_display_name (author message)) issue severity category
          then
            (Ok tt,
             {| self_user_id := self_user_id st; mantis := mantis st;
                database :=
                  <[tid := {| row_user_id := Str.of_Z (user_id (author message));
                              row_username := user_display_name (author message);
                              row_issue_description := issue;
                              row_status := "Open";
                              row_severity := PyStr severity;
                              row_category := category;
                              row_created_at := now e; row_updated_at := now e |}]>
                    (database st);
                user_tickets := <[user_id (author message) := tid]> (user_tickets st);
                pending_tickets := pending_tickets st;
                log := log st ++ adapter_events (mantis st) args
                       ++ [EvSaveTicket tid;
                           EvReply (ReplyEmbed (TicketCreatedEmbed tid
                             (Str.title (unicode_title e) severity)
                             (default (PyStr "Our support team will review your issue and get back to you soon.")
                                (dict_get d "response"))))] |})
          else
            (Raise UnicodeEncodeError,
             set_log (log st ++ adapter_events (mantis st) args) st)
        else
          (Ok tt,
           set_log (log st ++ adapter_events (mantis st) args
                    ++ [EvReply (ReplyEmbed TicketCreationFailedEmbed)]) st)
    | None =>
        (Ok tt,
         set_log (log st ++ adapter_events (mantis st) args
                  ++ [EvReply (ReplyEmbed TicketCreationFailedEmbed)]) st)
    end.
Proof.
  intros Hc Hs args.
  unfold create_support_ticket.
  unfold bindM at 1. unfold liftM at 1. rewrite Hc.
  unfold bindM at 1. unfold liftM at 1. simpl as_str.
  unfold bindM at 1. unfold liftM at 1. rewrite Hs.
  unfold bindM at 1. unfold liftM at 1. simpl py_get_default.
  unfold bindM at 1. unfold liftM at 1.
  unfold bindM at 1. fold args.
  rewrite create_ticket_run by reflexivity.
  destruct (adapter_answer e (mantis st) args) as [tid|]; simpl.
  - destruct (String.eqb tid ""); simpl.
    + unfold reply, emit, modify, set_log. simpl. rewrite <- app_assoc. reflexivity.
    + unfold save_ticket. unfold bindM at 1. unfold bindM at 1. unfold liftM at 1.
      rewrite bind_parameters_text.
      destruct (storable _ _ _ _ _); [|reflexivity].
      unfold reply, emit, modify, bindM, liftM, set_log, set_database,
        set_user_tickets. simpl. rewrite <- !app_assoc. reflexivity.
  - unfold reply, emit, modify, set_log. simpl. rewrite <- app_assoc. reflexivity.
Qed.

Lemma replies_app (l1 l2 : list event) : replies (l1 ++ l2) = replies l1 ++ replies l2.
Proof. apply omap_app. Qed.

Lemma create_calls_app (l1 l2 : list event) :
  create_calls (l1 ++ l2) = create_calls l1 ++ create_calls l2.
Proof. apply omap_app. Qed.

Lemma saved_tickets_app (l1 l2 : list event) :
  saved_tickets (l1 ++ l2) = saved_tickets l1 ++ saved_tickets l2.
Proof. apply omap_app. Qed.

Lemma create_calls_adapter_events (m : MantisHubIntegration) (args : CreateTicketArgs) :
  create_calls (adapter_events m args) = [args].
Proof. unfold adapter_events. destruct (mantis_configured m); reflexivity. Qed.

Lemma replies_adapter_events (m : MantisHubIntegration) (args : CreateTicketArgs) :
  replies (adapter_events m args) = [].
Proof. unfold adapter_events. destruct (mantis_configured m); reflexivity. Qed.

Lemma saved_tickets_adapter_events (m : MantisHubIntegration) (args : CreateTicketArgs) :
  saved_tickets (adapter_events m args) = [].
Proof. unfold adapter_events. destruct (mantis_configured m); reflexivity. Qed.

(** Unfolding the handlers down to the state they build. *)
Ltac run :=
  unfold create_support_ticket, send_solution_response, create_ticket, save_ticket,
    register_offer, remove_offer, reply, emit, modify, bindM, liftM, retM, raiseM,
    set_log, set_database, set_user_tickets, set_pending_tickets in *;
  simpl in *.

Ltac split_match :=
  match goal with
  | |- context [match ?x with _ => _ end] =>
      lazymatch x with
      | context [match _ with _ => _ end] => fail
      | _ => destruct x eqn:?; simpl in *
      end
  end.

Ltac norm_log :=
  rewrite ?replies_app, ?create_calls_app, ?saved_tickets_app; simpl;
  rewrite ?app_nil_r.

(** Whatever the analysis, [create_support_ticket] calls the adapter at
    most once and sends one reply when it returns, none when it
    raises. *)
Lemma create_support_ticket_replies (e : env) (message : Message) (issue : string)
    (analysis : pyval) (st : Bot) :
  match create_support_ticket e message issue analysis st with
  | (Ok _, st') =>
      exists r, replies (log st') = replies (log st) ++ [r]
                /\ (r = ReplyEmbed TicketCreationFailedEmbed
                    \/ exists tid s n, r = ReplyEmbed (TicketCreatedEmbed tid s n))
  | (Raise _, st') => replies (log st') = replies (log st)
  end.
Proof.
  destruct analysis; run; try reflexivity.
  repeat split_match; norm_log; try reflexivity; eauto 8.
Qed.

Lemma create_support_ticket_calls (e : env) (message : Message) (issue : string)
    (d : pydict) (category : string) (st : Bot) :
  py_get_default (PyDict d) "category" (PyStr "general") = Ok (PyStr category) ->
  create_calls (log (snd (create_support_ticket e message issue (PyDict d) st)))
  = create_calls (log st)
    ++ [ticket_args e message issue category
          (default (PyStr "medium") (dict_get d "severity"))
          (default (PyStr "normal") (dict_get d "urgency"))
          (default (PyStr "No additional analysis available") (dict_get d "response"))].
Proof.
  intros [= Hc]. run. rewrite Hc. simpl.
  repeat split_match; norm_log; reflexivity.
Qed.

(** C7 (as the code has it). The summary [create_support_ticket] passes
    to the ticket store adapter is "Washing Machine Issue - " followed
    by the title-cased category of the classification ([general] when
    the classification has none).  For a category of ASCII characters
    the title is the text with each letter that follows a letter in
    lower case and each other letter in upper case; for the category
    mechanical the summary is "Washing Machine Issue - Mechanical". *)
Theorem ticket_summary_from_category (e : env) (message : Message) (issue : string)
    (d : pydict) (category : string) (st : Bot) :
  py_get_default (PyDict d) "category" (PyStr "general") = Ok (PyStr category) ->
  exists args,
    create_calls (log (snd (create_support_ticket e message issue (PyDict d) st)))
    = create_calls (log st) ++ [args]
    /\ arg_title args = "Washing Machine Issue - " +:+ Str.title (unicode_title e) category
    /\ (Str.is_ascii category = true ->
        arg_title args = "Washing Machine Issue - " +:+ Str.title_ascii category)
    /\ (category = "mechanical" -> arg_title args = "Washing Machine Issue - Mechanical").
Proof.
  intros Hc. eexists. split; [apply (create_support_ticket_calls _ _ _ _ _ _ Hc)|].
  split; [reflexivity|]. split.
  - intros Ha. cbn [arg_title ticket_args]. unfold ticket_title, Str.title.
    rewrite Ha. reflexivity.
  - intros ->. reflexivity.
Qed.

Lemma ticket_summary_from_category_witness :
  exists args,
    create_calls (log (snd (create_support_ticket leak_env leak_message
                              "water leaking everywhere" (PyDict escalate_payload) bot0)))
    = create_calls (log bot0) ++ [args]
    /\ arg_title args
       = "Washing Machine Issue - " +:+ Str.title (unicode_title leak_env) "mechanical"
    /\ (Str.is_ascii "mechanical" = true ->
        arg_title args = "Washing Machine Issue - " +:+ Str.title_ascii "mechanical")
    /\ ("mechanical" = "mechanical" -> arg_title args = "Washing Machine Issue - Mechanical").
Proof.
  apply (ticket_summary_from_category leak_env leak_message "water leaking everywhere"
           escalate_payload "mechanical" bot0).
  reflexivity.
Defined.

(** C7 fails as stated: for the category mechanical the summary passed
    to the adapter is not "Mechanical issue". *)
Lemma ticket_summary_not_spec :
  map arg_title
    (create_calls (log (snd (handle_support_request leak_env leak_message bot0))))
  = ["Washing Machine Issue - Mechanical"]
  /\ spec_summary no_title "mechanical" = "Mechanical issue"
  /\ "Washing Machine Issue - Mechanical" <> spec_summary no_title "mechanical".
Proof. repeat split; [vm_compute; reflexivity..|vm_compute; discriminate]. Qed.

(** The body of the [try] of [handle_support_request]. *)
Lemma handle_support_request_escalates (e : env) (message : Message) (st : Bot)
    (d : pydict) (action : pyval) :
  let content := clean_content (self_user_id st) message in
  is_greeting content = false ->
  analyze_issue (json_limit e) (gemini e) content = Ok (PyDict d) ->
  dict_get d "action" = Some action ->
  py_eq_str action "provide_solution" = false ->
  handle_support_request e message st
  = try_except (create_support_ticket e message content (PyDict d))
      (fun _ => reply ReplyError) st.
Proof.
  intros content Hg Ha Hd Hp. unfold handle_support_request. fold content.
  rewrite Hg, Ha. unfold try_except, bindM, liftM. simpl. rewrite Hd, Hp.
  reflexivity.
Qed.

(** C8 (as the code has it). When the classification asks for a ticket
    (its action is not provide_solution) with strings for category and
    severity, the ticket store adapter returns a ticket identifier that
    is not empty, and the texts the INSERT binds (the identifier, the
    name of the requester, the text of the request, the severity and
    the category) hold no lone surrogate, [handle_support_request]
    returns after the reply "Support Ticket Created", the local table
    holds a row under that identifier and [user_tickets] maps the
    requester to it. *)
Theorem ticket_created_is_indexed (e : env) (message : Message) (st : Bot)
    (d : pydict) (action : pyval) (category severity tid : string) :
  let content := clean_content (self_user_id st) message in
  let args :=
    ticket_args e message content category (PyStr severity)
      (default (PyStr "normal") (dict_get d "urgency"))
      (default (PyStr "No additional analysis available") (dict_get d "response")) in
  is_greeting content = false ->
  analyze_issue (json_limit e) (gemini e) content = Ok (PyDict d) ->
  dict_get d "action" = Some action ->
  py_eq_str action "provide_solution" = false ->
  py_get_default (PyDict d) "category" (PyStr "general") = Ok (PyStr category) ->
  py_get_default (PyDict d) "severity" (PyStr "medium") = Ok (PyStr severity) ->
  adapter_answer e (mantis st) args = Some tid ->
  String.eqb tid "" = false ->
  storable tid (user_display_name (author message)) content severity category = true ->
  exists st',
    handle_support_request e message st = (Ok tt, st')
    /\ replies (log st')
       = replies (log st)
         ++ [ReplyEmbed (TicketCreatedEmbed tid (Str.title (unicode_title e) severity)
               (default (PyStr "Our support team will review your issue and get back to you soon.")
                  (dict_get d "response")))]
    /\ create_calls (log st') = create_calls (log st) ++ [args]
    /\ saved_tickets (log st') = saved_tickets (log st) ++ [tid]
    /\ database st' !! tid
       = Some {| row_user_id := Str.of_Z (user_id (author message));
                 row_username := user_display_name (author message);
                 row_issue_description := content;
                 row_status := "Open";
                 row_severity := PyStr severity;
                 row_category := category;
                 row_created_at := now e; row_updated_at := now e |}
    /\ user_tickets st' !! user_id (author message) = Some tid.
Proof.
  intros content args Hg Ha Hd Hp Hc Hs Hm Ht Hst.
  rewrite (handle_support_request_escalates e message st d action Hg Ha Hd Hp).
  unfold try_except. fold content.
  rewrite (create_support_ticket_typed e message content d category severity st Hc Hs).
  fold args. rewrite Hm, Ht, Hst. cbn [negb].
  eexists; split; [reflexivity|]. cbn [log database user_tickets].
  rewrite !replies_app, !create_calls_app, !saved_tickets_app,
    replies_adapter_events, create_calls_adapter_events, saved_tickets_adapter_events.
  repeat split; try reflexivity.
  - apply lookup_insert_eq.
  - apply lookup_insert_eq.
Qed.

Lemma ticket_created_is_indexed_witness :
  exists st',
    handle_support_request leak_env leak_message bot0 = (Ok tt, st')
    /\ replies (log st')
       = replies (log bot0)
         ++ [ReplyEmbed (TicketCreatedEmbed "T-42" "High" (PyStr "A technician will call you."))]
    /\ create_calls (log st')
       = create_calls (log bot0)
         ++ [ticket_args leak_env leak_message "water leaking everywhere" "mechanical"
               (PyStr "high") (PyStr "high") (PyStr "A technician will call you.")]
    /\ saved_tickets (log st') = saved_tickets (log bot0) ++ ["T-42"]
    /\ database st' !! "T-42"
       = Some {| row_user_id := "7"; row_username := "alice";
                 row_issue_description := "water leaking everywhere";
                 row_status := "Open";
                 row_severity := PyStr "high";
                 row_category := "mechanical";
                 row_created_at := "2024-05-01T10:00:00";
                 row_updated_at := "2024-05-01T10:00:00" |}
    /\ user_tickets st' !! 7 = Some "T-42".
Proof.
  apply (ticket_created_is_indexed leak_env leak_message bot0 escalate_payload
           (PyStr "create_ticket") "mechanical" "high" "T-42");
    vm_compute; reflexivity.
Defined.

(** C8 fails as stated: the classification asks for a ticket, with a
    severity that is an integer beyond 64 bits, and the ticket store
    adapter returns the identifier T-52; the request is answered with
    the apology, no row is saved and [user_tickets] is not set. *)
Lemma ticket_returned_not_indexed :
  let run := handle_support_request huge_severity_env leak_message bot0 in
  (exists d, analyze_issue no_limit (gemini huge_severity_env) "water leaking everywhere"
             = Ok (PyDict d)
             /\ dict_get d "action" = Some (PyStr "create_ticket"))
  /\ mantis_post huge_severity_env <$> posts (log (snd run)) = [Some "T-52"]
  /\ fst run = Ok tt
  /\ replies (log (snd run)) = [ReplyError]
  /\ database (snd run) = ∅
  /\ user_tickets (snd run) = ∅.
Proof.
  split; [eexists; split; vm_compute; reflexivity|].
  vm_compute. repeat split; reflexivity.
Qed.



(** ** The registry of offers *)

Lemma offer_wf_typed (o : Offer) :
  offer_wf o ->
  exists d category severity,
    offer_analysis o = PyDict d
    /\ py_get_default (PyDict d) "category" (PyStr "general") = Ok (PyStr category)
    /\ py_get_default (PyDict d) "severity" (PyStr "medium") = Ok (PyStr severity).
Proof.
  intros (d & response & severity & category & Ha & _ & Hs & Hc).
  exists d, category, severity. simpl. rewrite Hs, Hc. auto.
Qed.

(** The reaction of the owner on a registered offer runs the ticket
    path on the stored issue and analysis, then removes the offer. *)
Lemma on_reaction_add_owner (e : env) (reaction : Reaction) (user : User) (st : Bot)
    (o : Offer) :
  user_bot user = false ->
  reaction_emoji reaction = ticket_emoji ->
  pending_tickets st !! reaction_message_id reaction = Some o ->
  offer_user_id o = user_id user ->
  on_reaction_add e reaction user st
  = bindM (create_support_ticket e (reaction_message reaction user o)
             (offer_issue o) (offer_analysis o))
      (fun _ => remove_offer (reaction_message_id reaction)) st.
Proof.
  intros Hb He Hl Ho. unfold on_reaction_add.
  rewrite Hb, He, String.eqb_refl, Hl, Ho, Z.eqb_refl. reflexivity.
Qed.

(** A reaction on a message without an offer does nothing. *)
Lemma on_reaction_add_unknown (e : env) (reaction : Reaction) (user : User) (st : Bot) :
  pending_tickets st !! reaction_message_id reaction = None ->
  on_reaction_add e reaction user st = (Ok tt, st).
Proof.
  intros Hl. unfold on_reaction_add. rewrite Hl.
  destruct (user_bot user || negb (String.eqb (reaction_emoji reaction) ticket_emoji));
    reflexivity.
Qed.

(** The run of an escalation by the owner: the ticket path on the
    state that still holds the offer, then the removal.  The ticket
    path returns, or the INSERT cannot encode a text and the handler
    raises with the offer still registered. *)
Lemma on_reaction_add_run (e : env) (reaction : Reaction) (user : User) (st : Bot)
    (o : Offer) :
  user_bot user = false ->
  reaction_emoji reaction = ticket_emoji ->
  pending_tickets st !! reaction_message_id reaction = Some o ->
  offer_wf o ->
  offer_user_id o = user_id user ->
  exists d category severity st1 evs,
    let args :=
      ticket_args e (reaction_message reaction user o) (offer_issue o) category
        (PyStr severity)
        (default (PyStr "normal") (dict_get d "urgency"))
        (default (PyStr "No additional analysis available") (dict_get d "response")) in
    let binds :=
      insert_binds (adapter_answer e (mantis st) args) (user_display_name user)
        (offer_issue o) severity category in
    offer_analysis o = PyDict d
    /\ dict_get d "category" = Some (PyStr category)
    /\ dict_get d "severity" = Some (PyStr severity)
    /\ create_support_ticket e (reaction_message reaction user o)
         (offer_issue o) (offer_analysis o) st
       = (if binds then Ok tt else Raise UnicodeEncodeError, st1)
    /\ pending_tickets st1 = pending_tickets st
    /\ log st1 = log st ++ EvCreateTicket args :: evs
    /\ existsb (is_remove (reaction_message_id reaction)) evs = false
    /\ existsb is_create evs = false
    /\ (binds = false ->
        database st1 = database st /\ user_tickets st1 = user_tickets st
        /\ mantis_configured (mantis st) = true
        /\ evs = [EvMantisPost (ticket_data_of (mantis st) args)]
        /\ exists tid,
             mantis_post e (ticket_data_of (mantis st) args) = Some tid
             /\ tid <> ""
             /\ storable tid (user_display_name user) (offer_issue o) severity category
                = false)
    /\ on_reaction_add e reaction user st
       = if binds
         then (Ok tt,
               set_pending_tickets
                 (delete (reaction_message_id reaction) (pending_tickets st1))
                 (set_log (log st1 ++ [EvRemoveOffer (reaction_message_id reaction)]) st1))
         else (Raise UnicodeEncodeError, st1).
Proof.
  intros Hb He Hl Hw Ho.
  rewrite (on_reaction_add_owner e reaction user st o Hb He Hl Ho).
  destruct Hw as (d & response & severity & category & Ha & _ & Hs & Hc).
  exists d, category, severity.
  rewrite Ha. unfold bindM at 1.
  rewrite (create_support_ticket_typed e _ _ d category severity st);
    [|simpl; rewrite Hc; reflexivity|simpl; rewrite Hs; reflexivity].
  cbv zeta. unfold insert_binds, remove_offer, adapter_answer, adapter_events.
  change (user_display_name (author (reaction_message reaction user o)))
    with (user_display_name user).
  destruct (mantis_configured (mantis st));
    [destruct (mantis_post e _) as [tid|] eqn:Hpost;
     [destruct (String.eqb_spec tid "") as [Ht|Ht];
      [|destruct (storable _ _ _ _ _) eqn:Hst]|]|];
    cbn [negb orb]; cbn [pending_tickets set_log]; rewrite ?Hl;
    (eexists _, _; repeat split; try reflexivity; try assumption; try congruence).
  exists tid. auto.
Qed.




(** C4. An escalation by a requester who does not own the registered
    offer is rejected: the handler returns and leaves the bot as it
    is, so no ticket is created, nothing is sent to the adapter and the
    offer stays in the registry.  The rejection is this silent
    return. *)
Theorem escalate_not_owner (e : env) (reaction : Reaction) (user : User) (st : Bot)
    (o : Offer) :
  pending_tickets st !! reaction_message_id reaction = Some o ->
  offer_user_id o <> user_id user ->
  on_reaction_add e reaction user st = (Ok tt, st)
  /\ pending_tickets (snd (on_reaction_add e reaction user st))
     !! reaction_message_id reaction = Some o
  /\ create_calls (log (snd (on_reaction_add e reaction user st)))
     = create_calls (log st).
Proof.
  intros Hl Ho.
  assert (on_reaction_add e reaction user st = (Ok tt, st)) as H.
  { unfold on_reaction_add. rewrite Hl.
    destruct (Z.eqb_spec (offer_user_id o) (user_id user)); [contradiction|].
    destruct (user_bot user || negb (String.eqb (reaction_emoji reaction) ticket_emoji));
      reflexivity. }
  rewrite H. auto.
Qed.

Lemma escalate_not_owner_witness :
  on_reaction_add leak_env ticket_reaction bob bot_offered = (Ok tt, bot_offered)
  /\ pending_tickets (snd (on_reaction_add leak_env ticket_reaction bob bot_offered))
     !! reaction_message_id ticket_reaction = Some alice_offer
  /\ create_calls (log (snd (on_reaction_add leak_env ticket_reaction bob bot_offered)))
     = create_calls (log bot_offered).
Proof.
  apply (escalate_not_owner leak_env ticket_reaction bob bot_offered).
  - vm_compute. reflexivity.
  - vm_compute. discriminate.
Defined.

(** C5 (as the code has it). In an escalation by the owner the ticket
    path runs first, on a registry that still holds the offer: the call
    to the adapter opens the events of the escalation, no removal of
    the offer comes before the call, and the offer is still registered
    when the ticket path ends.  When the ticket path returns, the
    removal closes the events of the escalation and the registry is
    left without the offer.  When the ticket path raises, the handler
    raises and the offer is not removed. *)
Theorem offer_removed_after_ticket (e : env) (reaction : Reaction) (user : User)
    (st : Bot) (o : Offer) :
  user_bot user = false ->
  reaction_emoji reaction = ticket_emoji ->
  pending_tickets st !! reaction_message_id reaction = Some o ->
  offer_wf o ->
  offer_user_id o = user_id user ->
  exists r st1 st' args evs,
    create_support_ticket e (reaction_message reaction user o)
      (offer_issue o) (offer_analysis o) st = (r, st1)
    /\ pending_tickets st1 !! reaction_message_id reaction = Some o
    /\ log st1 = log st ++ EvCreateTicket args :: evs
    /\ existsb (is_remove (reaction_message_id reaction)) evs = false
    /\ on_reaction_add e reaction user st = (r, st')
    /\ (r = Ok tt ->
        log st' = log st1 ++ [EvRemoveOffer (reaction_message_id reaction)]
        /\ pending_tickets st'
           = delete (reaction_message_id reaction) (pending_tickets st))
    /\ (r <> Ok tt -> st' = st1).
Proof.
  intros Hb He Hl Hw Ho.
  destruct (on_reaction_add_run e reaction user st o Hb He Hl Hw Ho)
    as (d & category & severity & st1 & evs & _ & _ & _ & Hrun1 & Hp & Hlog & Hrm & _
        & _ & Hrun).
  cbv zeta in Hrun1, Hrun.
  match type of Hrun with
  | context [if ?b then _ else _] => destruct b
  end;
    eexists _, st1, _, _, evs;
    (split; [exact Hrun1|]); (split; [rewrite Hp; exact Hl|]);
    (split; [exact Hlog|]); (split; [exact Hrm|]);
    (split; [exact Hrun|]); split; try congruence.
  intros _. cbn [log pending_tickets set_pending_tickets set_log].
  rewrite Hp. auto.
Qed.

Lemma offer_removed_after_ticket_witness :
  exists r st1 st' args evs,
    create_support_ticket drain_env
      (reaction_message ticket_reaction alice alice_offer)
      (offer_issue alice_offer) (offer_analysis alice_offer) bot_offered = (r, st1)
    /\ pending_tickets st1 !! 1000 = Some alice_offer
    /\ log st1 = log bot_offered ++ EvCreateTicket args :: evs
    /\ existsb (is_remove 1000) evs = false
    /\ on_reaction_add drain_env ticket_reaction alice bot_offered = (r, st')
    /\ (r = Ok tt ->
        log st' = log st1 ++ [EvRemoveOffer 1000]
        /\ pending_tickets st' = delete 1000 (pending_tickets bot_offered))
    /\ (r <> Ok tt -> st' = st1).
Proof.
  apply (offer_removed_after_ticket drain_env ticket_reaction alice bot_offered alice_offer);
    try (vm_compute; reflexivity).
  exists resolve_payload, (PyStr "clean the filter"), "low", "drainage".
  repeat split; reflexivity.
Defined.

(** C5 fails as stated: in a successful escalation the adapter is
    called and the ticket saved, and no removal of the offer comes
    before the call. *)
Lemma offer_not_removed_before_create :
  let run := on_reaction_add drain_env ticket_reaction alice bot_offered in
  fst run = Ok tt
  /\ saved_tickets (log (snd run)) = ["T-43"]
  /\ existsb is_create (log (snd run)) = true
  /\ occurs_before (is_remove 1000) is_create (log (snd run)) = false.
Proof. vm_compute. repeat split; reflexivity. Qed.

(** ** One reply per request *)

Lemma send_solution_response_replies (e : env) (message : Message) (analysis : pyval)
    (st : Bot) :
  match send_solution_response e message analysis st with
  | (Ok _, st') =>
      exists description severity category,
        replies (log st')
        = replies (log st)
          ++ [ReplyEmbed (TroubleshootingEmbed description severity category)]
  | (Raise _, st') => st' = st
  end.
Proof.
  unfold send_solution_response, title_of.
  destruct analysis; run; try reflexivity.
  repeat split_match; norm_log; try reflexivity; eauto.
Qed.

Lemma handle_support_request_greeting (e : env) (message : Message) (st : Bot) :
  is_greeting (clean_content (self_user_id st) message) = true ->
  handle_support_request e message st
  = (Ok tt, set_log (log st ++ [EvReply (ReplyEmbed HelpEmbed)]) st).
Proof. intros Hg. unfold handle_support_request. rewrite Hg. reflexivity. Qed.

Lemma handle_support_request_replies (e : env) (message : Message) (st : Bot) :
  is_greeting (clean_content (self_user_id st) message) = false ->
  exists st' r,
    handle_support_request e message st = (Ok tt, st')
    /\ replies (log st') = replies (log st) ++ [r]
    /\ r <> ReplyEmbed HelpEmbed.
Proof.
  intros Hg. unfold handle_support_request. rewrite Hg.
  destruct (analyze_issue_total (json_limit e) (gemini e) (clean_content (self_user_id st) message))
    as [v Hv].
  unfold try_except, bindM at 1, liftM at 1. rewrite Hv.
  unfold bindM at 1, liftM at 1.
  destruct (py_getitem v "action") as [action|ex].
  - destruct (py_eq_str action "provide_solution").
    + pose proof (send_solution_response_replies e message v st) as H.
      destruct (send_solution_response e message v st) as [[[]|ex] st'].
      * destruct H as (description & severity & category & H).
        eexists _, _. split; [reflexivity|]. split; [exact H|discriminate].
      * subst st'. eexists _, _. split; [reflexivity|].
        unfold reply, emit, modify, set_log; simpl. norm_log.
        split; [reflexivity|discriminate].
    + pose proof (create_support_ticket_replies e message
                    (clean_content (self_user_id st) message) v st) as H.
      destruct (create_support_ticket e message _ v st) as [[[]|ex] st'].
      * destruct H as (r & H & Hr).
        eexists _, _. split; [reflexivity|]. split; [exact H|].
        destruct Hr as [->|(tid & s & n & ->)]; discriminate.
      * eexists _, _. split; [reflexivity|].
        unfold reply, emit, modify, set_log; simpl. norm_log. rewrite H.
        split; [reflexivity|discriminate].
  - eexists _, _. split; [reflexivity|].
    unfold reply, emit, modify, set_log; simpl. norm_log.
    split; [reflexivity|discriminate].
Qed.

Lemma handle_support_request_fallback (e : env) (message : Message) (st : Bot) :
  let content := clean_content (self_user_id st) message in
  is_greeting content = false ->
  classification_failure (json_limit e) (gemini e (payload content)) ->
  exists st',
    handle_support_request e message st = (Ok tt, st')
    /\ replies (log st')
       = replies (log st)
         ++ [fallback_reply (adapter_answer e (mantis st) (fallback_args e message content))
               (user_display_name (author message)) content].
Proof.
  intros content Hg Hf.
  rewrite (handle_support_request_escalates e message st fallback_fields
             (PyStr "create_ticket") Hg (analyze_issue_on_failure _ _ _ Hf) eq_refl eq_refl).
  unfold try_except. fold content.
  rewrite (create_support_ticket_typed e message content fallback_fields
             "other" "medium" st eq_refl eq_refl).
  cbv zeta. unfold fallback_reply, fallback_args. cbn [dict_get fallback_fields default].
  simpl String.eqb. cbn [from_option].
  destruct (adapter_answer _ _ _) as [tid|];
    [destruct (String.eqb tid ""); [|destruct (storable _ _ _ _ _)]|];
    cbn [negb]; eexists; (split; [reflexivity|]);
    unfold reply, emit, modify, set_log; cbn [log];
    rewrite !replies_app, replies_adapter_events, ?app_nil_r; reflexivity.
Qed.

(** C10 (as the code has it). [handle_support_request] returns without
    raising and sends exactly one reply.  The reply is the help embed
    when the text is empty or a greeting and never otherwise; on other
    texts it is the guidance, "Support Ticket Created", "Ticket
    Creation Failed", or the apology of the handler when a step on the
    classification or the INSERT raises.  When the classifier fails (a
    timeout included) the fallback classification is used: the reply
    is "Ticket Creation Failed" when the adapter returns no
    identifier, "Support Ticket Created" with the severity Medium when
    it returns one and the texts of the INSERT can be encoded, and the
    apology when they cannot. *)
Theorem handle_support_request_one_reply (e : env) (message : Message) (st : Bot) :
  let content := clean_content (self_user_id st) message in
  exists st' r,
    handle_support_request e message st = (Ok tt, st')
    /\ replies (log st') = replies (log st) ++ [r]
    /\ (is_greeting content = true <-> r = ReplyEmbed HelpEmbed)
    /\ (is_greeting content = false ->
        is_orchestrator_result r = true \/ r = ReplyError)
    /\ (is_greeting content = false ->
        classification_failure (json_limit e) (gemini e (payload content)) ->
        r = fallback_reply (adapter_answer e (mantis st) (fallback_args e message content))
              (user_display_name (author message)) content).
Proof.
  intros content. destruct (is_greeting content) eqn:Hg.
  - rewrite (handle_support_request_greeting e message st Hg).
    eexists _, _. split; [reflexivity|].
    unfold set_log; cbn [log]. rewrite replies_app.
    split; [reflexivity|]. split; [tauto|]. split; discriminate.
  - destruct (handle_support_request_replies e message st Hg) as (st' & r & Hrun & Hr & Hh).
    exists st', r. split; [exact Hrun|]. split; [exact Hr|].
    split; [split; [discriminate|contradiction]|].
    split.
    + intros _. destruct r as [[]|]; simpl; auto; contradiction.
    + intros _ Hf.
      destruct (handle_support_request_fallback e message st Hg Hf)
        as (st'' & Hrun' & Hr').
      rewrite Hrun in Hrun'. injection Hrun' as <-.
      rewrite Hr in Hr'. apply app_inj_tail in Hr' as [_ Hr']. exact Hr'.
Qed.

Lemma handle_support_request_one_reply_witness :
  exists st' r,
    handle_support_request timeout_env leak_message bot0 = (Ok tt, st')
    /\ replies (log st') = replies (log bot0) ++ [r]
    /\ r = ReplyEmbed (TicketCreatedEmbed "T-45" "Medium"
              (PyStr "I'm having trouble analyzing your issue right now. Let me create a support ticket so our team can help you directly.")).
Proof.
  destruct (handle_support_request_one_reply timeout_env leak_message bot0)
    as (st' & r & Hrun & Hr & _ & _ & Hf).
  exists st', r. split; [exact Hrun|]. split; [exact Hr|].
  apply Hf; [vm_compute; reflexivity|]. apply cf_raise.
Defined.

(** C10 fails as stated: when the classifier answers an object without
    the key [response], the request is answered by the apology of the
    handler, which is none of the three results. *)
Lemma handle_support_request_error_reply :
  handle_support_request bare_env leak_message bot0
  = (Ok tt, set_log [EvReply ReplyError] bot0)
  /\ replies (log (snd (handle_support_request bare_env leak_message bot0))) = [ReplyError]
  /\ is_orchestrator_result ReplyError = false.
Proof. vm_compute. repeat split; reflexivity. Qed.

(** ** Registered offers are well formed *)

Lemma create_support_ticket_pending (e : env) (message : Message) (issue : string)
    (analysis : pyval) (st : Bot) :
  pending_tickets (snd (create_support_ticket e message issue analysis st))
  = pending_tickets st.
Proof.
  destruct analysis; run; try reflexivity.
  repeat split_match; reflexivity.
Qed.

Lemma send_solution_response_pending_wf (e : env) (message : Message) (analysis : pyval)
    (st : Bot) :
  pending_wf st -> pending_wf (snd (send_solution_response e message analysis st)).
Proof.
  intros Hwf. unfold send_solution_response, title_of.
  destruct analysis as [| | | | | |d]; run; try exact Hwf.
  destruct (dict_get d "response") as [response|] eqn:Hr; simpl; [|exact Hwf].
  destruct (dict_get d "severity") as [[| | | |severity| |]|] eqn:Hs; simpl; try exact Hwf.
  destruct (dict_get d "category") as [[| | | |category| |]|] eqn:Hc; simpl; try exact Hwf.
  unfold pending_wf. simpl. apply map_Forall_insert_2; [|exact Hwf].
  exists d, response, severity, category. auto.
Qed.

Lemma handle_support_request_pending_wf (e : env) (message : Message) (st : Bot) :
  pending_wf st -> pending_wf (snd (handle_support_request e message st)).
Proof.
  intros Hwf. unfold handle_support_request.
  destruct (is_greeting _); [exact Hwf|].
  unfold try_except, bindM at 1, liftM at 1.
  destruct (analyze_issue_total (json_limit e) (gemini e) (clean_content (self_user_id st) message))
    as [v ->].
  unfold bindM at 1, liftM at 1.
  destruct (py_getitem v "action") as [action|ex]; [|exact Hwf].
  destruct (py_eq_str action "provide_solution").
  - pose proof (send_solution_response_pending_wf e message v st Hwf) as H.
    destruct (send_solution_response e message v st) as [[[]|ex] st']; exact H.
  - pose proof (create_support_ticket_pending e message
                  (clean_content (self_user_id st) message) v st) as H.
    destruct (create_support_ticket e message _ v st) as [[[]|ex] st'];
      simpl in H; unfold pending_wf; simpl; rewrite H; exact Hwf.
Qed.

Lemma on_reaction_add_pending_wf (e : env) (reaction : Reaction) (user : User) (st : Bot) :
  pending_wf st -> pending_wf (snd (on_reaction_add e reaction user st)).
Proof.
  intros Hwf. unfold on_reaction_add.
  destruct (user_bot user || negb (String.eqb (reaction_emoji reaction) ticket_emoji));
    [exact Hwf|].
  destruct (pending_tickets st !! reaction_message_id reaction) as [o|]; [|exact Hwf].
  destruct (offer_user_id o =? user_id user); [|exact Hwf].
  unfold bindM at 1.
  pose proof (create_support_ticket_pending e (reaction_message reaction user o)
                (offer_issue o) (offer_analysis o) st) as H.
  unfold reaction_message in H.
  destruct (create_support_ticket e _ (offer_issue o) (offer_analysis o) st)
    as [[[]|ex] st']; simpl in H.
  - unfold remove_offer.
    destruct (pending_tickets st' !! reaction_message_id reaction);
      unfold pending_wf; simpl; rewrite H.
    + apply map_Forall_delete, Hwf.
    + exact Hwf.
  - unfold pending_wf; simpl; rewrite H; exact Hwf.
Qed.

Lemma init_bot_pending_wf (self_id : Z) (m : MantisHubIntegration)
    (db : gmap string TicketRow) :
  pending_wf (init_bot self_id m db).
Proof. apply map_Forall_empty. Qed.

(** * The local table and the command [tickets] *)

Lemma string_compare_refl (s : string) : String.compare s s = Eq.
Proof.
  induction s as [|c s IH]; simpl; [reflexivity|].
  unfold Ascii.compare. rewrite N.compare_refl. exact IH.
Qed.

Lemma string_compare_lt_trans (a b c : string) :
  String.compare a b = Lt -> String.compare b c = Lt -> String.compare a c = Lt.
Proof.
  revert b c. induction a as [|x a IH]; intros [|y b] [|z c]; simpl;
    try discriminate; try reflexivity.
  unfold Ascii.compare.
  destruct (N.compare_spec (N_of_ascii x) (N_of_ascii y)) as [Hxy|Hxy|Hxy];
    destruct (N.compare_spec (N_of_ascii y) (N_of_ascii z)) as [Hyz|Hyz|Hyz];
    try discriminate; intros H1 H2.
  - rewrite Hxy, Hyz, N.compare_refl. eapply IH; eassumption.
  - rewrite Hxy. apply N.compare_lt_iff in Hyz. rewrite Hyz. reflexivity.
  - rewrite <- Hyz. apply N.compare_lt_iff in Hxy. rewrite Hxy. reflexivity.
  - assert (N_of_ascii x < N_of_ascii z)%N as H by lia.
    apply N.compare_lt_iff in H. rewrite H. reflexivity.
Qed.

Lemma string_leb_trans (a b c : string) :
  String.leb a b = true -> String.leb b c = true -> String.leb a c = true.
Proof.
  unfold String.leb.
  destruct (String.compare a b) eqn:Hab; [| |discriminate];
    destruct (String.compare b c) eqn:Hbc; try discriminate; intros _ _.
  - apply String.compare_eq_iff in Hab, Hbc. subst. rewrite string_compare_refl.
    reflexivity.
  - apply String.compare_eq_iff in Hab. subst. rewrite Hbc. reflexivity.
  - apply String.compare_eq_iff in Hbc. subst. rewrite Hab. reflexivity.
  - rewrite (string_compare_lt_trans a b c Hab Hbc). reflexivity.
Qed.

Lemma newer_first_total : Total newer_first.
Proof. intros x y. unfold newer_first. destruct (String.leb_total (row_created_at y.2) (row_created_at x.2)); auto. Qed.

Lemma newer_first_trans : Transitive newer_first.
Proof. intros x y z Hxy Hyz. unfold newer_first in *. eapply string_leb_trans; eassumption. Qed.

Lemma user_rows_perm (user_id : string) (db : gmap string TicketRow) :
  user_rows user_id db ≡ₚ filter (owned_by user_id) (map_to_list db).
Proof. apply merge_sort_Permutation. Qed.

Lemma elem_of_user_rows (user_id : string) (db : gmap string TicketRow)
    (tid : string) (row : TicketRow) :
  (tid, row) ∈ user_rows user_id db <-> db !! tid = Some row /\ row_user_id row = user_id.
Proof.
  rewrite user_rows_perm, list_elem_of_filter, elem_of_map_to_list.
  unfold owned_by. simpl. tauto.
Qed.

Lemma NoDup_user_rows_keys (user_id : string) (db : gmap string TicketRow) :
  NoDup (user_rows user_id db).*1.
Proof.
  rewrite user_rows_perm.
  apply (sublist_NoDup _ ((map_to_list db).*1)); [apply NoDup_fst_map_to_list|].
  apply fmap_sublist, sublist_filter.
Qed.

Lemma get_user_tickets_ids (user_id : string) (db : gmap string TicketRow) :
  lt_ticket_id <$> get_user_tickets user_id db = (user_rows user_id db).*1.
Proof.
  unfold get_user_tickets. rewrite <- list_fmap_compose.
  apply list_fmap_ext. intros i [tid row] _. reflexivity.
Qed.

Lemma elem_of_get_user_tickets (user_id : string) (db : gmap string TicketRow)
    (t : ListedTicket) :
  t ∈ get_user_tickets user_id db
  <-> exists row,
        db !! lt_ticket_id t = Some row
        /\ row_user_id row = user_id
        /\ t = listed (lt_ticket_id t, row).
Proof.
  unfold get_user_tickets. rewrite list_elem_of_fmap. split.
  - intros ([tid row] & -> & Hin). apply elem_of_user_rows in Hin as [Hl Hu].
    exists row. simpl. auto.
  - intros (row & Hl & Hu & Ht). exists (lt_ticket_id t, row). split; [exact Ht|].
    apply elem_of_user_rows. auto.
Qed.

Lemma NoDup_get_user_tickets_ids (user_id : string) (db : gmap string TicketRow) :
  NoDup (lt_ticket_id <$> get_user_tickets user_id db).
Proof. rewrite get_user_tickets_ids. apply NoDup_user_rows_keys. Qed.

(** X1. The listing of a user holds the rows of the table stored under
    that user, all of them and no other, each ticket once. *)
Theorem get_user_tickets_complete (user_id : string) (db : gmap string TicketRow) :
  (forall tid row,
     db !! tid = Some row -> row_user_id row = user_id ->
     listed (tid, row) ∈ get_user_tickets user_id db)
  /\ (forall t,
        t ∈ get_user_tickets user_id db ->
        exists row, db !! lt_ticket_id t = Some row /\ row_user_id row = user_id
                    /\ lt_issue_description t = row_issue_description row
                    /\ lt_created_at t = row_created_at row)
  /\ NoDup (lt_ticket_id <$> get_user_tickets user_id db)
  /\ length (get_user_tickets user_id db)
     = length (filter (owned_by user_id) (map_to_list db)).
Proof.
  split; [|split; [|split]].
  - intros tid row Hl Hu. apply elem_of_get_user_tickets. exists row. auto.
  - intros t Ht. apply elem_of_get_user_tickets in Ht as (row & Hl & Hu & Ht).
    exists row. repeat split; auto; rewrite Ht; reflexivity.
  - apply NoDup_get_user_tickets_ids.
  - unfold get_user_tickets. rewrite length_fmap. apply Permutation_length, user_rows_perm.
Qed.

Lemma get_user_tickets_complete_witness :
  listed ("T-42", {| row_user_id := "7"; row_username := "alice";
                     row_issue_description := "water leaking everywhere";
                     row_status := "Open"; row_severity := PyStr "high";
                     row_category := "mechanical";
                     row_created_at := "2024-05-01T10:00:00";
                     row_updated_at := "2024-05-01T10:00:00" |})
  ∈ get_user_tickets "7" (database (snd (handle_support_request leak_env leak_message bot0))).
Proof.
  apply (get_user_tickets_complete "7"
           (database (snd (handle_support_request leak_env leak_message bot0)))).
  - vm_compute. reflexivity.
  - reflexivity.
Defined.

Lemma user_rows_sorted (user_id : string) (db : gmap string TicketRow) :
  StronglySorted newer_first (user_rows user_id db).
Proof.
  apply (@StronglySorted_merge_sort _ newer_first _ newer_first_trans newer_first_total).
Qed.

Lemma listed_sorted (rows : list (string * TicketRow)) :
  StronglySorted newer_first rows -> StronglySorted listed_newer_first (listed <$> rows).
Proof.
  intros H. apply StronglySorted_fmap with (R1 := newer_first); [|exact H].
  intros x y Hxy. exact Hxy.
Qed.

(** X2. The listing is ordered by creation time, most recent first: an
    entry is never older than any entry after it. *)
Theorem get_user_tickets_sorted (user_id : string) (db : gmap string TicketRow) :
  StronglySorted listed_newer_first (get_user_tickets user_id db).
Proof.
  unfold get_user_tickets. apply listed_sorted, user_rows_sorted.
Qed.

Lemma NoDup_get_user_tickets (user_id : string) (db : gmap string TicketRow) :
  NoDup (get_user_tickets user_id db).
Proof. eapply NoDup_fmap_1, NoDup_get_user_tickets_ids. Qed.

Lemma save_ticket_run (e : env) (tid uid uname issue : string) (severity : pyval)
    (category : string) (st : Bot) :
  bind_parameters tid uid uname issue severity category = Ok tt ->
  save_ticket e tid uid uname issue severity category st
  = (Ok tt,
     set_database
       (<[tid := {| row_user_id := uid; row_username := uname;
                    row_issue_description := issue; row_status := "Open";
                    row_severity := severity; row_category := category;
                    row_created_at := now e; row_updated_at := now e |}]> (database st))
       (set_log (log st ++ [EvSaveTicket tid]) st)).
Proof.
  intros Hb. unfold save_ticket, bindM, liftM, emit, modify. rewrite Hb. reflexivity.
Qed.

(** X3. [save_ticket] is an upsert keyed by the ticket identifier.
    When the parameters of the INSERT bind (no text holds a lone
    surrogate, the severity is no list, dictionary or integer beyond 64
    bits), the listing of every user is afterwards its former listing
    without the ticket saved, and the listing of the user saved for has
    in addition the ticket with the description, severity and time
    given.  When a parameter does not bind, [save_ticket] raises and
    leaves the bot as it is. *)
Theorem save_ticket_upsert (e : env) (tid uid uname issue : string) (severity : pyval)
    (category : string) (st : Bot) (user : string) :
  (bind_parameters tid uid uname issue severity category = Ok tt ->
   get_user_tickets user
     (database (snd (save_ticket e tid uid uname issue severity category st)))
   ≡ₚ (if decide (user = uid)
       then [{| lt_ticket_id := tid; lt_issue_description := issue;
                lt_severity := text_affinity severity; lt_created_at := now e |}]
       else [])
      ++ filter (fun t => lt_ticket_id t <> tid) (get_user_tickets user (database st)))
  /\ (forall ex,
        bind_parameters tid uid uname issue severity category = Raise ex ->
        save_ticket e tid uid uname issue severity category st = (Raise ex, st)).
Proof.
  split.
  2:{ intros ex Hb. unfold save_ticket, bindM, liftM. rewrite Hb. reflexivity. }
  intros Hb. rewrite (save_ticket_run _ _ _ _ _ _ _ _ Hb).
  cbn [snd database set_database set_log].
  set (row := {| row_user_id := uid; row_username := uname;
                 row_issue_description := issue; row_status := "Open";
                 row_severity := severity; row_category := category;
                 row_created_at := now e; row_updated_at := now e |}).
  set (t := {| lt_ticket_id := tid; lt_issue_description := issue;
               lt_severity := text_affinity severity; lt_created_at := now e |}).
  apply NoDup_Permutation.
  - apply NoDup_get_user_tickets.
  - apply NoDup_app. split; [|split].
    + destruct (decide (user = uid)); [apply NoDup_singleton|apply NoDup_nil_2].
    + intros x Hx Hf. apply list_elem_of_filter in Hf as [Hne _].
      destruct (decide (user = uid)); [|inversion Hx].
      apply list_elem_of_singleton in Hx. subst x. apply Hne. reflexivity.
    + apply NoDup_filter, NoDup_get_user_tickets.
  - intros x. rewrite elem_of_app, list_elem_of_filter, !elem_of_get_user_tickets.
    split.
    + intros (r & Hl & Hu & Hx).
      destruct (decide (lt_ticket_id x = tid)) as [Hid|Hid].
      * left. rewrite Hid, lookup_insert_eq in Hl. injection Hl as <-.
        simpl in Hu. subst user. rewrite decide_True by reflexivity.
        apply list_elem_of_singleton. rewrite Hx, Hid. reflexivity.
      * right. rewrite lookup_insert_ne in Hl by congruence.
        split; [exact Hid|]. exists r. auto.
    + intros [Hx|(Hid & r & Hl & Hu & Hx)].
      * destruct (decide (user = uid)) as [->|]; [|inversion Hx].
        apply list_elem_of_singleton in Hx. subst x. exists row.
        simpl. rewrite lookup_insert_eq. auto.
      * exists r. rewrite lookup_insert_ne by congruence. auto.
Qed.

Lemma save_ticket_upsert_witness :
  get_user_tickets "7"
    (database (snd (save_ticket leak_env "T-42" "7" "alice" "it leaks" (PyStr "high")
                      "mechanical" bot0)))
  ≡ₚ (if decide ("7" = "7")
      then [{| lt_ticket_id := "T-42"; lt_issue_description := "it leaks";
               lt_severity := text_affinity (PyStr "high");
               lt_created_at := now leak_env |}]
      else [])
     ++ filter (fun t => lt_ticket_id t <> "T-42") (get_user_tickets "7" (database bot0)).
Proof.
  apply (save_ticket_upsert leak_env "T-42" "7" "alice" "it leaks" (PyStr "high")
           "mechanical" bot0 "7").
  reflexivity.
Defined.

(** ** The previews and the bounds of [list_tickets] *)

Lemma str_len_app (a b : string) : str_len (a +:+ b) = (str_len a + str_len b)%nat.
Proof.
  induction a as [|c a IH]; simpl; [reflexivity|].
  destruct ((128 <=? Str.code c)%N && (Str.code c <? 192)%N); simpl; lia.
Qed.

Lemma str_len_take (n : nat) (s : string) :
  str_len (str_take n s) = Nat.min n (str_len s).
Proof.
  revert n. induction s as [|c s IH]; intros n; simpl; [lia|].
  unfold is_continuation.
  destruct ((128 <=? Str.code c)%N && (Str.code c <? 192)%N) eqn:Hc; simpl.
  - rewrite Hc. apply IH.
  - destruct n as [|n]; simpl; [reflexivity|]. rewrite Hc, IH. reflexivity.
Qed.

Lemma str_take_all (n : nat) (s : string) :
  (str_len s <= n)%nat -> str_take n s = s.
Proof.
  revert n. induction s as [|c s IH]; intros n; simpl; [reflexivity|].
  unfold is_continuation.
  destruct ((128 <=? Str.code c)%N && (Str.code c <? 192)%N); intros Hn.
  - rewrite IH by exact Hn. reflexivity.
  - destruct n as [|n]; [lia|]. rewrite IH by lia. reflexivity.
Qed.

Lemma str_take_prefix (n : nat) (s : string) :
  exists rest, s = str_take n s +:+ rest.
Proof.
  revert n. induction s as [|c s IH]; intros n; simpl; [exists ""; reflexivity|].
  destruct (is_continuation c).
  - destruct (IH n) as [rest Hr]. exists rest.
    change (String c s = String c (str_take n s +:+ rest)). f_equal. exact Hr.
  - destruct n as [|n]; [exists (String c s); reflexivity|].
    destruct (IH n) as [rest Hr]. exists rest.
    change (String c s = String c (str_take n s +:+ rest)). f_equal. exact Hr.
Qed.

Lemma preview_short (description : string) :
  (str_len description <= 50)%nat -> preview description = description.
Proof.
  intros H. unfold preview. rewrite str_take_all by exact H.
  destruct (Nat.ltb_spec 50 (str_len description)); [lia|].
  clear. induction description as [|c d IH]; [reflexivity|].
  change (String c (d +:+ "") = String c d). rewrite IH. reflexivity.
Qed.

Lemma preview_long (description : string) :
  (50 < str_len description)%nat ->
  preview description = str_take 50 description +:+ "..."
  /\ str_len (preview description) = 53%nat.
Proof.
  intros H. unfold preview.
  destruct (Nat.ltb_spec 50 (str_len description)); [|lia].
  split; [reflexivity|]. rewrite str_len_app, str_len_take.
  change (str_len "...") with 3%nat. lia.
Qed.

Lemma preview_bound (description : string) : (str_len (preview description) <= 53)%nat.
Proof.
  destruct (Nat.le_gt_cases (str_len description) 50) as [H|H].
  - rewrite preview_short by exact H. lia.
  - destruct (preview_long description H) as [_ ->]. lia.
Qed.

(** How a field of the embed derives from a row of the listing. *)
Lemma ticket_fields_ok (format_created : string -> res string) (ts : list ListedTicket)
    (fields : list TicketField) :
  ticket_fields format_created ts = Ok fields ->
  Forall2 (fun t fld =>
             tf_ticket_id fld = lt_ticket_id t
             /\ tf_issue fld = preview (lt_issue_description t)
             /\ tf_severity fld = lt_severity t
             /\ format_created (lt_created_at t) = Ok (tf_created fld)) ts fields.
Proof.
  revert fields. induction ts as [|t ts IH]; intros fields; simpl.
  - intros [= <-]. constructor.
  - unfold ticket_field.
    destruct (format_created (lt_created_at t)) as [created|ex] eqn:Hf; simpl;
      [|discriminate].
    destruct (ticket_fields format_created ts) as [fs|ex]; simpl; [|discriminate].
    intros [= <-]. constructor; [simpl; auto|]. apply IH. reflexivity.
Qed.

Lemma ticket_fields_raise (format_created : string -> res string) (ts : list ListedTicket) :
  (exists ex, ticket_fields format_created ts = Raise ex)
  <-> Exists (fun t => exists ex, format_created (lt_created_at t) = Raise ex) ts.
Proof.
  induction ts as [|t ts IH]; simpl.
  - split; [intros [ex [=]]|intros H; inversion H].
  - unfold ticket_field. rewrite Exists_cons.
    destruct (format_created (lt_created_at t)) as [created|ex] eqn:Hf; simpl.
    + destruct (ticket_fields format_created ts) as [fs|ex]; simpl.
      * split; [intros [ex [=]]|].
        intros [[ex [=]]|H]. apply IH in H as [ex [=]].
      * split; [intros _; right; apply IH; eauto|eauto].
    + split; eauto.
Qed.

Lemma ticket_fields_ids (format_created : string -> res string)
    (tickets : list ListedTicket) (fields : list TicketField) :
  ticket_fields format_created tickets = Ok fields ->
  tf_ticket_id <$> fields = lt_ticket_id <$> tickets.
Proof.
  intros Hf. apply ticket_fields_ok in Hf.
  induction Hf as [|x y l k (Hid & _) _ IH]; [reflexivity|].
  rewrite !fmap_cons, Hid, IH. reflexivity.
Qed.

Lemma list_tickets_shown_ids (format_created : string -> res string) (author : User)
    (st : Bot) (found : nat) (fields : list TicketField) (footer_total : option nat) :
  list_tickets format_created author st = Ok (TicketListEmbed found fields footer_total) ->
  tf_ticket_id <$> fields
  = lt_ticket_id <$> take 5 (get_user_tickets (Str.of_Z (user_id author)) (database st)).
Proof.
  unfold list_tickets.
  destruct (get_user_tickets _ _) as [|t ts] eqn:Ht; [discriminate|].
  destruct (ticket_fields format_created (take 5 (t :: ts))) as [fs|ex] eqn:Hf;
    simpl; [|discriminate].
  intros [= _ <- _]. apply (ticket_fields_ids _ _ _ Hf).
Qed.

(** X4. [list_tickets] answers "no tickets" exactly when the table has
    no row of the author; otherwise it reports the number of the
    author's rows, shows the first five of the listing, no more, and
    adds the footer with the true total exactly when there are more
    than five. *)
Theorem list_tickets_bounds (format_created : string -> res string) (author : User)
    (st : Bot) (r : CommandReply) :
  let tickets := get_user_tickets (Str.of_Z (user_id author)) (database st) in
  list_tickets format_created author st = Ok r ->
  (tickets = [] /\ r = NoTicketsReply)
  \/ (exists fields,
        r = TicketListEmbed (length tickets) fields
              (if (5 <? length tickets)%nat then Some (length tickets) else None)
        /\ (0 < length tickets)%nat
        /\ length fields = Nat.min 5 (length tickets)
        /\ tf_ticket_id <$> fields = lt_ticket_id <$> take 5 tickets).
Proof.
  intros tickets. unfold list_tickets. fold tickets.
  destruct tickets as [|t ts] eqn:Ht; [intros [= <-]; left; auto|].
  rewrite <- Ht.
  destruct (ticket_fields format_created (take 5 tickets)) as [fields|ex] eqn:Hf;
    simpl; [|discriminate].
  intros [= <-]. right. exists fields.
  apply ticket_fields_ok in Hf.
  split; [reflexivity|]. split; [rewrite Ht; simpl; lia|]. split.
  - rewrite <- (Forall2_length _ _ _ Hf), length_take. reflexivity.
  - clear -Hf. induction Hf as [|x y l k (Hid & _) _ IH]; [reflexivity|].
    rewrite !fmap_cons, Hid, IH. reflexivity.
Qed.

Lemma list_tickets_bounds_witness :
  let tickets := get_user_tickets (Str.of_Z (user_id alice)) (database bot_ticketed) in
  let r := TicketListEmbed 1
             [{| tf_ticket_id := "T-42"; tf_issue := "water leaking everywhere";
                 tf_severity := SqlText "high"; tf_created := "2024-05-01 10:00" |}]
             None in
  (tickets = [] /\ r = NoTicketsReply)
  \/ (exists fields,
        r = TicketListEmbed (length tickets) fields
              (if (5 <? length tickets)%nat then Some (length tickets) else None)
        /\ (0 < length tickets)%nat
        /\ length fields = Nat.min 5 (length tickets)
        /\ tf_ticket_id <$> fields = lt_ticket_id <$> take 5 tickets).
Proof.
  apply (list_tickets_bounds minutes_of alice bot_ticketed).
  vm_compute. reflexivity.
Defined.

(** X5. Every field of the embed of [list_tickets] comes from the row
    at the same rank among the first five of the listing: it shows the
    ticket identifier, the date as rendered, and the description cut
    to its first 50 characters followed by three dots when it is
    longer than 50, whole otherwise; the text shown never exceeds 53
    characters. *)
Theorem list_tickets_previews (format_created : string -> res string) (author : User)
    (st : Bot) (found : nat) (fields : list TicketField) (footer_total : option nat) :
  list_tickets format_created author st = Ok (TicketListEmbed found fields footer_total) ->
  Forall2 (fun t fld =>
             tf_ticket_id fld = lt_ticket_id t
             /\ format_created (lt_created_at t) = Ok (tf_created fld)
             /\ (str_len (tf_issue fld) <= 53)%nat
             /\ ((str_len (lt_issue_description t) <= 50)%nat ->
                 tf_issue fld = lt_issue_description t)
             /\ ((50 < str_len (lt_issue_description t))%nat ->
                 tf_issue fld = str_take 50 (lt_issue_description t) +:+ "..."))
    (take 5 (get_user_tickets (Str.of_Z (user_id author)) (database st))) fields.
Proof.
  unfold list_tickets.
  set (tickets := get_user_tickets (Str.of_Z (user_id author)) (database st)).
  destruct tickets as [|t ts] eqn:Ht; [discriminate|]. rewrite <- Ht.
  destruct (ticket_fields format_created (take 5 tickets)) as [fs|ex] eqn:Hf;
    simpl; [|discriminate].
  intros [= _ <- _]. apply ticket_fields_ok in Hf.
  eapply Forall2_impl; [exact Hf|].
  intros x fld (Hid & Hissue & _ & Hc). rewrite Hissue.
  split; [exact Hid|]. split; [exact Hc|]. split; [apply preview_bound|].
  split; [apply preview_short|]. intros Hl. apply (preview_long _ Hl).
Qed.

Lemma list_tickets_previews_witness :
  Forall2 (fun t fld =>
             tf_ticket_id fld = lt_ticket_id t
             /\ minutes_of (lt_created_at t) = Ok (tf_created fld)
             /\ (str_len (tf_issue fld) <= 53)%nat
             /\ ((str_len (lt_issue_description t) <= 50)%nat ->
                 tf_issue fld = lt_issue_description t)
             /\ ((50 < str_len (lt_issue_description t))%nat ->
                 tf_issue fld = str_take 50 (lt_issue_description t) +:+ "..."))
    (take 5 (get_user_tickets (Str.of_Z (user_id alice)) (database bot_ticketed)))
    [{| tf_ticket_id := "T-42"; tf_issue := "water leaking everywhere";
        tf_severity := SqlText "high"; tf_created := "2024-05-01 10:00" |}].
Proof.
  apply (list_tickets_previews minutes_of alice bot_ticketed 1 _ None).
  vm_compute. reflexivity.
Defined.

(** X6. The tickets [list_tickets] shows are the latest: a ticket of
    the author that is not shown is never more recent than one that
    is. *)
Theorem list_tickets_shows_latest (format_created : string -> res string) (author : User)
    (st : Bot) (found : nat) (fields : list TicketField) (footer_total : option nat)
    (shown omitted : ListedTicket) :
  let tickets := get_user_tickets (Str.of_Z (user_id author)) (database st) in
  list_tickets format_created author st = Ok (TicketListEmbed found fields footer_total) ->
  shown ∈ tickets -> lt_ticket_id shown ∈ tf_ticket_id <$> fields ->
  omitted ∈ tickets -> lt_ticket_id omitted ∉ tf_ticket_id <$> fields ->
  String.leb (lt_created_at omitted) (lt_created_at shown) = true.
Proof.
  intros tickets Hrun Hs Hsid Ho Hoid.
  pose proof (list_tickets_shown_ids format_created author st _ _ _ Hrun) as Hids.
  fold tickets in Hids. rewrite Hids in Hsid, Hoid.
  pose proof (NoDup_get_user_tickets_ids (Str.of_Z (user_id author)) (database st)) as Hnd.
  pose proof (listed_sorted _ (user_rows_sorted (Str.of_Z (user_id author)) (database st)))
    as Hsorted.
  change (StronglySorted listed_newer_first tickets) in Hsorted.
  fold tickets in Hnd, Hsorted.
  rewrite <- (take_drop 5 tickets) in Hs, Ho, Hnd, Hsorted.
  rewrite fmap_app in Hnd. apply NoDup_app in Hnd as (_ & Hdisj & _).
  apply elem_of_app in Hs, Ho.
  assert (shown ∈ take 5 tickets) as Hs'.
  { destruct Hs as [Hs|Hs]; [exact Hs|]. exfalso.
    apply (Hdisj _ Hsid). apply list_elem_of_fmap_2. exact Hs. }
  assert (omitted ∈ drop 5 tickets) as Ho'.
  { destruct Ho as [Ho|Ho]; [|exact Ho]. exfalso.
    apply Hoid. apply list_elem_of_fmap_2. exact Ho. }
  apply (StronglySorted_app_1_elem_of _ _ _ _ _ Hsorted Hs' Ho').
Qed.

(** X7. [list_tickets] raises exactly when the date of one of the five
    rows it shows cannot be rendered; the rows beyond the fifth are
    never rendered. *)
Theorem list_tickets_raises (format_created : string -> res string) (author : User)
    (st : Bot) :
  (exists ex, list_tickets format_created author st = Raise ex)
  <-> Exists (fun t => exists ex, format_created (lt_created_at t) = Raise ex)
        (take 5 (get_user_tickets (Str.of_Z (user_id author)) (database st))).
Proof.
  unfold list_tickets.
  set (tickets := get_user_tickets (Str.of_Z (user_id author)) (database st)).
  rewrite <- ticket_fields_raise.
  destruct tickets as [|t ts] eqn:Ht.
  - simpl. split; intros [ex [=]].
  - rewrite <- Ht.
    destruct (ticket_fields format_created (take 5 tickets)) as [fs|ex]; simpl.
    + split; intros [ex [=]].
    + split; eauto.
Qed.

Lemma list_tickets_shows_latest_witness :
  String.leb "2024-01-01T09:00:00" "2024-03-01T09:00:00" = true.
Proof.
  apply (list_tickets_shows_latest minutes_of alice bot_busy 7%nat busy_fields (Some 7%nat)
           (listed ("T-3", scenario_row "7" "2024-03-01T09:00:00" "smell"))
           (listed ("T-1", scenario_row "7" "2024-01-01T09:00:00" "door stuck"))).
  - vm_compute. reflexivity.
  - vm_compute. repeat constructor.
  - vm_compute. repeat constructor.
  - vm_compute. repeat constructor.
  - change ("T-1" ∉ ["T-7"; "T-6"; "T-4"; "T-3"; "T-2"]).
    rewrite !not_elem_of_cons. repeat split; try discriminate. apply not_elem_of_nil.
Defined.

Lemma list_tickets_raises_witness :
  ~ exists ex, list_tickets minutes_of alice bot_busy = Raise ex.
Proof.
  intros H. apply (list_tickets_raises minutes_of alice bot_busy) in H.
  vm_compute in H.
  repeat match goal with
  | H : Exists _ (_ :: _) |- _ => apply Exists_cons in H as [[ex H]|H]; [discriminate H|]
  end.
  inversion H.
Defined.

(** * The command [status] *)

Lemma get_ticket_status_unavailable (mantis_get : string -> http_reply)
    (m : MantisHubIntegration) (ticket_id : string) :
  status_unavailable m (mantis_get (issue_url m ticket_id)) ->
  get_ticket_status mantis_get m ticket_id = None.
Proof.
  intros Hu. unfold get_ticket_status, get_ticket_status_try.
  destruct (mantis_configured m) eqn:Hc; [|reflexivity]. simpl.
  inversion Hu as [reply Hc'|e He|status json Hs He|e He|data e Hd He
                  |data issues Hd Ht He|data issues e Hd Hi He]; clear Hu.
  - congruence.
  - reflexivity.
  - destruct (Z.eqb_spec status 200); [contradiction|reflexivity].
  - reflexivity.
  - simpl. rewrite Hd. reflexivity.
  - simpl. rewrite Hd. simpl. rewrite Ht. reflexivity.
  - simpl. rewrite Hd. simpl. rewrite Hi. destruct (py_truthy issues); reflexivity.
Qed.

(** X8. When Mantis cannot be read (the adapter is not configured, the
    request raises or times out, the status is not 200, the body is
    not JSON or carries no issue), [check_status] raises nothing and
    answers that the ticket asked about could not be found, naming
    it. *)
Theorem check_status_unavailable (mantis_get : string -> http_reply) (author : User)
    (ticket_id : option string) (st : Bot) (tid : string) :
  requested_ticket_id author ticket_id st = Some tid ->
  String.eqb tid "" = false ->
  status_unavailable (mantis st) (mantis_get (issue_url (mantis st) tid)) ->
  check_status mantis_get author ticket_id st = Ok (TicketNotFoundReply tid).
Proof.
  intros Hr Ht Hu. unfold check_status. rewrite Hr. simpl. rewrite Ht. simpl.
  rewrite (get_ticket_status_unavailable _ _ _ Hu). reflexivity.
Qed.

Lemma check_status_unavailable_witness :
  check_status (fun _ => HttpRaise TimeoutError) alice None bot_ticketed
  = Ok (TicketNotFoundReply "T-42").
Proof.
  apply (check_status_unavailable (fun _ => HttpRaise TimeoutError) alice None
           bot_ticketed "T-42").
  - vm_compute. reflexivity.
  - reflexivity.
  - apply su_raise.
Defined.

Lemma name_of_raise (info : pyval) (k : string) (ex : exn) :
  name_of info k = Raise ex ->
  ex = AttributeError
  /\ forall d, info = PyDict d ->
       exists v, dict_get d k = Some v /\ forall d', v <> PyDict d'.
Proof.
  unfold name_of.
  destruct info as [| | | | | |d]; simpl;
    try (intros [= <-]; split; [reflexivity|discriminate]).
  destruct (dict_get d k) as [v|] eqn:Hk; simpl; [|discriminate].
  destruct v; simpl; try discriminate; intros [= <-];
    (split; [reflexivity|]); intros d0 [= <-]; eexists; (split; [exact Hk|discriminate]).
Qed.

Lemma name_of_ok (d : pydict) (k : string) (r v : pyval) :
  name_of (PyDict d) k = Ok r -> dict_get d k = Some v -> exists d', v = PyDict d'.
Proof.
  unfold name_of. simpl. intros Hn Hl. rewrite Hl in Hn. simpl in Hn.
  destruct v; simpl in Hn; try discriminate. eauto.
Qed.

Lemma not_readable (d : pydict) (k : string) (v : pyval) :
  k ∈ ["status"; "priority"; "severity"] ->
  dict_get d k = Some v -> (forall d', v <> PyDict d') ->
  ~ readable_issue (PyDict d).
Proof.
  intros Hk Hv Hn (d0 & [= <-] & Hd). destruct (Hd k v Hk Hv) as [d' ->].
  apply (Hn d'). reflexivity.
Qed.

Lemma status_embed_cases (tid : string) (info : pyval) :
  (readable_issue info
   /\ exists summary status priority severity,
        status_embed tid info
        = Ok (TicketStatusEmbed tid summary status priority severity))
  \/ (~ readable_issue info /\ status_embed tid info = Raise AttributeError).
Proof.
  unfold status_embed.
  destruct info as [|b|n|f|s|l|d];
    try (right; split; [intros (d0 & [=] & _)|reflexivity]).
  simpl py_get_default. simpl res_bind at 1.
  destruct (name_of (PyDict d) "status") as [s|e1] eqn:H1; simpl.
  2:{ apply name_of_raise in H1 as [-> H1]. destruct (H1 d eq_refl) as (v & Hv & Hn).
      right. split; [|reflexivity].
      eapply not_readable; [|exact Hv|exact Hn]. set_solver. }
  destruct (name_of (PyDict d) "priority") as [p|e2] eqn:H2; simpl.
  2:{ apply name_of_raise in H2 as [-> H2]. destruct (H2 d eq_refl) as (v & Hv & Hn).
      right. split; [|reflexivity].
      eapply not_readable; [|exact Hv|exact Hn]. set_solver. }
  destruct (name_of (PyDict d) "severity") as [sv|e3] eqn:H3; simpl.
  2:{ apply name_of_raise in H3 as [-> H3]. destruct (H3 d eq_refl) as (v & Hv & Hn).
      right. split; [|reflexivity].
      eapply not_readable; [|exact Hv|exact Hn]. set_solver. }
  left. split; [|eauto 10].
  exists d. split; [reflexivity|]. intros k v Hk Hv.
  rewrite !elem_of_cons, elem_of_nil in Hk.
  destruct Hk as [->|[->|[->|[]]]]; (eapply name_of_ok; [|exact Hv]); eassumption.
Qed.

Lemma status_embed_not_no_recent (tid : string) (info : pyval) :
  status_embed tid info <> Ok NoRecentTicketReply.
Proof.
  intros H.
  destruct (status_embed_cases tid info) as [(_ & s & t & p & v & He)|[_ He]];
    congruence.
Qed.

(** X9. [check_status] answers that there is no recent ticket exactly
    when it is given no identifier and the author has no latest
    ticket; Mantis plays no part in it. *)
Theorem check_status_no_recent (mantis_get : string -> http_reply) (author : User)
    (ticket_id : option string) (st : Bot) :
  check_status mantis_get author ticket_id st = Ok NoRecentTicketReply
  <-> no_ticket_id ticket_id = true
      /\ no_ticket_id (user_tickets st !! user_id author) = true.
Proof.
  pose proof status_embed_not_no_recent as Hne.
  unfold check_status, requested_ticket_id.
  destruct (no_ticket_id ticket_id) eqn:Hn.
  - destruct (no_ticket_id (user_tickets st !! user_id author)) eqn:Hl; [tauto|].
    split; [|intros [_ [=]]]. intros H. exfalso.
    destruct (get_ticket_status _ _ _) as [info|]; [|discriminate].
    destruct (py_truthy info); [|discriminate]. eapply Hne, H.
  - rewrite Hn. split; [|intros [[=] _]]. intros H. exfalso.
    destruct (get_ticket_status _ _ _) as [info|]; [|discriminate].
    destruct (py_truthy info); [|discriminate]. eapply Hne, H.
Qed.

(** X10. [check_status] raises exactly when Mantis returns a non-empty
    first issue that cannot be read as one: a value that is not a
    dictionary, or a dictionary whose status, priority or severity is
    not a dictionary.  The exception is then [AttributeError]. *)
Theorem check_status_raises (mantis_get : string -> http_reply) (author : User)
    (ticket_id : option string) (st : Bot) :
  ((exists ex, check_status mantis_get author ticket_id st = Raise ex)
   <-> exists tid info,
         requested_ticket_id author ticket_id st = Some tid
         /\ String.eqb tid "" = false
         /\ get_ticket_status mantis_get (mantis st) tid = Some info
         /\ py_truthy info = true
         /\ ~ readable_issue info)
  /\ (forall ex, check_status mantis_get author ticket_id st = Raise ex ->
      ex = AttributeError).
Proof.
  unfold check_status.
  destruct (requested_ticket_id author ticket_id st) as [tid|] eqn:Hr; simpl.
  2:{ split; [split; [intros [ex [=]]|intros (tid & info & [=] & _)]|intros ex [=]]. }
  destruct (String.eqb tid "") eqn:Ht; simpl.
  { split; [split; [intros [ex [=]]|]|intros ex [=]].
    intros (tid' & info & [= <-] & Ht' & _). congruence. }
  destruct (get_ticket_status mantis_get (mantis st) tid) as [info|] eqn:Hg.
  2:{ split; [split; [intros [ex [=]]|]|intros ex [=]].
      intros (tid' & info & [= <-] & _ & Hg' & _). congruence. }
  destruct (py_truthy info) eqn:Hi.
  2:{ split; [split; [intros [ex [=]]|]|intros ex [=]].
      intros (tid' & info' & [= <-] & _ & Hg' & Hi' & _).
      rewrite Hg in Hg'. injection Hg' as <-. congruence. }
  destruct (status_embed_cases tid info) as [(Hread & s & t & p & v & He)|[Hread He]];
    rewrite He.
  - split; [split; [intros [ex [=]]|]|intros ex [=]].
    intros (tid' & info' & [= <-] & _ & Hg' & _ & Hn).
    rewrite Hg in Hg'. injection Hg' as <-. contradiction.
  - split; [split; [intros _; exists tid, info; auto|eauto]|].
    intros ex [= <-]. reflexivity.
Qed.

Lemma check_status_raises_witness :
  check_status (fun _ => HttpResponse 200 (Ok (PyDict [("issues", PyStr "oops")])))
    alice (Some "T-42") bot0 = Raise AttributeError.
Proof.
  destruct (check_status_raises
              (fun _ => HttpResponse 200 (Ok (PyDict [("issues", PyStr "oops")])))
              alice (Some "T-42") bot0) as [[_ H] Hex].
  destruct H as [ex H].
  - exists "T-42", (PyStr "o"). repeat split; try reflexivity.
    intros (d & [=] & _).
  - rewrite H. f_equal. apply (Hex ex H).
Defined.

(** * Start-up *)


Lemma missing_vars_filter (environ : gmap string string) :
  missing_vars environ
  = (if env_missing (environ !! "DISCORD_BOT_TOKEN") then ["DISCORD_BOT_TOKEN"] else [])
    ++ (if env_missing (environ !! "GEMINI_API_KEY") then ["GEMINI_API_KEY"] else [])
    ++ (if env_missing (environ !! "MANTIS_BASE_URL") then ["MANTIS_BASE_URL"] else [])
    ++ (if env_missing (environ !! "MANTIS_API_TOKEN") then ["MANTIS_API_TOKEN"] else [])
    ++ (if env_missing (Some (default "1" (environ !! "MANTIS_PROJECT_ID")))
        then ["MANTIS_PROJECT_ID"] else []).
Proof.
  unfold missing_vars, required_vars.
  rewrite !filter_cons, filter_nil. cbn [snd].
  repeat case_decide;
    repeat match goal with
    | H : env_missing _ = true |- _ => rewrite H; clear H
    | H : env_missing _ <> true |- _ => apply not_true_is_false in H; rewrite H; clear H
    end; reflexivity.
Qed.

Lemma project_id_missing (environ : gmap string string) :
  env_missing (Some (default "1" (environ !! "MANTIS_PROJECT_ID"))) = true
  <-> environ !! "MANTIS_PROJECT_ID" = Some "".
Proof.
  destruct (environ !! "MANTIS_PROJECT_ID") as [s|]; simpl.
  - destruct (String.eqb_spec s ""); split; try discriminate; try congruence.
  - split; discriminate.
Qed.

Lemma main_missing_names (int_limit : string -> bool) (unicode_int : string -> option Z)
    (environ : gmap string string) (self_id : Z) (db : gmap string TicketRow)
    (names : list string) :
  main int_limit unicode_int environ self_id db = MissingVariables names ->
  reported_names environ names.
Proof.
  unfold main, reported_names. intros Hm.
  assert (names = missing_vars environ /\ names <> []) as [-> Hne].
  { destruct (missing_vars environ) as [|n ns];
      [|injection Hm as <-; split; [reflexivity|discriminate]].
    destruct (mantis_init int_limit unicode_int environ); discriminate. }
  clear Hm. split; [exact Hne|]. clear Hne.
  rewrite <- project_id_missing. rewrite missing_vars_filter.
  destruct (env_missing (environ !! "DISCORD_BOT_TOKEN")) eqn:H1,
           (env_missing (environ !! "GEMINI_API_KEY")) eqn:H2,
           (env_missing (environ !! "MANTIS_BASE_URL")) eqn:H3,
           (env_missing (environ !! "MANTIS_API_TOKEN")) eqn:H4,
           (env_missing (Some (default "1" (environ !! "MANTIS_PROJECT_ID")))) eqn:H5;
    cbn [app];
    (split; [repeat first [apply sublist_nil|apply sublist_skip|apply sublist_cons]
            |split;
             [intros k Hk; rewrite !elem_of_cons, elem_of_nil in Hk;
              destruct Hk as [->|[->|[->|[->|[]]]]];
              rewrite ?H1, ?H2, ?H3, ?H4;
              rewrite ?elem_of_cons, ?elem_of_nil;
              split; intros; try discriminate; try tauto;
              repeat match goal with H : _ \/ _ |- _ => destruct H end;
              try discriminate; try contradiction
             |rewrite ?elem_of_cons, ?elem_of_nil;
              split; intros; try discriminate; try tauto;
              repeat match goal with H : _ \/ _ |- _ => destruct H end;
              try discriminate; try contradiction]]).
Qed.

(** X11. When a required variable is unset or empty, [main] reports
    the missing variables, exactly those and in the order of
    [required_vars], and returns without creating the bot; the project
    identifier, which has a default, is reported only when it is set
    to the empty text.  When no variable is missing, [main] reports
    none. *)
Theorem main_missing_variables (int_limit : string -> bool)
    (unicode_int : string -> option Z)
    (environ : gmap string string) (self_id : Z) (db : gmap string TicketRow) :
  (variable_missing environ ->
   exists names,
     main int_limit unicode_int environ self_id db = MissingVariables names
     /\ reported_names environ names)
  /\ (~ variable_missing environ ->
      forall names,
        main int_limit unicode_int environ self_id db <> MissingVariables names).
Proof.
  assert (variable_missing environ <-> missing_vars environ <> []) as Hiff.
  { unfold variable_missing. rewrite <- project_id_missing, missing_vars_filter.
    split.
    - intros [(k & Hk & Hm)|Hm].
      + rewrite !elem_of_cons, elem_of_nil in Hk.
        destruct Hk as [->|[->|[->|[->|[]]]]]; rewrite Hm;
          repeat match goal with
          | |- context [if ?b then _ else _] => destruct b
          end; discriminate.
      + rewrite Hm.
        repeat match goal with
        | |- context [if ?b then _ else _] => destruct b
        end; discriminate.
    - destruct (env_missing (environ !! "DISCORD_BOT_TOKEN")) eqn:H1;
        [intros _; left; exists "DISCORD_BOT_TOKEN"; split; [set_solver|exact H1]|].
      destruct (env_missing (environ !! "GEMINI_API_KEY")) eqn:H2;
        [intros _; left; exists "GEMINI_API_KEY"; split; [set_solver|exact H2]|].
      destruct (env_missing (environ !! "MANTIS_BASE_URL")) eqn:H3;
        [intros _; left; exists "MANTIS_BASE_URL"; split; [set_solver|exact H3]|].
      destruct (env_missing (environ !! "MANTIS_API_TOKEN")) eqn:H4;
        [intros _; left; exists "MANTIS_API_TOKEN"; split; [set_solver|exact H4]|].
      destruct (env_missing (Some (default "1" (environ !! "MANTIS_PROJECT_ID"))));
        [intros _; right; reflexivity|]. intros H. contradiction H. reflexivity. }
  split.
  - intros Hm. apply Hiff in Hm.
    assert (main int_limit unicode_int environ self_id db
            = MissingVariables (missing_vars environ)) as Hrun.
    { unfold main. destruct (missing_vars environ); [contradiction|reflexivity]. }
    eexists. split; [exact Hrun|]. apply (main_missing_names _ _ _ _ _ _ Hrun).
  - intros Hm names Hrun. apply Hm, Hiff.
    unfold main in Hrun. destruct (missing_vars environ); [|discriminate].
    destruct (mantis_init int_limit unicode_int environ); discriminate.
Qed.


(** * Runs of the bot *)

Lemma create_support_ticket_frame (e : env) (message : Message) (issue : string)
    (analysis : pyval) (st : Bot) :
  let st' := snd (create_support_ticket e message issue analysis st) in
  mantis st' = mantis st
  /\ self_user_id st' = self_user_id st
  /\ pending_tickets st' = pending_tickets st
  /\ ((database st' = database st /\ user_tickets st' = user_tickets st)
      \/ exists tid row,
           tid <> ""
           /\ database st' = <[tid := row]> (database st)
           /\ user_tickets st' = <[user_id (author message) := tid]> (user_tickets st)).
Proof.
  destruct analysis; run; try (repeat split; auto; fail).
  repeat split_match; repeat split; auto;
    right; eexists _, _; (split; [|split; reflexivity]);
    match goal with
    | H : negb (String.eqb ?t "") = true |- ?t <> "" =>
        intros ->; discriminate H
    end.
Qed.

Lemma send_solution_response_frame (e : env) (message : Message) (analysis : pyval)
    (st : Bot) :
  let st' := snd (send_solution_response e message analysis st) in
  mantis st' = mantis st
  /\ self_user_id st' = self_user_id st
  /\ database st' = database st
  /\ user_tickets st' = user_tickets st
  /\ create_calls (log st') = create_calls (log st).
Proof.
  unfold send_solution_response, title_of.
  destruct analysis; run; try (repeat split; auto; fail).
  repeat split_match; norm_log; repeat split; auto.
Qed.

Lemma handle_support_request_frame (e : env) (message : Message) (st : Bot) :
  let st' := snd (handle_support_request e message st) in
  mantis st' = mantis st
  /\ self_user_id st' = self_user_id st
  /\ ((database st' = database st /\ user_tickets st' = user_tickets st)
      \/ exists tid row,
           tid <> ""
           /\ database st' = <[tid := row]> (database st)
           /\ user_tickets st' = <[user_id (author message) := tid]> (user_tickets st)).
Proof.
  cbv zeta. destruct (handle_support_request e message st) as [r st'] eqn:Hrun.
  cbn [snd]. unfold handle_support_request in Hrun.
  destruct (is_greeting _); [injection Hrun as <- <-; simpl; auto 10|].
  unfold try_except, bindM at 1, liftM at 1 in Hrun.
  destruct (analyze_issue_total (json_limit e) (gemini e) (clean_content (self_user_id st) message))
    as [v Hv].
  rewrite Hv in Hrun. unfold bindM at 1, liftM at 1 in Hrun.
  destruct (py_getitem v "action") as [action|ex];
    [|injection Hrun as <- <-; simpl; auto 10].
  destruct (py_eq_str action "provide_solution").
  - pose proof (send_solution_response_frame e message v st) as H.
    destruct (send_solution_response e message v st) as [[[]|ex] st1];
      injection Hrun as <- <-; simpl in *; destruct H as (Hm & Hs & Hd & Hu & _); auto 10.
  - pose proof (create_support_ticket_frame e message
                  (clean_content (self_user_id st) message) v st) as H.
    destruct (create_support_ticket e message _ v st) as [[[]|ex] st1];
      injection Hrun as <- <-; simpl in *; destruct H as (Hm & Hs & _ & Hd); auto 10.
Qed.

Lemma on_reaction_add_frame (e : env) (reaction : Reaction) (user : User) (st : Bot) :
  let st' := snd (on_reaction_add e reaction user st) in
  mantis st' = mantis st
  /\ self_user_id st' = self_user_id st
  /\ ((database st' = database st /\ user_tickets st' = user_tickets st)
      \/ exists tid row,
           tid <> ""
           /\ database st' = <[tid := row]> (database st)
           /\ user_tickets st' = <[user_id user := tid]> (user_tickets st)).
Proof.
  cbv zeta. destruct (on_reaction_add e reaction user st) as [r st'] eqn:Hrun.
  cbn [snd]. unfold on_reaction_add in Hrun.
  destruct (user_bot user || negb (String.eqb (reaction_emoji reaction) ticket_emoji));
    [injection Hrun as <- <-; auto 10|].
  destruct (pending_tickets st !! reaction_message_id reaction) as [o|];
    [|injection Hrun as <- <-; auto 10].
  destruct (offer_user_id o =? user_id user); [|injection Hrun as <- <-; auto 10].
  unfold bindM at 1 in Hrun.
  pose proof (create_support_ticket_frame e
                {| author := user; content := offer_issue o;
                   channel := reaction_message_channel reaction; mentions_bot := false |}
                (offer_issue o) (offer_analysis o) st) as H.
  destruct (create_support_ticket e _ (offer_issue o) (offer_analysis o) st)
    as [[[]|ex] st1];
    [unfold remove_offer in Hrun;
     destruct (pending_tickets st1 !! reaction_message_id reaction)|];
    injection Hrun as <- <-; simpl in *; destruct H as (Hm & Hs & _ & Hd); auto 10.
Qed.

Lemma bot_step_frame (st st' : Bot) :
  bot_step st st' ->
  mantis st' = mantis st
  /\ self_user_id st' = self_user_id st
  /\ ((database st' = database st /\ user_tickets st' = user_tickets st)
      \/ exists uid tid row,
           tid <> ""
           /\ database st' = <[tid := row]> (database st)
           /\ user_tickets st' = <[uid := tid]> (user_tickets st)).
Proof.
  intros [e message st0|e reaction user st0].
  - destruct (handle_support_request_frame e message st0)
      as (Hm & Hs & [H|(tid & row & H)]); eauto 10.
  - destruct (on_reaction_add_frame e reaction user st0)
      as (Hm & Hs & [H|(tid & row & H)]); eauto 10.
Qed.



Lemma bot_step_invariants (st st' : Bot) :
  bot_step st st' ->
  pending_wf st /\ latest_indexed st -> pending_wf st' /\ latest_indexed st'.
Proof.
  intros Hstep [Hwf Hli]. split.
  - destruct Hstep; [apply handle_support_request_pending_wf|apply on_reaction_add_pending_wf];
      exact Hwf.
  - destruct (bot_step_frame st st' Hstep)
      as (_ & _ & [[Hd Hu]|(uid & tid & row & Ht & Hd & Hu)]);
      intros u t; rewrite ?Hd, ?Hu.
    + apply Hli.
    + destruct (decide (uid = u)) as [->|Hne].
      * rewrite lookup_insert_eq. intros [= <-]. rewrite lookup_insert_eq. eauto.
      * rewrite lookup_insert_ne by exact Hne. intros Hl.
        destruct (Hli u t Hl) as [Hne' Hs]. split; [exact Hne'|].
        destruct (decide (tid = t)) as [->|Hk];
          [rewrite lookup_insert_eq; eauto|rewrite lookup_insert_ne by exact Hk; exact Hs].
Qed.

Lemma run_invariants (a b : Bot) :
  rtc bot_step a b ->
  pending_wf a /\ latest_indexed a ->
  (pending_wf b /\ latest_indexed b)
  /\ mantis b = mantis a /\ self_user_id b = self_user_id a.
Proof.
  induction 1 as [a|a b c Hab Hbc IH]; intros Hinv; [auto|].
  destruct (IH (bot_step_invariants a b Hab Hinv)) as (Hc & Hm & Hs).
  destruct (bot_step_frame a b Hab) as (Hm' & Hs' & _).
  split; [exact Hc|]. split; congruence.
Qed.

Lemma init_bot_invariants (self_id : Z) (m : MantisHubIntegration)
    (db : gmap string TicketRow) :
  pending_wf (init_bot self_id m db) /\ latest_indexed (init_bot self_id m db).
Proof.
  split; [apply init_bot_pending_wf|]. intros u t. simpl. rewrite lookup_empty.
  discriminate.
Qed.



Lemma on_reaction_add_outcome (e : env) (reaction : Reaction) (user : User) (st : Bot) :
  pending_wf st ->
  exists r st',
    on_reaction_add e reaction user st = (r, st')
    /\ (r = Ok tt \/ r = Raise UnicodeEncodeError)
    /\ (r = Raise UnicodeEncodeError ->
        exists o args severity tid,
          pending_tickets st !! reaction_message_id reaction = Some o
          /\ offer_user_id o = user_id user
          /\ log st' = log st ++ [EvCreateTicket args;
                                  EvMantisPost (ticket_data_of (mantis st) args)]
          /\ mantis_post e (ticket_data_of (mantis st) args) = Some tid
          /\ tid <> ""
          /\ arg_severity args = PyStr severity
          /\ storable tid (user_display_name user) (offer_issue o) severity
               (arg_category args) = false
          /\ database st' = database st
          /\ user_tickets st' = user_tickets st
          /\ pending_tickets st' = pending_tickets st).
Proof.
  intros Hwf.
  assert (forall st0, exists r st',
            ((Ok tt, st0) : res unit * Bot) = (r, st')
            /\ (r = Ok tt \/ r = Raise UnicodeEncodeError)
            /\ (r = Raise UnicodeEncodeError ->
                exists o args severity tid,
                  pending_tickets st !! reaction_message_id reaction = Some o
                  /\ offer_user_id o = user_id user
                  /\ log st' = log st ++ [EvCreateTicket args;
                                          EvMantisPost (ticket_data_of (mantis st) args)]
                  /\ mantis_post e (ticket_data_of (mantis st) args) = Some tid
                  /\ tid <> ""
                  /\ arg_severity args = PyStr severity
                  /\ storable tid (user_display_name user) (offer_issue o) severity
                       (arg_category args) = false
                  /\ database st' = database st
                  /\ user_tickets st' = user_tickets st
                  /\ pending_tickets st' = pending_tickets st)) as Hquiet.
  { intros st0. eexists _, _. split; [reflexivity|]. split; [auto|discriminate]. }
  destruct (user_bot user) eqn:Hb;
    [unfold on_reaction_add; rewrite Hb; apply Hquiet|].
  destruct (String.eqb_spec (reaction_emoji reaction) ticket_emoji) as [He|He].
  2:{ unfold on_reaction_add. rewrite Hb.
      destruct (String.eqb_spec (reaction_emoji reaction) ticket_emoji);
        [contradiction|apply Hquiet]. }
  destruct (pending_tickets st !! reaction_message_id reaction) as [o|] eqn:Hl.
  2:{ rewrite (on_reaction_add_unknown e reaction user st Hl). apply Hquiet. }
  destruct (Z.eqb_spec (offer_user_id o) (user_id user)) as [Ho|Ho].
  2:{ unfold on_reaction_add. rewrite Hb, Hl, He, String.eqb_refl. simpl.
      destruct (Z.eqb_spec (offer_user_id o) (user_id user));
        [contradiction|apply Hquiet]. }
  destruct (on_reaction_add_run e reaction user st o Hb He Hl (Hwf _ _ Hl) Ho)
    as (d & category & severity & st1 & evs & _ & _ & _ & _ & Hp & Hlog & _ & _
        & Hraise & Hrun).
  cbv zeta in Hrun, Hraise. rewrite Hrun.
  match goal with
  | |- context [if ?b then _ else _] => destruct b
  end.
  - eexists _, _. split; [reflexivity|]. split; [auto|discriminate].
  - destruct (Hraise eq_refl) as (Hd & Hu & _ & Hevs & tid & Hpost & Ht & Hst).
    eexists _, _. split; [reflexivity|]. split; [auto|]. intros _.
    eexists o, _, severity, tid.
    split; [reflexivity|]. split; [exact Ho|].
    split; [rewrite Hlog, Hevs; reflexivity|].
    split; [exact Hpost|]. split; [exact Ht|]. split; [reflexivity|].
    split; [exact Hst|]. auto.
Qed.

(** ** Escalations interleaved *)

(** An escalation that nothing interrupts is [on_reaction_add]. *)
Lemma escalation_alone_handler (e : env) (reaction : Reaction) (user : User) (st : Bot) :
  escalation_alone e reaction user st
  = (Finished (fst (on_reaction_add e reaction user st)),
     snd (on_reaction_add e reaction user st)).
Proof.
  unfold escalation_alone, escalation_start, on_reaction_add.
  destruct (user_bot user || negb (String.eqb (reaction_emoji reaction) ticket_emoji));
    [reflexivity|].
  destruct (pending_tickets st !! reaction_message_id reaction) as [o|] eqn:Hl;
    [|reflexivity].
  destruct (offer_user_id o =? user_id user); [|reflexivity].
  unfold ticket_start, escalation_resume, ticket_outcome, await_reply.
  destruct (offer_analysis o); run; try reflexivity.
  repeat (split_match; simplify_eq; try reflexivity).
Qed.

Lemma ticket_outcome_wf (e : env) (message : Message) (issue : string) (d : pydict)
    (severity category : string) (answer : option string) (msg_id : Z) (st : Bot) :
  escalation_wf
    (fst (await_reply msg_id
            (ticket_outcome e message issue (PyDict d) (PyStr severity) category answer st)))
  /\ pending_tickets
       (snd (await_reply msg_id
               (ticket_outcome e message issue (PyDict d) (PyStr severity) category
                  answer st)))
     = pending_tickets st.
Proof.
  unfold ticket_outcome.
  destruct answer as [tid|]; [|split; [exact I|reflexivity]].
  destruct (String.eqb tid ""); simpl; [split; [exact I|reflexivity]|].
  unfold save_ticket, bindM at 1 2, liftM at 1.
  rewrite bind_parameters_text.
  destruct (storable _ _ _ _ _); simpl; [split; [exact I|reflexivity]|].
  split; [right; left; reflexivity|reflexivity].
Qed.

Lemma escalation_start_wf (e : env) (reaction : Reaction) (user : User) (st : Bot) :
  pending_wf st ->
  escalation_wf (fst (escalation_start e reaction user st))
  /\ pending_tickets (snd (escalation_start e reaction user st)) = pending_tickets st.
Proof.
  intros Hwf. unfold escalation_start.
  destruct (user_bot user || negb (String.eqb (reaction_emoji reaction) ticket_emoji));
    [split; [left; reflexivity|reflexivity]|].
  destruct (pending_tickets st !! reaction_message_id reaction) as [o|] eqn:Hl;
    [|split; [left; reflexivity|reflexivity]].
  destruct (offer_user_id o =? user_id user); [|split; [left; reflexivity|reflexivity]].
  destruct (Hwf _ _ Hl) as (d & response & severity & category & Ha & _ & Hs & Hc).
  unfold ticket_start. rewrite Ha. simpl. rewrite Hs, Hc. simpl.
  destruct (mantis_configured (mantis st)); simpl.
  - split; [eauto|reflexivity].
  - split; [exact I|reflexivity].
Qed.

Lemma escalation_resume_wf (t : escalation) (st : Bot) :
  escalation_wf t -> pending_wf st ->
  escalation_wf (fst (escalation_resume t st))
  /\ pending_wf (snd (escalation_resume t st)).
Proof.
  intros Ht Hwf.
  destruct t as [r|e message issue analysis severity category data msg_id|msg_id]; simpl.
  - split; assumption.
  - destruct Ht as (d & s & -> & ->).
    destruct (ticket_outcome_wf e message issue d s category (mantis_post e data) msg_id st)
      as [H1 H2].
    split; [exact H1|]. unfold pending_wf. rewrite H2. exact Hwf.
  - unfold remove_offer.
    destruct (pending_tickets st !! msg_id); simpl.
    + split; [left; reflexivity|]. apply map_Forall_delete, Hwf.
    + split; [right; right; reflexivity|exact Hwf].
Qed.

Lemma escalation_step_wf (t : turn) (pool : list escalation) (st : Bot) :
  Forall escalation_wf pool -> pending_wf st ->
  Forall escalation_wf (fst (escalation_step t (pool, st)))
  /\ pending_wf (snd (escalation_step t (pool, st))).
Proof.
  intros Hp Hwf. destruct t as [e message|e reaction user|i]; simpl.
  - split; [exact Hp|]. apply handle_support_request_pending_wf, Hwf.
  - destruct (escalation_start_wf e reaction user st Hwf) as [H1 H2].
    destruct (escalation_start e reaction user st) as [t' st']. simpl in *.
    split; [apply Forall_app; split; [exact Hp|apply Forall_cons_2; [exact H1|apply Forall_nil_2]]|].
    unfold pending_wf. rewrite H2. exact Hwf.
  - destruct (pool !! i) as [t'|] eqn:Hi; [|split; assumption].
    pose proof (Forall_lookup_1 _ _ _ _ Hp Hi) as Ht.
    destruct (escalation_resume_wf t' st Ht Hwf) as [H1 H2].
    destruct (escalation_resume t' st) as [t'' st']. simpl in *.
    split; [apply Forall_insert; assumption|exact H2].
Qed.

Lemma escalation_run_wf (turns : list turn) (pool : list escalation) (st : Bot) :
  Forall escalation_wf pool -> pending_wf st ->
  Forall escalation_wf (fst (escalation_run turns (pool, st)))
  /\ pending_wf (snd (escalation_run turns (pool, st))).
Proof.
  revert pool st. induction turns as [|t turns IH]; intros pool st Hp Hwf.
  - split; assumption.
  - destruct (escalation_step_wf t pool st Hp Hwf) as [H1 H2].
    change (escalation_run (t :: turns) (pool, st))
      with (escalation_run turns (escalation_step t (pool, st))).
    destruct (escalation_step t (pool, st)) as [pool' st'].
    apply IH; assumption.
Qed.

(** The race of [racing_turns]: the first escalation returns, the
    second raises [KeyError] at its [del]; two issues were posted for
    the one offer and two rows saved, and the latest ticket of the user
    is the one answered last. *)
Example racing_escalations :
  fst (escalation_run racing_turns ([], bot0))
  = [Finished (Ok tt); Finished (Raise KeyError)]
  /\ length (posts (log (snd (escalation_run racing_turns ([], bot0))))) = 2%nat
  /\ saved_tickets (log (snd (escalation_run racing_turns ([], bot0)))) = ["T-42"; "T-43"]
  /\ user_tickets (snd (escalation_run racing_turns ([], bot0))) !! 7 = Some "T-43"
  /\ pending_tickets (snd (escalation_run racing_turns ([], bot0))) !! 1000 = None.
Proof. vm_compute. repeat split. Qed.

(** X14. However the escalations interleave at their waits, from the
    start of the bot and among support requests: an escalation that has
    finished has returned, or has raised [UnicodeEncodeError] (the
    INSERT on a text with a lone surrogate) or [KeyError] (the [del] of
    an offer that another escalation deleted meanwhile), nothing else.
    An escalation that no other handler interrupts, which is
    [on_reaction_add], never ends on the [KeyError]. *)
Theorem escalation_outcomes (self_id : Z) (m : MantisHubIntegration)
    (db : gmap string TicketRow) (turns : list turn) :
  (forall (i : nat) (r : res unit),
     fst (escalation_run turns ([], init_bot self_id m db)) !! i = Some (Finished r) ->
     r = Ok tt \/ r = Raise UnicodeEncodeError \/ r = Raise KeyError)
  /\ (forall (e : env) (reaction : Reaction) (user : User),
        let st := snd (escalation_run turns ([], init_bot self_id m db)) in
        escalation_alone e reaction user st
        = (Finished (fst (on_reaction_add e reaction user st)),
           snd (on_reaction_add e reaction user st))
        /\ (fst (on_reaction_add e reaction user st) = Ok tt
            \/ fst (on_reaction_add e reaction user st) = Raise UnicodeEncodeError)).
Proof.
  destruct (escalation_run_wf turns [] (init_bot self_id m db)
              (Forall_nil_2 _) (init_bot_pending_wf self_id m db)) as [Hp Hwf].
  split.
  - intros i r Hi. exact (Forall_lookup_1 _ _ _ _ Hp Hi).
  - intros e reaction user st. split; [apply escalation_alone_handler|].
    destruct (on_reaction_add_outcome e reaction user st Hwf) as (r & st' & -> & Hr & _).
    exact Hr.
Qed.

Lemma escalation_outcomes_witness :
  fst (escalation_run racing_turns ([], init_bot 99 mantis_hub ∅)) !! 1%nat
  = Some (Finished (Raise KeyError))
  /\ ((Raise KeyError : res unit) = Ok tt
      \/ (Raise KeyError : res unit) = Raise UnicodeEncodeError
      \/ (Raise KeyError : res unit) = Raise KeyError).
Proof.
  split; [vm_compute; reflexivity|].
  apply (proj1 (escalation_outcomes 99 mantis_hub ∅ racing_turns) 1%nat).
  vm_compute. reflexivity.
Defined.

(** * More on the handlers *)

Lemma handle_support_request_resolves (e : env) (message : Message) (st : Bot)
    (v action : pyval) :
  is_greeting (clean_content (self_user_id st) message) = false ->
  analyze_issue (json_limit e) (gemini e) (clean_content (self_user_id st) message) = Ok v ->
  py_getitem v "action" = Ok action ->
  py_eq_str action "provide_solution" = true ->
  handle_support_request e message st
  = try_except (send_solution_response e message v) (fun _ => reply ReplyError) st.
Proof.
  intros Hg Ha Hd Hp. unfold handle_support_request.
  rewrite Hg, Ha. unfold try_except, bindM, liftM. rewrite Hd, Hp. reflexivity.
Qed.

(** X15. When the classification asks for guidance and carries a
    response and strings for severity and category,
    [handle_support_request] sends the troubleshooting embed with the
    severity and category title-cased ([Str.title]: computed on ASCII
    text, a parameter of the model on other text), adds the ticket
    reaction to its reply and registers an offer under the identifier
    of that reply, owned by the author, holding the message as it was
    sent and the analysis.  Nothing is sent to Mantis; the local table
    and the latest tickets are unchanged. *)
Theorem guidance_registers_offer (e : env) (message : Message) (st : Bot)
    (d : pydict) (action response : pyval) (severity category : string) :
  is_greeting (clean_content (self_user_id st) message) = false ->
  analyze_issue (json_limit e) (gemini e) (clean_content (self_user_id st) message) = Ok (PyDict d) ->
  dict_get d "action" = Some action ->
  py_eq_str action "provide_solution" = true ->
  dict_get d "response" = Some response ->
  dict_get d "severity" = Some (PyStr severity) ->
  dict_get d "category" = Some (PyStr category) ->
  handle_support_request e message st
  = (Ok tt,
     {| self_user_id := self_user_id st; mantis := mantis st;
        database := database st; user_tickets := user_tickets st;
        pending_tickets :=
          <[reply_id e := {| offer_user_id := user_id (author message);
                             offer_issue := content message;
                             offer_analysis := PyDict d |}]> (pending_tickets st);
        log := log st
               ++ [EvReply (ReplyEmbed (TroubleshootingEmbed response
                              (Str.title (unicode_title e) severity)
                              (Str.title (unicode_title e) category)));
                   EvAddReaction (reply_id e);
                   EvRegisterOffer (reply_id e)] |}).
Proof.
  intros Hg Ha Hact Hp Hr Hs Hc.
  rewrite (handle_support_request_resolves e message st (PyDict d) action Hg Ha);
    [|simpl; rewrite Hact; reflexivity|exact Hp].
  unfold try_except, send_solution_response, title_of. run.
  rewrite Hr, Hs, Hc. simpl. rewrite <- !app_assoc. reflexivity.
Qed.

Lemma guidance_registers_offer_witness :
  handle_support_request drain_env leak_message bot0
  = (Ok tt,
     {| self_user_id := self_user_id bot0; mantis := mantis bot0;
        database := database bot0; user_tickets := user_tickets bot0;
        pending_tickets :=
          <[reply_id drain_env := {| offer_user_id := user_id (author leak_message);
                                     offer_issue := content leak_message;
                                     offer_analysis := PyDict resolve_payload |}]>
            (pending_tickets bot0);
        log := log bot0
               ++ [EvReply (ReplyEmbed (TroubleshootingEmbed (PyStr "clean the filter")
                              (Str.title (unicode_title drain_env) "low")
                              (Str.title (unicode_title drain_env) "drainage")));
                   EvAddReaction (reply_id drain_env);
                   EvRegisterOffer (reply_id drain_env)] |}).
Proof.
  apply (guidance_registers_offer drain_env leak_message bot0 resolve_payload
           (PyStr "provide_solution") (PyStr "clean the filter") "low" "drainage");
    vm_compute; reflexivity.
Defined.

(** X16. A payload that parses but cannot be used for guidance leaves
    no trace but the apology: when the analysis is not a dictionary or
    has no action, and when it asks for guidance without a response or
    with a severity or category that is missing or not a string,
    [handle_support_request] sends the apology and changes nothing
    else; no offer is registered. *)
Theorem unusable_payload_only_apology (e : env) (message : Message) (st : Bot)
    (v : pyval) :
  is_greeting (clean_content (self_user_id st) message) = false ->
  analyze_issue (json_limit e) (gemini e) (clean_content (self_user_id st) message) = Ok v ->
  (exists ex, py_getitem v "action" = Raise ex)
  \/ (exists action,
        py_getitem v "action" = Ok action
        /\ py_eq_str action "provide_solution" = true
        /\ exists ex, py_getitem v "response" = Raise ex
                      \/ title_of (unicode_title e) v "severity" = Raise ex
                      \/ title_of (unicode_title e) v "category" = Raise ex) ->
  handle_support_request e message st
  = (Ok tt, set_log (log st ++ [EvReply ReplyError]) st).
Proof.
  intros Hg Ha [[ex Hact]|(action & Hact & Hp & ex & Hbad)].
  - unfold handle_support_request. rewrite Hg, Ha.
    unfold try_except, bindM, liftM. rewrite Hact. reflexivity.
  - rewrite (handle_support_request_resolves e message st v action Hg Ha Hact Hp).
    unfold try_except, send_solution_response.
    unfold bindM at 1, liftM at 1.
    destruct (py_getitem v "response") as [response|ex1] eqn:Hr; [|reflexivity].
    unfold bindM at 1, liftM at 1.
    destruct (title_of (unicode_title e) v "severity") as [severity|ex2] eqn:Hs; [|reflexivity].
    unfold bindM at 1, liftM at 1.
    destruct (title_of (unicode_title e) v "category") as [category|ex3] eqn:Hc; [|reflexivity].
    destruct Hbad as [[=]|[[=]|[=]]].
Qed.

Lemma unusable_payload_only_apology_witness :
  handle_support_request bare_env leak_message bot0
  = (Ok tt, set_log (log bot0 ++ [EvReply ReplyError]) bot0).
Proof.
  apply (unusable_payload_only_apology bare_env leak_message bot0
           (PyDict [("action", PyStr "provide_solution")])).
  - vm_compute. reflexivity.
  - vm_compute. reflexivity.
  - right. exists (PyStr "provide_solution"). repeat split.
    exists KeyError. left. reflexivity.
Defined.

Lemma create_support_ticket_prefix (e : env) (message : Message) (issue : string)
    (d : pydict) (category : string) (st : Bot) :
  py_get_default (PyDict d) "category" (PyStr "general") = Ok (PyStr category) ->
  create_support_ticket e message issue (PyDict d) st
  = bindM (create_ticket e
             (ticket_args e message issue category
                (default (PyStr "medium") (dict_get d "severity"))
                (default (PyStr "normal") (dict_get d "urgency"))
                (default (PyStr "No additional analysis available")
                   (dict_get d "response"))))
      (fun ticket_id =>
         match ticket_id with
         | Some tid =>
             if negb (String.eqb tid "") then
               bindM (save_ticket e tid (Str.of_Z (user_id (author message)))
                        (user_display_name (author message)) issue
                        (default (PyStr "medium") (dict_get d "severity")) category)
                 (fun _ =>
                    bindM (modify (fun st0 =>
                             set_user_tickets
                               (<[user_id (author message) := tid]> (user_tickets st0)) st0))
                      (fun _ =>
                         bindM (liftM (py_title (unicode_title e)
                                         (default (PyStr "medium") (dict_get d "severity"))))
                           (fun severity_title =>
                              reply (ReplyEmbed (TicketCreatedEmbed tid severity_title
                                (default (PyStr "Our support team will review your issue and get back to you soon.")
                                   (dict_get d "response")))))))
             else reply (ReplyEmbed TicketCreationFailedEmbed)
         | None => reply (ReplyEmbed TicketCreationFailedEmbed)
         end) st.
Proof.
  intros [= Hc]. unfold create_support_ticket.
  unfold bindM at 1, liftM at 1. simpl py_get_default. rewrite Hc.
  reflexivity.
Qed.

(** X17. When the Mantis adapter is not configured, a request for a
    ticket is answered "Ticket Creation Failed" without any request to
    Mantis, whatever the severity of the classification; the table,
    the latest tickets and the offers are unchanged. *)
Theorem unconfigured_never_posts (e : env) (message : Message) (st : Bot)
    (d : pydict) (action : pyval) (category : string) :
  let content := clean_content (self_user_id st) message in
  is_greeting content = false ->
  analyze_issue (json_limit e) (gemini e) content = Ok (PyDict d) ->
  dict_get d "action" = Some action ->
  py_eq_str action "provide_solution" = false ->
  py_get_default (PyDict d) "category" (PyStr "general") = Ok (PyStr category) ->
  mantis_configured (mantis st) = false ->
  handle_support_request e message st
  = (Ok tt,
     set_log (log st
              ++ [EvCreateTicket
                    (ticket_args e message content category
                       (default (PyStr "medium") (dict_get d "severity"))
                       (default (PyStr "normal") (dict_get d "urgency"))
                       (default (PyStr "No additional analysis available")
                          (dict_get d "response")));
                  EvReply (ReplyEmbed TicketCreationFailedEmbed)]) st).
Proof.
  intros content Hg Ha Hd Hp Hc Hm.
  rewrite (handle_support_request_escalates e message st d action Hg Ha Hd Hp).
  unfold try_except. fold content.
  rewrite (create_support_ticket_prefix e message content d category st Hc).
  unfold create_ticket, bindM, emit, modify, retM, reply. simpl. rewrite Hm. simpl.
  unfold set_log. simpl. rewrite <- app_assoc. reflexivity.
Qed.

Lemma unconfigured_never_posts_witness :
  handle_support_request leak_env leak_message
    (init_bot 99 {| base_url := None; api_token := Some "token"; project_id := 1 |} ∅)
  = (Ok tt,
     set_log (log (init_bot 99 {| base_url := None; api_token := Some "token";
                                  project_id := 1 |} ∅)
              ++ [EvCreateTicket
                    (ticket_args leak_env leak_message "water leaking everywhere" "mechanical"
                       (PyStr "high") (PyStr "high") (PyStr "A technician will call you."));
                  EvReply (ReplyEmbed TicketCreationFailedEmbed)])
       (init_bot 99 {| base_url := None; api_token := Some "token"; project_id := 1 |} ∅)).
Proof.
  apply (unconfigured_never_posts leak_env leak_message
           (init_bot 99 {| base_url := None; api_token := Some "token"; project_id := 1 |} ∅)
           escalate_payload (PyStr "create_ticket") "mechanical");
    vm_compute; reflexivity.
Defined.

(** X18. A severity that cannot be hashed (a list or a dictionary)
    stops a request for a ticket in the adapter, before anything is
    sent: with Mantis configured, [handle_support_request] calls
    [create_ticket], posts nothing, writes nothing and answers with the
    apology. *)
Theorem unhashable_severity_apology (e : env) (message : Message) (st : Bot)
    (d : pydict) (action severity : pyval) (category : string) :
  let content := clean_content (self_user_id st) message in
  is_greeting content = false ->
  analyze_issue (json_limit e) (gemini e) content = Ok (PyDict d) ->
  dict_get d "action" = Some action ->
  py_eq_str action "provide_solution" = false ->
  py_get_default (PyDict d) "category" (PyStr "general") = Ok (PyStr category) ->
  dict_get d "severity" = Some severity ->
  py_hashable severity = false ->
  mantis_configured (mantis st) = true ->
  handle_support_request e message st
  = (Ok tt,
     set_log (log st
              ++ [EvCreateTicket
                    (ticket_args e message content category severity
                       (default (PyStr "normal") (dict_get d "urgency"))
                       (default (PyStr "No additional analysis available")
                          (dict_get d "response")));
                  EvReply ReplyError]) st).
Proof.
  intros content Hg Ha Hd Hp Hc Hs Hh Hm.
  rewrite (handle_support_request_escalates e message st d action Hg Ha Hd Hp).
  unfold try_except. fold content.
  rewrite (create_support_ticket_prefix e message content d category st Hc).
  rewrite Hs. change (default (PyStr "medium") (Some ?x)) with x.
  unfold create_ticket, bindM, emit, modify, retM, raiseM, reply. simpl.
  rewrite Hm, Hh. simpl. unfold emit, modify, set_log. simpl.
  rewrite <- ?app_assoc. reflexivity.
Qed.

Lemma unhashable_severity_apology_witness :
  handle_support_request list_severity_env leak_message bot0
  = (Ok tt,
     set_log (log bot0
              ++ [EvCreateTicket
                    (ticket_args list_severity_env leak_message "water leaking everywhere" "door"
                       (PyList [PyStr "high"]) (PyStr "normal")
                       (PyStr "No additional analysis available"));
                  EvReply ReplyError]) bot0).
Proof.
  apply (unhashable_severity_apology list_severity_env leak_message bot0
           [("action", PyStr "create_ticket"); ("category", PyStr "door");
            ("severity", PyList [PyStr "high"])]
           (PyStr "create_ticket") (PyList [PyStr "high"]) "door");
    vm_compute; reflexivity.
Defined.

Lemma bind_parameters_severity (tid uid uname issue : string) (severity : pyval)
    (category : string) :
  bind_parameters tid uid uname issue severity category = Ok tt ->
  sqlite_bind severity = Ok tt.
Proof.
  unfold bind_parameters, sqlite_bind_text.
  destruct (Str.encodable tid), (Str.encodable uid), (Str.encodable uname),
    (Str.encodable issue); try discriminate.
  simpl. destruct (sqlite_bind severity) as [[]|ex]; [reflexivity|discriminate].
Qed.

Lemma bind_parameters_raise (tid uid uname issue : string) (severity : pyval)
    (category : string) (ex : exn) :
  sqlite_bind severity = Raise ex ->
  exists ex', bind_parameters tid uid uname issue severity category = Raise ex'.
Proof.
  intros Hb. unfold bind_parameters, sqlite_bind_text.
  destruct (Str.encodable tid), (Str.encodable uid), (Str.encodable uname),
    (Str.encodable issue); simpl; rewrite ?Hb; eauto.
Qed.

(** X19. A severity that is not a string but can be stored (a number,
    a Boolean, null) lets the ticket through and fails afterwards:
    when the parameters of the INSERT bind, Mantis receives the ticket
    with severity minor, the row is saved and the latest ticket of the
    author set, and the author is then answered with the apology,
    because the title-casing of the severity for the embed raises. *)
Theorem stored_then_apology (e : env) (message : Message) (st : Bot)
    (d : pydict) (action severity : pyval) (category tid : string) :
  let content := clean_content (self_user_id st) message in
  let args :=
    ticket_args e message content category severity
      (default (PyStr "normal") (dict_get d "urgency"))
      (default (PyStr "No additional analysis available") (dict_get d "response")) in
  is_greeting content = false ->
  analyze_issue (json_limit e) (gemini e) content = Ok (PyDict d) ->
  dict_get d "action" = Some action ->
  py_eq_str action "provide_solution" = false ->
  py_get_default (PyDict d) "category" (PyStr "general") = Ok (PyStr category) ->
  dict_get d "severity" = Some severity ->
  (forall s, severity <> PyStr s) ->
  mantis_configured (mantis st) = true ->
  mantis_post e (ticket_data_of (mantis st) args) = Some tid ->
  String.eqb tid "" = false ->
  bind_parameters tid (Str.of_Z (user_id (author message)))
    (user_display_name (author message)) content severity category = Ok tt ->
  td_severity (ticket_data_of (mantis st) args) = "minor"
  /\ handle_support_request e message st
     = (Ok tt,
        {| self_user_id := self_user_id st; mantis := mantis st;
           database :=
             <[tid := {| row_user_id := Str.of_Z (user_id (author message));
                         row_username := user_display_name (author message);
                         row_issue_description := content;
                         row_status := "Open";
                         row_severity := severity;
                         row_category := category;
                         row_created_at := now e; row_updated_at := now e |}]>
               (database st);
           user_tickets := <[user_id (author message) := tid]> (user_tickets st);
           pending_tickets := pending_tickets st;
           log := log st
                  ++ [EvCreateTicket args;
                      EvMantisPost (ticket_data_of (mantis st) args);
                      EvSaveTicket tid;
                      EvReply ReplyError] |}).
Proof.
  intros content args Hg Ha Hd Hp Hc Hs Hn Hm Hpost Ht Hb. subst args content.
  assert (py_hashable severity = true) as Hh.
  { apply bind_parameters_severity in Hb.
    destruct severity; simpl in Hb; try discriminate; reflexivity. }
  assert (py_title (unicode_title e) severity = Raise AttributeError) as Htitle.
  { destruct severity; try reflexivity. exfalso. eapply Hn. reflexivity. }
  split.
  { unfold ticket_data_of, severity_map. simpl.
    destruct severity; try reflexivity. exfalso. eapply Hn. reflexivity. }
  rewrite (handle_support_request_escalates e message st d action Hg Ha Hd Hp).
  unfold try_except.
  rewrite (create_support_ticket_prefix e message _ d category st Hc).
  rewrite Hs. change (default (PyStr "medium") (Some ?x)) with x.
  unfold bindM at 1.
  rewrite create_ticket_run by exact Hh.
  unfold adapter_answer, adapter_events. rewrite Hm, Hpost, Ht. cbn [negb].
  unfold bindM at 1. rewrite save_ticket_run by exact Hb.
  unfold bindM, modify, liftM, reply, emit, modify. rewrite Htitle.
  unfold set_log, set_database, set_user_tickets. simpl.
  rewrite <- !app_assoc. reflexivity.
Qed.

Lemma stored_then_apology_witness :
  td_severity
    (ticket_data_of (mantis bot0)
       (ticket_args number_severity_env leak_message "water leaking everywhere" "door" (PyInt 3)
          (PyStr "normal") (PyStr "No additional analysis available"))) = "minor"
  /\ handle_support_request number_severity_env leak_message bot0
     = (Ok tt,
        {| self_user_id := self_user_id bot0; mantis := mantis bot0;
           database :=
             <["T-51" := {| row_user_id := Str.of_Z (user_id (author leak_message));
                            row_username := user_display_name (author leak_message);
                            row_issue_description := "water leaking everywhere";
                            row_status := "Open";
                            row_severity := PyInt 3;
                            row_category := "door";
                            row_created_at := now number_severity_env;
                            row_updated_at := now number_severity_env |}]>
               (database bot0);
           user_tickets := <[user_id (author leak_message) := "T-51"]> (user_tickets bot0);
           pending_tickets := pending_tickets bot0;
           log := log bot0
                  ++ [EvCreateTicket
                        (ticket_args number_severity_env leak_message "water leaking everywhere" "door"
                           (PyInt 3) (PyStr "normal")
                           (PyStr "No additional analysis available"));
                      EvMantisPost
                        (ticket_data_of (mantis bot0)
                           (ticket_args number_severity_env leak_message "water leaking everywhere" "door"
                              (PyInt 3) (PyStr "normal")
                              (PyStr "No additional analysis available")));
                      EvSaveTicket "T-51";
                      EvReply ReplyError] |}).
Proof.
  apply (stored_then_apology number_severity_env leak_message bot0
           [("action", PyStr "create_ticket"); ("category", PyStr "door");
            ("severity", PyInt 3)]
           (PyStr "create_ticket") (PyInt 3) "door" "T-51");
    try (vm_compute; reflexivity).
  intros s. discriminate.
Defined.

(** X20. A severity that Mantis accepts and SQLite cannot bind (an
    integer beyond 64 bits) leaves the ticket in Mantis only: the
    request is posted and answered with an identifier, no row is
    written, no latest ticket is set, and the author is answered with
    the apology. *)
Theorem posted_not_saved (e : env) (message : Message) (st : Bot)
    (d : pydict) (action : pyval) (n : Z) (category tid : string) :
  let content := clean_content (self_user_id st) message in
  let args :=
    ticket_args e message content category (PyInt n)
      (default (PyStr "normal") (dict_get d "urgency"))
      (default (PyStr "No additional analysis available") (dict_get d "response")) in
  is_greeting content = false ->
  analyze_issue (json_limit e) (gemini e) content = Ok (PyDict d) ->
  dict_get d "action" = Some action ->
  py_eq_str action "provide_solution" = false ->
  py_get_default (PyDict d) "category" (PyStr "general") = Ok (PyStr category) ->
  dict_get d "severity" = Some (PyInt n) ->
  n < - 2 ^ 63 \/ 2 ^ 63 <= n ->
  mantis_configured (mantis st) = true ->
  mantis_post e (ticket_data_of (mantis st) args) = Some tid ->
  String.eqb tid "" = false ->
  handle_support_request e message st
  = (Ok tt,
     set_log (log st
              ++ [EvCreateTicket args;
                  EvMantisPost (ticket_data_of (mantis st) args);
                  EvReply ReplyError]) st).
Proof.
  intros content args Hg Ha Hd Hp Hc Hs Hn Hm Hpost Ht. subst args content.
  assert (sqlite_bind (PyInt n) = Raise OverflowError) as Hb.
  { simpl. destruct (Z.leb_spec (- 2 ^ 63) n), (Z.ltb_spec n (2 ^ 63));
      simpl; try reflexivity; lia. }
  destruct (bind_parameters_raise tid (Str.of_Z (user_id (author message)))
              (user_display_name (author message))
              (clean_content (self_user_id st) message) (PyInt n) category _ Hb)
    as [ex' Hb'].
  rewrite (handle_support_request_escalates e message st d action Hg Ha Hd Hp).
  unfold try_except.
  rewrite (create_support_ticket_prefix e message _ d category st Hc).
  rewrite Hs. change (default (PyStr "medium") (Some ?x)) with x.
  unfold bindM at 1.
  rewrite create_ticket_run by reflexivity.
  unfold adapter_answer, adapter_events. rewrite Hm, Hpost, Ht. cbn [negb].
  unfold bindM at 1. unfold save_ticket. unfold bindM at 1, liftM at 1. rewrite Hb'.
  unfold reply, emit, modify, set_log. simpl. rewrite <- !app_assoc. reflexivity.
Qed.

Lemma posted_not_saved_witness :
  handle_support_request huge_severity_env leak_message bot0
  = (Ok tt,
     set_log (log bot0
              ++ [EvCreateTicket
                    (ticket_args huge_severity_env leak_message "water leaking everywhere" "door"
                       (PyInt 99999999999999999999) (PyStr "normal")
                       (PyStr "No additional analysis available"));
                  EvMantisPost
                    (ticket_data_of (mantis bot0)
                       (ticket_args huge_severity_env leak_message "water leaking everywhere" "door"
                          (PyInt 99999999999999999999) (PyStr "normal")
                          (PyStr "No additional analysis available")));
                  EvReply ReplyError]) bot0).
Proof.
  apply (posted_not_saved huge_severity_env leak_message bot0
           [("action", PyStr "create_ticket"); ("category", PyStr "door");
            ("severity", PyInt 99999999999999999999)]
           (PyStr "create_ticket") 99999999999999999999 "door" "T-52");
    try (vm_compute; reflexivity).
  right. vm_compute. discriminate.
Defined.

(** X21. In a state where the registered offers are well formed,
    [on_reaction_add] leaves the bot as it is exactly when the reaction
    is not an escalation by the owner: the user is a bot, the emoji is
    not the literal of the source, the message carries no offer, or
    the offer belongs to someone else.  In every other case it runs
    the ticket path on the issue and the analysis of the offer, which
    calls the adapter once, and then removes the offer. *)
Theorem on_reaction_add_acts_iff (e : env) (reaction : Reaction) (user : User) (st : Bot) :
  pending_wf st ->
  (on_reaction_add e reaction user st = (Ok tt, st)
   <-> user_bot user = true
       \/ reaction_emoji reaction <> ticket_emoji
       \/ pending_tickets st !! reaction_message_id reaction = None
       \/ exists o, pending_tickets st !! reaction_message_id reaction = Some o
                    /\ offer_user_id o <> user_id user)
  /\ (forall o,
        user_bot user = false ->
        reaction_emoji reaction = ticket_emoji ->
        pending_tickets st !! reaction_message_id reaction = Some o ->
        offer_user_id o = user_id user ->
        on_reaction_add e reaction user st
        = bindM (create_support_ticket e (reaction_message reaction user o)
                   (offer_issue o) (offer_analysis o))
            (fun _ => remove_offer (reaction_message_id reaction)) st
        /\ length (create_calls (log (snd (on_reaction_add e reaction user st))))
           = S (length (create_calls (log st)))).
Proof.
  intros Hwf.
  assert (forall o,
            user_bot user = false ->
            reaction_emoji reaction = ticket_emoji ->
            pending_tickets st !! reaction_message_id reaction = Some o ->
            offer_user_id o = user_id user ->
            length (create_calls (log (snd (on_reaction_add e reaction user st))))
            = S (length (create_calls (log st)))) as Hcalls.
  { intros o Hb He Hl Ho.
    destruct (on_reaction_add_run e reaction user st o Hb He Hl (Hwf _ _ Hl) Ho)
      as (d & category & severity & st1 & evs & _ & _ & _ & _ & _ & Hlog & _ & Hcr
          & _ & Hrun).
    cbv zeta in Hrun. rewrite Hrun.
    assert (create_calls evs = []) as Hevs.
    { clear -Hcr. induction evs as [|ev evs IH]; [reflexivity|].
      simpl in Hcr. apply orb_false_iff in Hcr as [Hev Hcr].
      destruct ev; try discriminate; simpl; auto. }
    match goal with
    | |- context [if ?b then _ else _] => destruct b
    end; unfold set_pending_tickets, set_log; cbn [snd log];
      rewrite Hlog, !create_calls_app; simpl; rewrite Hevs, !length_app; simpl; lia. }
  split; [split|].
  - intros Hrun.
    destruct (user_bot user) eqn:Hb; [auto|].
    destruct (String.eqb_spec (reaction_emoji reaction) ticket_emoji) as [He|He]; [|auto].
    destruct (pending_tickets st !! reaction_message_id reaction) as [o|] eqn:Hl; [|auto].
    destruct (Z.eqb_spec (offer_user_id o) (user_id user)) as [Ho|Ho]; [|eauto 10].
    exfalso. specialize (Hcalls o eq_refl He eq_refl Ho).
    rewrite Hrun in Hcalls. simpl in Hcalls. lia.
  - intros [Hb|[He|[Hl|(o & Hl & Ho)]]].
    + unfold on_reaction_add. rewrite Hb. reflexivity.
    + unfold on_reaction_add.
      destruct (String.eqb_spec (reaction_emoji reaction) ticket_emoji); [contradiction|].
      rewrite orb_true_r. reflexivity.
    + apply on_reaction_add_unknown, Hl.
    + unfold on_reaction_add. rewrite Hl.
      destruct (Z.eqb_spec (offer_user_id o) (user_id user)); [contradiction|].
      destruct (user_bot user || negb (String.eqb (reaction_emoji reaction) ticket_emoji));
        reflexivity.
  - intros o Hb He Hl Ho. split; [|apply (Hcalls o Hb He Hl Ho)].
    apply (on_reaction_add_owner e reaction user st o Hb He Hl Ho).
Qed.

Lemma on_reaction_add_acts_iff_witness :
  on_reaction_add leak_env ticket_reaction bob bot_offered = (Ok tt, bot_offered).
Proof.
  apply (on_reaction_add_acts_iff leak_env ticket_reaction bob bot_offered).
  - apply (handle_support_request_pending_wf drain_env leak_message bot0).
    apply init_bot_pending_wf.
  - right. right. right. exists alice_offer. split; [vm_compute; reflexivity|].
    vm_compute. discriminate.
Defined.

(** * How the handlers and the commands compose *)

Lemma handle_support_request_created (e : env) (message : Message) (st : Bot)
    (d : pydict) (action : pyval) (category severity tid : string) :
  let content := clean_content (self_user_id st) message in
  let args :=
    ticket_args e message content category (PyStr severity)
      (default (PyStr "normal") (dict_get d "urgency"))
      (default (PyStr "No additional analysis available") (dict_get d "response")) in
  is_greeting content = false ->
  analyze_issue (json_limit e) (gemini e) content = Ok (PyDict d) ->
  dict_get d "action" = Some action ->
  py_eq_str action "provide_solution" = false ->
  py_get_default (PyDict d) "category" (PyStr "general") = Ok (PyStr category) ->
  py_get_default (PyDict d) "severity" (PyStr "medium") = Ok (PyStr severity) ->
  adapter_answer e (mantis st) args = Some tid ->
  String.eqb tid "" = false ->
  storable tid (user_display_name (author message)) content severity category = true ->
  database (snd (handle_support_request e message st))
  = <[tid := {| row_user_id := Str.of_Z (user_id (author message));
                row_username := user_display_name (author message);
                row_issue_description := content;
                row_status := "Open";
                row_severity := PyStr severity;
                row_category := category;
                row_created_at := now e; row_updated_at := now e |}]> (database st)
  /\ user_tickets (snd (handle_support_request e message st))
     = <[user_id (author message) := tid]> (user_tickets st)
  /\ mantis (snd (handle_support_request e message st)) = mantis st.
Proof.
  intros content args Hg Ha Hd Hp Hc Hs Hm Ht Hst.
  rewrite (handle_support_request_escalates e message st d action Hg Ha Hd Hp).
  unfold try_except. fold content.
  rewrite (create_support_ticket_typed e message content d category severity st Hc Hs).
  fold args. rewrite Hm, Ht, Hst. cbn [negb]. simpl. auto.
Qed.

(** X22. A ticket created for a request shows in the listing of its
    author: when the adapter returned an identifier and the texts of
    the INSERT can be encoded, after [handle_support_request] the
    listing of the author holds the ticket with the cleaned text of the
    request, the severity and the time of creation, so [list_tickets]
    no longer answers that the author has no ticket. *)
Theorem created_ticket_is_listed (e : env) (message : Message) (st : Bot)
    (d : pydict) (action : pyval) (category severity tid : string)
    (format_created : string -> res string) :
  let content := clean_content (self_user_id st) message in
  let args :=
    ticket_args e message content category (PyStr severity)
      (default (PyStr "normal") (dict_get d "urgency"))
      (default (PyStr "No additional analysis available") (dict_get d "response")) in
  let st' := snd (handle_support_request e message st) in
  is_greeting content = false ->
  analyze_issue (json_limit e) (gemini e) content = Ok (PyDict d) ->
  dict_get d "action" = Some action ->
  py_eq_str action "provide_solution" = false ->
  py_get_default (PyDict d) "category" (PyStr "general") = Ok (PyStr category) ->
  py_get_default (PyDict d) "severity" (PyStr "medium") = Ok (PyStr severity) ->
  adapter_answer e (mantis st) args = Some tid ->
  String.eqb tid "" = false ->
  storable tid (user_display_name (author message)) content severity category = true ->
  {| lt_ticket_id := tid; lt_issue_description := content;
     lt_severity := SqlText severity; lt_created_at := now e |}
  ∈ get_user_tickets (Str.of_Z (user_id (author message))) (database st')
  /\ list_tickets format_created (author message) st' <> Ok NoTicketsReply.
Proof.
  intros content args st' Hg Ha Hd Hp Hc Hs Hm Ht Hst.
  destruct (handle_support_request_created e message st d action category severity tid
              Hg Ha Hd Hp Hc Hs Hm Ht Hst) as (Hdb & _ & _).
  fold st' content in Hdb.
  assert ({| lt_ticket_id := tid; lt_issue_description := content;
             lt_severity := SqlText severity; lt_created_at := now e |}
          ∈ get_user_tickets (Str.of_Z (user_id (author message))) (database st')) as Hin.
  { apply elem_of_get_user_tickets. eexists. rewrite Hdb. simpl.
    rewrite lookup_insert_eq. split; [reflexivity|]. split; reflexivity. }
  split; [exact Hin|].
  intros Hno. unfold list_tickets in Hno.
  destruct (get_user_tickets _ (database st')) as [|t ts] eqn:Hl; [inversion Hin|].
  destruct (ticket_fields format_created (take 5 (t :: ts))); discriminate.
Qed.

Lemma created_ticket_is_listed_witness :
  {| lt_ticket_id := "T-42"; lt_issue_description := "water leaking everywhere";
     lt_severity := SqlText "high"; lt_created_at := "2024-05-01T10:00:00" |}
  ∈ get_user_tickets (Str.of_Z (user_id alice)) (database bot_ticketed)
  /\ list_tickets minutes_of alice bot_ticketed <> Ok NoTicketsReply.
Proof.
  apply (created_ticket_is_listed leak_env leak_message bot0 escalate_payload
           (PyStr "create_ticket") "mechanical" "high" "T-42" minutes_of);
    vm_compute; reflexivity.
Defined.

(** X23. [check_status] without an identifier follows the ticket just
    created: when the adapter returned an identifier and the texts of
    the INSERT can be encoded, after [handle_support_request] the
    command asks Mantis about that ticket, as if its identifier had
    been given. *)
Theorem status_follows_creation (e : env) (message : Message) (st : Bot)
    (d : pydict) (action : pyval) (category severity tid : string)
    (mantis_get : string -> http_reply) :
  let content := clean_content (self_user_id st) message in
  let args :=
    ticket_args e message content category (PyStr severity)
      (default (PyStr "normal") (dict_get d "urgency"))
      (default (PyStr "No additional analysis available") (dict_get d "response")) in
  let st' := snd (handle_support_request e message st) in
  is_greeting content = false ->
  analyze_issue (json_limit e) (gemini e) content = Ok (PyDict d) ->
  dict_get d "action" = Some action ->
  py_eq_str action "provide_solution" = false ->
  py_get_default (PyDict d) "category" (PyStr "general") = Ok (PyStr category) ->
  py_get_default (PyDict d) "severity" (PyStr "medium") = Ok (PyStr severity) ->
  adapter_answer e (mantis st) args = Some tid ->
  String.eqb tid "" = false ->
  storable tid (user_display_name (author message)) content severity category = true ->
  requested_ticket_id (author message) None st' = Some tid
  /\ check_status mantis_get (author message) None st'
     = check_status mantis_get (author message) (Some tid) st'
  /\ check_status mantis_get (author message) None st' <> Ok NoRecentTicketReply.
Proof.
  intros content args st' Hg Ha Hd Hp Hc Hs Hm Ht Hst.
  destruct (handle_support_request_created e message st d action category severity tid
              Hg Ha Hd Hp Hc Hs Hm Ht Hst) as (_ & Hut & _).
  fold st' in Hut.
  assert (requested_ticket_id (author message) None st' = Some tid) as Hreq.
  { unfold requested_ticket_id. simpl. rewrite Hut. apply lookup_insert_eq. }
  assert (requested_ticket_id (author message) (Some tid) st' = Some tid) as Hreq'.
  { unfold requested_ticket_id. simpl. rewrite Ht. reflexivity. }
  split; [exact Hreq|]. split.
  - unfold check_status. rewrite Hreq, Hreq'. reflexivity.
  - unfold check_status. rewrite Hreq. simpl. rewrite Ht. simpl.
    destruct (get_ticket_status mantis_get (mantis st') tid) as [info|]; [|discriminate].
    destruct (py_truthy info); [|discriminate]. apply status_embed_not_no_recent.
Qed.

Lemma status_follows_creation_witness :
  requested_ticket_id alice None bot_ticketed = Some "T-42"
  /\ check_status (fun _ => HttpRaise ClientError) alice None bot_ticketed
     = check_status (fun _ => HttpRaise ClientError) alice (Some "T-42") bot_ticketed
  /\ check_status (fun _ => HttpRaise ClientError) alice None bot_ticketed
     <> Ok NoRecentTicketReply.
Proof.
  apply (status_follows_creation leak_env leak_message bot0 escalate_payload
           (PyStr "create_ticket") "mechanical" "high" "T-42"
           (fun _ => HttpRaise ClientError));
    vm_compute; reflexivity.
Defined.

Lemma main_missing_variables_witness :
  exists names,
    main no_limit (fun _ => None) partial_environ 99 ∅ = MissingVariables names
    /\ reported_names partial_environ names.
Proof.
  apply (main_missing_variables no_limit (fun _ => None) partial_environ 99 ∅).
  left. exists "GEMINI_API_KEY". split; [set_solver|reflexivity].
Defined.




(** * The trace of a run *)

Lemma posts_app (l1 l2 : list event) : posts (l1 ++ l2) = posts l1 ++ posts l2.
Proof. apply omap_app. Qed.

Lemma ticket_data_post_ok (m : MantisHubIntegration) (args : CreateTicketArgs) :
  post_ok m (ticket_data_of m args).
Proof.
  unfold post_ok, ticket_data_of. cbn.
  repeat split.
  destruct (severity_map_total (arg_severity args)) as [[-> _]|[[-> _]|[-> _]]];
    rewrite !elem_of_cons; auto.
Qed.

Lemma follows_start (m : MantisHubIntegration) (answered : TicketData -> string -> Prop)
    (previous : option event) (ev : event) :
  follows m answered None ev -> follows m answered previous ev.
Proof.
  destruct ev; simpl; auto.
  - intros (args & [=] & _).
  - intros (_ & data & [=] & _).
Qed.

Lemma truthy_nonempty (s : string) : negb (String.eqb s "") = true -> s <> "".
Proof. intros H. apply String.eqb_neq. destruct (String.eqb s ""); [discriminate|reflexivity]. Qed.

Lemma eqb_false_nonempty (s : string) : String.eqb s "" = false -> s <> "".
Proof. apply String.eqb_neq. Qed.

Lemma trace_ordered_app (m : MantisHubIntegration) (answered : TicketData -> string -> Prop)
    (previous : option event) (evs1 evs2 : list event) :
  trace_ordered m answered previous evs1 -> trace_ordered m answered None evs2 ->
  trace_ordered m answered previous (evs1 ++ evs2).
Proof.
  revert previous. induction evs1 as [|ev evs1 IH]; intros previous H1 H2; simpl.
  - destruct evs2 as [|ev2 evs2]; [exact I|].
    destruct H2 as [Hf H2]. split; [apply follows_start, Hf|exact H2].
  - destruct H1 as [Hf H1]. split; [exact Hf|]. apply IH; assumption.
Qed.

Lemma trace_ordered_any (m : MantisHubIntegration) (answered : TicketData -> string -> Prop)
    (previous : option event) (evs : list event) :
  trace_ordered m answered previous evs -> trace_ordered m any_answer previous evs.
Proof.
  revert previous. induction evs as [|ev evs IH]; intros previous; simpl; [auto|].
  intros [Hf H]. split; [|apply IH, H].
  destruct ev; simpl in *; auto.
  destruct Hf as (Hne & data & Hp & _). split; [exact Hne|].
  exists data. split; [exact Hp|exact I].
Qed.

Lemma step_trace_ok_nil (e : env) (m : MantisHubIntegration) : step_trace_ok e m [].
Proof.
  unfold step_trace_ok. simpl.
  repeat split; try lia; [apply Forall_nil_2|congruence].
Qed.

Ltac trace_ok :=
  unfold step_trace_ok, answer_of; cbn;
  split; [repeat split; eauto using truthy_nonempty, eqb_false_nonempty|];
  split; [lia|];
  split; [lia|];
  split;
  [first [apply Forall_nil_2
         |apply Forall_cons_2; [apply ticket_data_post_ok|apply Forall_nil_2]]
  |intros Hne;
   first [exfalso; apply Hne; reflexivity
         |destruct (mantis_configured _); [reflexivity|discriminate]]].

Lemma create_support_ticket_trace (e : env) (message : Message) (issue : string)
    (analysis : pyval) (st : Bot) :
  exists evs,
    log (snd (create_support_ticket e message issue analysis st)) = log st ++ evs
    /\ step_trace_ok e (mantis st) evs.
Proof.
  destruct analysis; run;
    try (exists []; rewrite app_nil_r; split; [reflexivity|apply step_trace_ok_nil]).
  repeat split_match;
    first [ exists []; rewrite app_nil_r; split; [reflexivity|apply step_trace_ok_nil]
          | (eexists; split; [rewrite <- ?app_assoc; reflexivity|]); trace_ok ].
Qed.

Lemma step_trace_ok_snoc (e : env) (m : MantisHubIntegration) (evs : list event)
    (ev : event) :
  event_post ev = None -> event_save ev = None -> event_create ev = None ->
  step_trace_ok e m evs -> step_trace_ok e m (evs ++ [ev]).
Proof.
  unfold step_trace_ok. intros Hp Hs Hc (Ho & H).
  split.
  { apply trace_ordered_app; [exact Ho|]. simpl. split; [|exact I].
    destruct ev; simpl in *; try exact I; discriminate. }
  revert H.
  rewrite posts_app, saved_tickets_app, create_calls_app.
  unfold posts at 2 4 6 8, saved_tickets at 2, create_calls at 2. simpl.
  rewrite Hp, Hs, Hc. simpl. rewrite !app_nil_r. auto.
Qed.

Lemma send_solution_response_trace (e : env) (message : Message) (analysis : pyval)
    (st : Bot) :
  exists evs,
    log (snd (send_solution_response e message analysis st)) = log st ++ evs
    /\ step_trace_ok e (mantis st) evs.
Proof.
  unfold send_solution_response, title_of.
  destruct analysis; run;
    try (exists []; rewrite app_nil_r; split; [reflexivity|apply step_trace_ok_nil]).
  repeat split_match;
    first [ exists []; rewrite app_nil_r; split; [reflexivity|apply step_trace_ok_nil]
          | (eexists; split; [rewrite <- ?app_assoc; reflexivity|]); trace_ok ].
Qed.

Lemma handle_support_request_trace (e : env) (message : Message) (st : Bot) :
  exists evs,
    log (snd (handle_support_request e message st)) = log st ++ evs
    /\ step_trace_ok e (mantis st) evs.
Proof.
  destruct (handle_support_request e message st) as [r st'] eqn:Hrun.
  cbn [snd]. unfold handle_support_request in Hrun.
  destruct (is_greeting _).
  { injection Hrun as <- <-. eexists. split; [reflexivity|]. trace_ok. }
  unfold try_except, bindM at 1, liftM at 1 in Hrun.
  destruct (analyze_issue_total (json_limit e) (gemini e) (clean_content (self_user_id st) message))
    as [v Hv].
  rewrite Hv in Hrun. unfold bindM at 1, liftM at 1 in Hrun.
  destruct (py_getitem v "action") as [action|ex].
  2:{ injection Hrun as <- <-. eexists. split; [reflexivity|]. trace_ok. }
  destruct (py_eq_str action "provide_solution").
  - destruct (send_solution_response_trace e message v st) as (evs & Hlog & Hok).
    destruct (send_solution_response e message v st) as [[[]|ex] st1];
      injection Hrun as <- <-; simpl in *.
    + eauto.
    + exists (evs ++ [EvReply ReplyError]). rewrite Hlog, <- app_assoc.
      split; [reflexivity|]. apply step_trace_ok_snoc; auto.
  - destruct (create_support_ticket_trace e message
                (clean_content (self_user_id st) message) v st) as (evs & Hlog & Hok).
    destruct (create_support_ticket e message _ v st) as [[[]|ex] st1];
      injection Hrun as <- <-; simpl in *.
    + eauto.
    + exists (evs ++ [EvReply ReplyError]). rewrite Hlog, <- app_assoc.
      split; [reflexivity|]. apply step_trace_ok_snoc; auto.
Qed.

Lemma on_reaction_add_trace (e : env) (reaction : Reaction) (user : User) (st : Bot) :
  exists evs,
    log (snd (on_reaction_add e reaction user st)) = log st ++ evs
    /\ step_trace_ok e (mantis st) evs.
Proof.
  destruct (on_reaction_add e reaction user st) as [r st'] eqn:Hrun.
  cbn [snd]. unfold on_reaction_add in Hrun.
  assert (exists evs, log st = log st ++ evs /\ step_trace_ok e (mantis st) evs) as Hnil.
  { exists []. rewrite app_nil_r. split; [reflexivity|apply step_trace_ok_nil]. }
  destruct (user_bot user || negb (String.eqb (reaction_emoji reaction) ticket_emoji));
    [injection Hrun as <- <-; exact Hnil|].
  destruct (pending_tickets st !! reaction_message_id reaction) as [o|];
    [|injection Hrun as <- <-; exact Hnil].
  destruct (offer_user_id o =? user_id user); [|injection Hrun as <- <-; exact Hnil].
  unfold bindM at 1 in Hrun.
  destruct (create_support_ticket_trace e
              {| author := user; content := offer_issue o;
                 channel := reaction_message_channel reaction; mentions_bot := false |}
              (offer_issue o) (offer_analysis o) st) as (evs & Hlog & Hok).
  destruct (create_support_ticket e _ (offer_issue o) (offer_analysis o) st)
    as [[[]|ex] st1];
    [unfold remove_offer in Hrun;
     destruct (pending_tickets st1 !! reaction_message_id reaction)|];
    injection Hrun as <- <-; simpl in *.
  - exists (evs ++ [EvRemoveOffer (reaction_message_id reaction)]).
    rewrite Hlog, <- app_assoc. split; [reflexivity|]. apply step_trace_ok_snoc; auto.
  - eauto.
  - eauto.
Qed.

Lemma bot_step_trace (st st' : Bot) :
  bot_step st st' ->
  exists e evs, log st' = log st ++ evs /\ step_trace_ok e (mantis st) evs.
Proof.
  intros [e message st0|e reaction user st0]; exists e.
  - apply handle_support_request_trace.
  - apply on_reaction_add_trace.
Qed.

Lemma run_trace_ok_app (e : env) (m : MantisHubIntegration) (evs1 evs2 : list event) :
  step_trace_ok e m evs1 -> run_trace_ok m evs2 -> run_trace_ok m (evs1 ++ evs2).
Proof.
  unfold step_trace_ok, run_trace_ok.
  intros (Ho1 & Hs1 & Hc1 & Hf1 & Hm1) (Ho2 & Hf2 & Hs2 & Hm2).
  split; [apply trace_ordered_app; [apply (trace_ordered_any _ _ _ _ Ho1)|assumption]|].
  rewrite posts_app, saved_tickets_app, create_calls_app, !length_app.
  split; [apply Forall_app; auto|]. split; [lia|].
  intros Hm. rewrite (Hm2 Hm), app_nil_r.
  destruct (posts evs1) as [|p ps]; [reflexivity|].
  rewrite Hm1 in Hm; [discriminate|discriminate].
Qed.

Lemma run_trace (a b : Bot) :
  rtc bot_step a b ->
  exists evs, log b = log a ++ evs /\ run_trace_ok (mantis a) evs.
Proof.
  induction 1 as [a|a b c Hab _ (evs2 & Hlog2 & Hok2)].
  - exists []. rewrite app_nil_r. split; [reflexivity|].
    unfold run_trace_ok. simpl. repeat split; auto. 
  - destruct (bot_step_trace a b Hab) as (e & evs1 & Hlog1 & Hok1).
    destruct (bot_step_frame a b Hab) as (Hm & _).
    exists (evs1 ++ evs2). rewrite Hlog2, Hlog1, <- app_assoc.
    split; [reflexivity|]. apply (run_trace_ok_app e); [exact Hok1|].
    rewrite <- Hm. exact Hok2.
Qed.

(** X25. Over every run of the bot from its start with the handlers
    run one after the other, whatever the classifier, Mantis and the
    users do, the trace is in order: each issue posted to Mantis is the
    event right after the call of [create_ticket] whose arguments it
    renders, and each row saved is the event right after an issue
    posted, under an identifier that is not empty.  Each issue posted
    carries the project of the adapter, the category Washing Machine
    Support, the priority normal, the reproducibility always and a
    severity among trivial, minor and major; so there are no more rows
    saved than issues posted, no more issues posted than calls of
    [create_ticket], and an adapter that is not configured posts
    nothing.  In the events the next handler adds, a support request or
    a reaction, the row saved is moreover under the identifier Mantis
    answered to the issue posted just before. *)
Theorem reachable_trace (self_id : Z) (m : MantisHubIntegration)
    (db : gmap string TicketRow) (st : Bot) :
  rtc bot_step (init_bot self_id m db) st ->
  trace_ordered m any_answer None (log st)
  /\ Forall (post_ok m) (posts (log st))
  /\ (length (saved_tickets (log st)) <= length (posts (log st))
      <= length (create_calls (log st)))%nat
  /\ (mantis_configured m = false -> posts (log st) = [])
  /\ (forall (e : env) (message : Message),
        exists evs,
          log (snd (handle_support_request e message st)) = log st ++ evs
          /\ trace_ordered m (answer_of e) None evs)
  /\ (forall (e : env) (reaction : Reaction) (user : User),
        exists evs,
          log (snd (on_reaction_add e reaction user st)) = log st ++ evs
          /\ trace_ordered m (answer_of e) None evs).
Proof.
  intros Hr. destruct (run_trace _ _ Hr) as (evs & Hlog & Ho & Hp & Hl & Hu).
  destruct (run_invariants _ _ Hr (init_bot_invariants self_id m db)) as (_ & Hm & _).
  simpl in Hlog, Hm. rewrite Hlog.
  split; [exact Ho|]. split; [exact Hp|]. split; [exact Hl|]. split; [exact Hu|].
  rewrite <- Hlog, <- Hm. split.
  - intros e message.
    destruct (handle_support_request_trace e message st) as (evs' & H1 & H2 & _).
    exists evs'. auto.
  - intros e reaction user.
    destruct (on_reaction_add_trace e reaction user st) as (evs' & H1 & H2 & _).
    exists evs'. auto.
Qed.

Lemma reachable_trace_witness :
  trace_ordered mantis_hub any_answer None (log bot_ticketed)
  /\ Forall (post_ok mantis_hub) (posts (log bot_ticketed))
  /\ (length (saved_tickets (log bot_ticketed)) <= length (posts (log bot_ticketed))
      <= length (create_calls (log bot_ticketed)))%nat
  /\ (mantis_configured mantis_hub = false -> posts (log bot_ticketed) = [])
  /\ (forall (e : env) (message : Message),
        exists evs,
          log (snd (handle_support_request e message bot_ticketed))
          = log bot_ticketed ++ evs
          /\ trace_ordered mantis_hub (answer_of e) None evs)
  /\ (forall (e : env) (reaction : Reaction) (user : User),
        exists evs,
          log (snd (on_reaction_add e reaction user bot_ticketed))
          = log bot_ticketed ++ evs
          /\ trace_ordered mantis_hub (answer_of e) None evs).
Proof.
  apply (reachable_trace 99 mantis_hub ∅ bot_ticketed).
  apply rtc_once. apply (step_request leak_env leak_message bot0).
Defined.
